(** * gencal: a per-day calendar table between two dates

    Shallow embedding of [generate_calendar.py] (classes [HolidayAPI] and
    [Calendar]) together with the parts of the Python runtime the program
    relies on: the proleptic Gregorian arithmetic of [datetime], the
    holiday web service, and the delimited-text writer of the table
    library. *)

From Stdlib Require Import ZArith Lia List Bool Ascii String.
From stdpp Require Import base strings gmap list fin_maps pretty.

Local Open Scope Z_scope.

(** ** Exceptions and results *)

(** The exceptions the program can raise or let through, each named by the
    class of the raised object.  The program itself raises the bare
    [Exception] class twice, with the two messages below; everything else
    comes from the runtime and the libraries. *)
Inductive error : Type :=
  | Exception (message : string)
  | ValueError          (* strptime: the string does not match the format *)
  | OverflowError       (* date arithmetic out of range *)
  | IndexError          (* list index out of range *)
  | KeyError (key : string)
  | JSONDecodeError     (* json.loads: the text is not JSON *)
  | ConnectionError     (* requests: no answer *)
  | HTTPError (status_code : Z)
  | FrameError.         (* pandas: columns of unequal length *)



Inductive result (A : Type) : Type :=
  | Ok (a : A)
  | Raise (e : error).
Arguments Ok {A} a.
Arguments Raise {A} e.

(** ** The [datetime] module: proleptic Gregorian calendar *)

Definition MINYEAR : Z := 1.
Definition MAXYEAR : Z := 9999.
Definition _MAXORDINAL : Z := 3652059.

Definition _DAYS_IN_MONTH : list Z :=
  [-1; 31; 28; 31; 30; 31; 30; 31; 31; 30; 31; 30; 31].
Definition _DAYS_BEFORE_MONTH : list Z :=
  [-1; 0; 31; 59; 90; 120; 151; 181; 212; 243; 273; 304; 334].

(** [table[i]] for the two month tables. *)
Definition tbl (t : list Z) (i : Z) : Z := nth (Z.to_nat i) t (-1).

Definition _is_leap (year : Z) : bool :=
  (year mod 4 =? 0) && (negb (year mod 100 =? 0) || (year mod 400 =? 0)).

Definition _days_before_year (year : Z) : Z :=
  let y := year - 1 in y * 365 + y / 4 - y / 100 + y / 400.

Definition _days_in_month (year month : Z) : Z :=
  if (month =? 2) && _is_leap year then 29 else tbl _DAYS_IN_MONTH month.

Definition _days_before_month (year month : Z) : Z :=
  tbl _DAYS_BEFORE_MONTH month + (if (2 <? month) && _is_leap year then 1 else 0).

Definition _ymd2ord (year month day : Z) : Z :=
  _days_before_year year + _days_before_month year month + day.

Definition _DI400Y : Z := 146097.
Definition _DI100Y : Z := 36524.
Definition _DI4Y : Z := 1461.

(** Month and day of the [n]-th day (from 0) of a year, the second half of
    [_ord2ymd]: an estimate of the month that is corrected when too large. *)
Definition month_day (leapyear : bool) (n : Z) : Z * Z :=
  let month := Z.shiftr (n + 50) 5 in
  let preceding :=
    tbl _DAYS_BEFORE_MONTH month + (if (2 <? month) && leapyear then 1 else 0) in
  if n <? preceding then
    let month' := month - 1 in
    let preceding' :=
      preceding - (tbl _DAYS_IN_MONTH month'
                   + (if (month' =? 2) && leapyear then 1 else 0)) in
    (month', n - preceding' + 1)
  else (month, n - preceding + 1).

Definition _ord2ymd (n : Z) : Z * Z * Z :=
  let n := n - 1 in
  let n400 := n / _DI400Y in
  let n := n mod _DI400Y in
  let year := n400 * 400 + 1 in
  let n100 := n / _DI100Y in
  let n := n mod _DI100Y in
  let n4 := n / _DI4Y in
  let n := n mod _DI4Y in
  let n1 := n / 365 in
  let n := n mod 365 in
  let year := year + (n100 * 100 + n4 * 4 + n1) in
  if (n1 =? 4) || (n100 =? 4) then (year - 1, 12, 31)
  else
    let leapyear := (n1 =? 3) && (negb (n4 =? 24) || (n100 =? 3)) in
    let '(month, day) := month_day leapyear n in
    (year, month, day).

(** A naive [datetime.datetime] value. *)
Record datetime : Type := mkdatetime {
  year : Z; month : Z; day : Z;
  hour : Z; minute : Z; second : Z; microsecond : Z
}.

(** A [datetime.date] value. *)
Record date : Type := mkdate { d_year : Z; d_month : Z; d_day : Z }.

Record timedelta : Type := mktimedelta {
  days : Z; seconds : Z; microseconds : Z
}.

(** The invariant every [datetime] object satisfies (its constructor
    rejects anything else). *)
Definition valid_datetime (d : datetime) : bool :=
  (MINYEAR <=? year d) && (year d <=? MAXYEAR)
  && (1 <=? month d) && (month d <=? 12)
  && (1 <=? day d) && (day d <=? _days_in_month (year d) (month d))
  && (0 <=? hour d) && (hour d <? 24)
  && (0 <=? minute d) && (minute d <? 60)
  && (0 <=? second d) && (second d <? 60)
  && (0 <=? microsecond d) && (microsecond d <? 1000000).

Definition valid_date (d : date) : bool :=
  (MINYEAR <=? d_year d) && (d_year d <=? MAXYEAR)
  && (1 <=? d_month d) && (d_month d <=? 12)
  && (1 <=? d_day d) && (d_day d <=? _days_in_month (d_year d) (d_month d)).

Definition toordinal (d : datetime) : Z := _ymd2ord (year d) (month d) (day d).

Definition date_of (d : datetime) : date := mkdate (year d) (month d) (day d).

(** [timedelta(days, seconds, microseconds)]: the normalised triple, or
    [OverflowError] beyond a thousand million days. *)
Definition us_per_day : Z := 86400 * 1000000.

Definition timedelta_new (d s us : Z) : result timedelta :=
  let total := (d * 86400 + s) * 1000000 + us in
  let d' := total / us_per_day in
  let r := total mod us_per_day in
  if Z.abs d' <=? 999999999
  then Ok (mktimedelta d' (r / 1000000) (r mod 1000000))
  else Raise OverflowError.

(** [a - b] on two datetimes. *)
Definition datetime_sub (a b : datetime) : result timedelta :=
  let secs1 := second a + minute a * 60 + hour a * 3600 in
  let secs2 := second b + minute b * 60 + hour b * 3600 in
  timedelta_new (toordinal a - toordinal b) (secs1 - secs2)
                (microsecond a - microsecond b).

(** [a + delta] on a datetime and a timedelta. *)
Definition datetime_add (a : datetime) (delta : timedelta) : result datetime :=
  match timedelta_new (toordinal a + days delta)
          (hour a * 3600 + minute a * 60 + second a + seconds delta)
          (microsecond a + microseconds delta) with
  | Raise e => Raise e
  | Ok delta' =>
      let hour' := seconds delta' / 3600 in
      let rem := seconds delta' mod 3600 in
      let minute' := rem / 60 in
      let second' := rem mod 60 in
      if (0 <? days delta') && (days delta' <=? _MAXORDINAL) then
        let '(y, m, d) := _ord2ymd (days delta') in
        Ok (mkdatetime y m d hour' minute' second' (microseconds delta'))
      else Raise OverflowError
  end.

(** Ordinal of the Monday that starts ISO week 1 of [year]. *)
Definition _isoweek1monday (year : Z) : Z :=
  let firstday := _ymd2ord year 1 1 in
  let firstweekday := (firstday + 6) mod 7 in
  let week1monday := firstday - firstweekday in
  if 3 <? firstweekday then week1monday + 7 else week1monday.

(** [d.isocalendar()]: ISO year, ISO week number, ISO weekday. *)
Definition isocalendar (d : datetime) : Z * Z * Z :=
  let year0 := year d in
  let week1monday := _isoweek1monday year0 in
  let today := _ymd2ord (year d) (month d) (day d) in
  let week := (today - week1monday) / 7 in
  let day0 := (today - week1monday) mod 7 in
  if week <? 0 then
    let year1 := year0 - 1 in
    let week1monday' := _isoweek1monday year1 in
    (year1, (today - week1monday') / 7 + 1, (today - week1monday') mod 7 + 1)
  else if 52 <=? week then
    if _isoweek1monday (year0 + 1) <=? today
    then (year0 + 1, 1, day0 + 1)
    else (year0, week + 1, day0 + 1)
  else (year0, week + 1, day0 + 1).

(** ** Text formatting *)

Local Open Scope string_scope.
Local Open Scope list_scope.
Local Open Scope Z_scope.

Definition quotechar : ascii := ascii_of_nat 34.
Definition LF : ascii := ascii_of_nat 10.
Definition CR : ascii := ascii_of_nat 13.

Fixpoint zeros (n : nat) : string :=
  match n with O => "" | S n' => String "0" (zeros n') end.

(** ["%0wd" % n] *)
Definition fmt0 (w : nat) (n : Z) : string :=
  let s := pretty n in zeros (w - String.length s) +:+ s.

(** [str(d)] for a date, [d.isoformat()]: ["%04d-%02d-%02d"]. *)
Definition isoformat (d : date) : string :=
  fmt0 4 (d_year d) +:+ "-" +:+ fmt0 2 (d_month d) +:+ "-" +:+ fmt0 2 (d_day d).

(** [datetime.strftime(d, '%Y-%m-%d')].  [%Y] is the C library's: the year
    in decimal without padding, so a year below 1000 has fewer than four
    digits here, unlike in [isoformat]; month and day are padded to two
    digits. *)
Definition strftime_Ymd (d : datetime) : string :=
  pretty (year d) +:+ "-" +:+ fmt0 2 (month d) +:+ "-" +:+ fmt0 2 (day d).

(** ** Cell values, the column dictionary and the table *)

(** What the program stores in a cell: an integer, a string, a boolean or
    [np.nan]. *)
Inductive value : Type :=
  | VInt (n : Z)
  | VStr (s : string)
  | VBool (b : bool)
  | VNaN.

(** A Python [dict] from column name to list, in insertion order. *)
Definition dict : Type := list (string * list value).

Fixpoint dict_get (k : string) (d : dict) : option (list value) :=
  match d with
  | [] => None
  | (k', c) :: d' => if String.eqb k' k then Some c else dict_get k d'
  end.

(** [d[k].append(v)] *)
Fixpoint dict_append (k : string) (v : value) (d : dict) : result dict :=
  match d with
  | [] => Raise (KeyError k)
  | (k', c) :: d' =>
      if String.eqb k' k then Ok ((k', (c ++ [v])%list) :: d')
      else match dict_append k v d' with
           | Ok d'' => Ok ((k', c) :: d'')
           | Raise e => Raise e
           end
  end.

(** A [pandas.DataFrame]: named columns of equal length, in order. *)
Definition DataFrame : Type := list (string * list value).

Definition df_columns (t : DataFrame) : list string := map fst t.

Definition df_nrows (t : DataFrame) : nat :=
  match t with [] => O | (_, c) :: _ => length c end.

Definition df_row (t : DataFrame) (i : nat) : list value :=
  map (fun kc => nth i (snd kc) VNaN) t.

Definition df_rows (t : DataFrame) : list (list value) :=
  map (df_row t) (seq 0 (df_nrows t)).

Definition df_column (k : string) (t : DataFrame) : option (list value) :=
  dict_get k t.

Definition same_length (d : dict) : bool :=
  match d with
  | [] => true
  | (_, c) :: d' => forallb (fun kc => Nat.eqb (length (snd kc)) (length c)) d'
  end.

(** [pd.DataFrame(d)]: refuses columns of unequal length. *)
Definition pd_DataFrame (d : dict) : result DataFrame :=
  if same_length d then Ok d else Raise FrameError.

(** [frame[keys]]: the named columns, in the order of [keys]. *)
Fixpoint df_select (keys : list string) (t : DataFrame) : result DataFrame :=
  match keys with
  | [] => Ok []
  | k :: keys' =>
      match dict_get k t with
      | None => Raise (KeyError k)
      | Some c =>
          match df_select keys' t with
          | Ok t' => Ok ((k, c) :: t')
          | Raise e => Raise e
          end
      end
  end.

(** *** Delimited text

    The table library's writer with its defaults: a field is wrapped in
    quote characters (its own quote characters doubled) exactly when it
    contains the separator, the quote character or a character of the line
    terminator, which is the line feed (a carriage return alone does not
    make the writer quote); [nan] is the empty field; each line ends with
    a line feed. *)

Definition cell_text (v : value) : string :=
  match v with
  | VInt n => pretty n
  | VStr s => s
  | VBool true => "True"
  | VBool false => "False"
  | VNaN => ""
  end.

Fixpoint contains (c : ascii) (s : string) : bool :=
  match s with
  | EmptyString => false
  | String a s' => Ascii.eqb a c || contains c s'
  end.

Definition needs_quote (sep : ascii) (s : string) : bool :=
  contains sep s || contains quotechar s || contains LF s.

Fixpoint double_quotes (s : string) : string :=
  match s with
  | EmptyString => EmptyString
  | String a s' =>
      if Ascii.eqb a quotechar
      then String quotechar (String quotechar (double_quotes s'))
      else String a (double_quotes s')
  end.

Definition quote_field (sep : ascii) (s : string) : string :=
  if needs_quote sep s
  then String quotechar (double_quotes s +:+ String quotechar "")
  else s.

Fixpoint join (sep : ascii) (fields : list string) : string :=
  match fields with
  | [] => ""
  | [f] => f
  | f :: fs => f +:+ String sep (join sep fs)
  end.

Definition csv_line (sep : ascii) (fields : list string) : string :=
  join sep (map (quote_field sep) fields) +:+ String LF "".

Fixpoint concat_lines (ls : list string) : string :=
  match ls with
  | [] => ""
  | l :: ls' => l +:+ concat_lines ls'
  end.

(** [frame.to_csv(sep=sep, index=False)] as text. *)
Definition to_csv (sep : ascii) (t : DataFrame) : string :=
  csv_line sep (df_columns t)
  +:+ concat_lines (map (fun r => csv_line sep (map cell_text r)) (df_rows t)).

(** Reading the text back the plain way: cut it into lines at each line
    feed, cut each line at each separator. *)
Fixpoint split_on (c : ascii) (s : string) : list string :=
  match s with
  | EmptyString => [EmptyString]
  | String a s' =>
      if Ascii.eqb a c then EmptyString :: split_on c s'
      else match split_on c s' with
           | [] => [String a EmptyString]
           | f :: fs => String a f :: fs
           end
  end.

Fixpoint splitlines (s : string) : list string :=
  match s with
  | EmptyString => []
  | String a s' =>
      if Ascii.eqb a LF then EmptyString :: splitlines s'
      else match splitlines s' with
           | [] => [String a EmptyString]
           | l :: ls => String a l :: ls
           end
  end.

Definition reparse (sep : ascii) (text : string) : list (list string) :=
  map (split_on sep) (splitlines text).

(** What re-reading is expected to give back: the header, then the text of
    every cell, row by row. *)
Definition table_text (t : DataFrame) : list (list string) :=
  df_columns t :: map (map cell_text) (df_rows t).

(** ** The holiday web service *)

(** One entry of the service's answer for a date. *)
Record holiday : Type := mkholiday {
  name : string; public : bool; observed : string
}.

(** The [holidays] member of a successful answer: date string to entries,
    in the order the service lists them. *)
Definition holiday_dict : Type := list (string * list holiday).

(** The decoded JSON object of an answer. *)
Record json_body : Type := mkbody {
  j_error : option string;
  j_status : option string;
  j_holidays : option holiday_dict
}.

(** An HTTP answer; [text] is [None] when the body is not JSON. *)
Record response : Type := mkresponse {
  status_code : Z;
  text : option json_body
}.

(** A GET request to the service. *)
Record request : Type := mkrequest {
  url : string; key : string; q_country : string; q_year : Z
}.

(** What the program does to the outside: requests sent, warnings logged,
    files written. *)
Record World : Type := mkWorld {
  requests : list request;
  warnings : list Z;
  files : list (string * string)
}.

Definition World0 : World := mkWorld [] [] [].

Record HolidayAPI : Type := mkHolidayAPI { api_key : string }.

Definition URL : string := "https://holidayapi.com/v1/holidays".

Definition missing_key_message : string :=
  "You must supply a holiday API key (https://holidayapi.com/)".

(** [HolidayAPI.__init__] *)
Definition HolidayAPI_init (api_key : option string) : result HolidayAPI :=
  match api_key with
  | None => Raise (Exception missing_key_message)
  | Some k => Ok (mkHolidayAPI k)
  end.

(** ** The calendar builder *)

(** A [Calendar] object.  [include_holidays] is the boolean flag of the
    constructor.  Python sets [holiday_api_key] and [country] only when
    holidays are included and [holidays] only in the holiday resolution;
    the program reads none of them before it has set it, so they are fields
    from the start here, [holidays] being empty until then. *)
Record Calendar : Type := mkCalendar {
  start_date : datetime;
  end_date : datetime;
  num_days : Z;
  include_holidays : bool;
  CALENDAR_DATA : dict;
  holiday_api_key : option string;
  country : string;
  holidays : gmap string string
}.

Definition set_CALENDAR_DATA (d : dict) (self : Calendar) : Calendar :=
  mkCalendar (start_date self) (end_date self) (num_days self)
    (include_holidays self) d (holiday_api_key self) (country self)
    (holidays self).

Definition set_holidays (h : gmap string string) (self : Calendar) : Calendar :=
  mkCalendar (start_date self) (end_date self) (num_days self)
    (include_holidays self) (CALENDAR_DATA self) (holiday_api_key self)
    (country self) h.

Definition WEEKDAY_MAP : list (Z * string) :=
  [(1, "Monday"); (2, "Tuesday"); (3, "Wednesday"); (4, "Thursday");
   (5, "Friday"); (6, "Saturday"); (7, "Sunday")].

Definition CALENDAR_KEYS : list string :=
  ["date"; "year"; "month"; "day"; "weekday"; "weekday_name"; "weeknumber";
   "is_weekend"; "is_business_day"; "is_holiday"; "holiday_name"].

Fixpoint assoc (k : Z) (m : list (Z * string)) : option string :=
  match m with
  | [] => None
  | (k', v) :: m' => if k' =? k then Some v else assoc k m'
  end.

(** [WEEKDAY_MAP[weekday]] *)
Definition WEEKDAY_MAP_get (weekday : Z) : result string :=
  match assoc weekday WEEKDAY_MAP with
  | Some s => Ok s
  | None => Raise (KeyError (pretty weekday))
  end.

(** [range(n)] and [range(a, b)] *)
Definition py_range (n : Z) : list Z := map Z.of_nat (seq 0 (Z.to_nat n)).
Definition py_range2 (a b : Z) : list Z :=
  map (fun i => a + Z.of_nat i) (seq 0 (Z.to_nat (b - a))).

(** The state the methods run in: the object and the outside world.  An
    exception stops a method and leaves the state as it was at that point. *)
Definition State : Type := Calendar * World.

Definition M (A : Type) : Type := State -> State * result A.

Definition ret {A} (a : A) : M A := fun s => (s, Ok a).

Definition bind {A B} (m : M A) (f : A -> M B) : M B :=
  fun s => match m s with
           | (s', Ok a) => f a s'
           | (s', Raise e) => (s', Raise e)
           end.

Definition lift {A} (r : result A) : M A := fun s => (s, r).

Definition get_self : M Calendar := fun s => (s, Ok (fst s)).

Definition modify_self (f : Calendar -> Calendar) : M unit :=
  fun s => ((f (fst s), snd s), Ok tt).

Definition modify_world (f : World -> World) : M unit :=
  fun s => ((fst s, f (snd s)), Ok tt).

Definition when (b : bool) (m : M unit) : M unit := if b then m else ret tt.

#[global] Instance M_bind : MBind M := fun A B f m => bind m f.
#[global] Instance M_ret : MRet M := fun A a => ret a.

(** [for x in l: body(x)] *)
Fixpoint for_ {A} (l : list A) (body : A -> M unit) : M unit :=
  match l with
  | [] => ret tt
  | x :: l' => body x;; for_ l' body
  end.

(** [for x in l: out.append(body(x))] *)
Fixpoint for_collect {A B} (l : list A) (body : A -> M B) : M (list B) :=
  match l with
  | [] => ret []
  | x :: l' => b ← body x; bs ← for_collect l' body; ret (b :: bs)
  end.

Definition append (k : string) (v : value) : M unit :=
  self ← get_self;
  d ← lift (dict_append k v (CALENDAR_DATA self));
  modify_self (set_CALENDAR_DATA d).

Definition _gen_calendar_data_template : dict :=
  map (fun k => (k, [])) CALENDAR_KEYS.

(** [Calendar._is_weekend] *)
Definition _is_weekend (weekday_index : Z) : bool :=
  (weekday_index =? 6) || (weekday_index =? 7).

(** [Calendar._is_holiday] *)
Definition _is_holiday (self : Calendar) (datetime_object : datetime)
  : bool * value :=
  let date_key := strftime_Ymd datetime_object in
  match holidays self !! date_key with
  | None => (false, VNaN)
  | Some h => (true, VStr h)
  end.

(** [Calendar._is_business_day] *)
Definition _is_business_day (self : Calendar) (weekday_index : Z)
    (datetime_object : datetime) : bool :=
  if include_holidays self
  then negb (_is_weekend weekday_index)
       && negb (fst (_is_holiday self datetime_object))
  else negb (_is_weekend weekday_index).

(** [Calendar._gen_dates]: what the generator yields, item by item. *)
Definition _gen_dates (self : Calendar) : list (result datetime) :=
  map (fun day_num =>
         match timedelta_new day_num 0 0 with
         | Ok delta => datetime_add (start_date self) delta
         | Raise e => Raise e
         end)
      (py_range (num_days self)).

(** The part of [_get_holidays_from_api] that handles one date of one
    answer. *)
Definition index_date (holiday_data : list holiday) : M unit :=
  when (1 <? Z.of_nat (length holiday_data))
    (let public_holidays := List.filter public holiday_data in
     match public_holidays with
     | first_public_holiday :: _ =>
         modify_self (fun self =>
           set_holidays (<[observed first_public_holiday :=
                             name first_public_holiday]> (holidays self)) self)
     | [] => ret tt
     end);;
  match holiday_data with
  | [] => lift (Raise IndexError)
  | holiday_data0 :: _ =>
      when (public holiday_data0)
        (modify_self (fun self =>
           set_holidays (<[observed holiday_data0 := name holiday_data0]>
                           (holidays self)) self))
  end.

(** One iteration of [generate]'s loop. *)
Definition append_day (d : datetime) : M unit :=
  self ← get_self;
  let '(year, weeknumber, weekday) := isocalendar d in
  append "date" (VStr (isoformat (date_of d)));;
  append "year" (VInt year);;
  append "month" (VInt (month d));;
  append "day" (VInt (day d));;
  append "weekday" (VInt weekday);;
  weekday_name ← lift (WEEKDAY_MAP_get weekday);
  append "weekday_name" (VStr weekday_name);;
  append "weeknumber" (VInt weeknumber);;
  append "is_weekend" (VBool (_is_weekend weekday));;
  let '(is_holiday, holiday_name) :=
    if include_holidays self
    then (let '(b, n) := _is_holiday self d in (VBool b, n))
    else (VNaN, VNaN) in
  append "is_holiday" is_holiday;;
  append "holiday_name" holiday_name;;
  append "is_business_day" (VBool (_is_business_day self weekday d)).

(** What [_get_holidays] makes of the service's answer: no answer at all
    is a transport failure; a body with an [error] member is reported with
    its [status]; a failing status code is raised; otherwise the [holidays]
    member is returned. *)
Definition read_response (r : option response) : result holiday_dict :=
  match r with
  | None => Raise ConnectionError
  | Some response =>
      match text response with
      | None => Raise JSONDecodeError
      | Some data =>
          match j_error data with
          | Some message =>
              match j_status data with
              | Some status => Raise (Exception (status +:+ ": " +:+ message))
              | None => Raise (KeyError "status")
              end
          | None =>
              if negb (status_code response =? 200)
                 && (400 <=? status_code response)
                 && (status_code response <? 600)
              then Raise (HTTPError (status_code response))
              else match j_holidays data with
                   | Some h => Ok h
                   | None => Raise (KeyError "holidays")
                   end
          end
      end
  end.

Section Calendar.

(** The runtime's date parser [datetime.strptime(string, format)], the
    holiday service (no answer at all is a transport failure) and the
    current year are given from outside. *)
Variable strptime : string -> string -> option datetime.
Variable service : request -> option response.
Variable today_year : Z.

(** [HolidayAPI._get_holidays] and [get_holidays]: send the request, then
    read the answer. *)
Definition _get_holidays (self : HolidayAPI) (year : Z) (country : string)
  : M holiday_dict :=
  let payload := mkrequest URL (api_key self) country year in
  modify_world (fun w =>
    mkWorld (requests w ++ [payload])%list (warnings w) (files w));;
  lift (read_response (service payload)).

Definition get_holidays (self : HolidayAPI) (year : Z) (country : string)
  : M holiday_dict := _get_holidays self year country.

(** [Calendar.__init__] *)
Definition Calendar_init (start_date_string end_date_string : string)
    (include_holidays : bool) (holiday_api_key : option string)
    (country : string) (format : string) : result Calendar :=
  match strptime start_date_string format with
  | None => Raise ValueError
  | Some start_date =>
      match strptime end_date_string format with
      | None => Raise ValueError
      | Some end_date =>
          match datetime_sub end_date start_date with
          | Raise e => Raise e
          | Ok delta =>
              Ok (mkCalendar start_date end_date (days delta) include_holidays
                    _gen_calendar_data_template holiday_api_key country ∅)
          end
      end
  end.

(** [Calendar._get_holidays_from_api] *)
Definition _get_holidays_from_api : M unit :=
  self ← get_self;
  let years := py_range2 (year (start_date self)) (year (end_date self) + 1) in
  holidays ← for_collect years (fun year =>
      when (today_year <=? year)
        (modify_world (fun w =>
           mkWorld (requests w) (warnings w ++ [year])%list (files w)));;
      api ← lift (HolidayAPI_init (holiday_api_key self));
      get_holidays api year (country self));
  modify_self (set_holidays ∅);;
  for_ holidays (fun holiday_data_dict =>
    for_ holiday_data_dict (fun item => index_date (snd item))).

(** [Calendar.generate]; with a destination the text is written there and
    [None] is returned.  The destination is a path that can be written: a
    write the file system refuses would raise at the last line, after the
    rows were appended, and is not part of this model. *)
Definition generate (dest : option string) (sep : ascii) (reset : bool)
  : M (option DataFrame) :=
  when reset (modify_self (set_CALENDAR_DATA _gen_calendar_data_template));;
  self ← get_self;
  when (include_holidays self) _get_holidays_from_api;;
  self ← get_self;
  for_ (_gen_dates self) (fun yielded =>
    d ← lift yielded; append_day d);;
  self ← get_self;
  frame ← lift (pd_DataFrame (CALENDAR_DATA self));
  calendar ← lift (df_select CALENDAR_KEYS frame);
  match dest with
  | None => ret (Some calendar)
  | Some path =>
      modify_world (fun w =>
        mkWorld (requests w) (warnings w)
                (files w ++ [(path, to_csv sep calendar)])%list);;
      ret None
  end.

End Calendar.

(** ** The date parser on the default format

    [strptime] restricted to the default format ['%Y-%m-%d']: four digits,
    a month [1[0-2]|0[1-9]|[1-9]], a day [3[01]|[12]\d|0[1-9]|[1-9]| [1-9]],
    the alternatives tried in this order, nothing left over, and a date that
    exists.  Other formats are not covered by this instance and are
    reported as not matching. *)

Definition default_format : string := "%Y-%m-%d".
Definition default_country : string := "US".
Definition default_sep : ascii := ",".

Definition digit_val (c : ascii) : option Z :=
  let n := Z.of_nat (nat_of_ascii c) in
  if (48 <=? n) && (n <=? 57) then Some (n - 48) else None.

Definition digit_in (lo hi : Z) (c : ascii) : option Z :=
  match digit_val c with
  | Some v => if (lo <=? v) && (v <=? hi) then Some v else None
  | None => None
  end.

Definition parse_year (s : string) : option (Z * string) :=
  match s with
  | String a (String b (String c (String d r))) =>
      match digit_val a, digit_val b, digit_val c, digit_val d with
      | Some x, Some y, Some z, Some w =>
          Some (x * 1000 + y * 100 + z * 10 + w, r)
      | _, _, _, _ => None
      end
  | _ => None
  end.

Definition parse_month (s : string) : option (Z * string) :=
  match s with
  | EmptyString => None
  | String a r =>
      let two :=
        match r with
        | String b r' =>
            match digit_in 1 1 a, digit_in 0 2 b with
            | Some _, Some y => Some (10 + y, r')
            | _, _ =>
                match digit_in 0 0 a, digit_in 1 9 b with
                | Some _, Some y => Some (y, r')
                | _, _ => None
                end
            end
        | EmptyString => None
        end in
      match two with
      | Some res => Some res
      | None => match digit_in 1 9 a with
                | Some x => Some (x, r)
                | None => None
                end
      end
  end.

Definition parse_day (s : string) : option (Z * string) :=
  match s with
  | EmptyString => None
  | String a r =>
      let two :=
        match r with
        | String b r' =>
            match digit_in 3 3 a, digit_in 0 1 b with
            | Some _, Some y => Some (30 + y, r')
            | _, _ =>
                match digit_in 1 2 a, digit_in 0 9 b with
                | Some x, Some y => Some (x * 10 + y, r')
                | _, _ =>
                    match digit_in 0 0 a, digit_in 1 9 b with
                    | Some _, Some y => Some (y, r')
                    | _, _ => None
                    end
                end
            end
        | EmptyString => None
        end in
      match two with
      | Some res => Some res
      | None =>
          match digit_in 1 9 a with
          | Some x => Some (x, r)
          | None =>
              match r with
              | String b r' =>
                  if Ascii.eqb a " " then
                    match digit_in 1 9 b with
                    | Some y => Some (y, r')
                    | None => None
                    end
                  else None
              | EmptyString => None
              end
          end
      end
  end.

Definition expect (c : ascii) (s : string) : option string :=
  match s with
  | String a r => if Ascii.eqb a c then Some r else None
  | EmptyString => None
  end.

Definition parse_Ymd (s : string) : option datetime :=
  match parse_year s with
  | None => None
  | Some (y, s1) =>
      match expect "-" s1 with
      | None => None
      | Some s2 =>
          match parse_month s2 with
          | None => None
          | Some (m, s3) =>
              match expect "-" s3 with
              | None => None
              | Some s4 =>
                  match parse_day s4 with
                  | Some (d, EmptyString) =>
                      let r := mkdatetime y m d 0 0 0 0 in
                      if valid_datetime r then Some r else None
                  | _ => None
                  end
              end
          end
      end
  end.

Definition strptime_iso (s format : string) : option datetime :=
  if String.eqb format default_format then parse_Ymd s else None.

(** A service that never answers, for runs that do not need one. *)
Definition no_service : request -> option response := fun _ => None.

(** ** Order on datetimes

    Python compares two naive datetimes as the tuples of their fields. *)

Definition datetime_tuple (d : datetime) : list Z :=
  [year d; month d; day d; hour d; minute d; second d; microsecond d].

Fixpoint lex_leb (a b : list Z) : bool :=
  match a, b with
  | [], _ => true
  | _ :: _, [] => false
  | x :: a', y :: b' => (x <? y) || ((x =? y) && lex_leb a' b')
  end.

(** [a <= b] and [a < b] *)
Definition datetime_le (a b : datetime) : bool :=
  lex_leb (datetime_tuple a) (datetime_tuple b).
Definition datetime_lt (a b : datetime) : bool := negb (datetime_le b a).

(** Microseconds from the start of day 0 of the calendar. *)
Definition instant (d : datetime) : Z :=
  (toordinal d * 86400 + hour d * 3600 + minute d * 60 + second d) * 1000000
  + microsecond d.

(** The datetime [k] days after [a], same time of day. *)
Definition plus_days (a : datetime) (k : Z) : datetime :=
  let '(y, m, d) := _ord2ymd (toordinal a + k) in
  mkdatetime y m d (hour a) (minute a) (second a) (microsecond a).

(** ** Views used to state the properties *)

(** The cells the loop of [generate] appends for the day [d], listed in
    the order of [CALENDAR_KEYS]. *)
Definition weekday_name_of (weekday : Z) : string :=
  match assoc weekday WEEKDAY_MAP with Some s => s | None => "" end.

Definition row_cells (self : Calendar) (d : datetime) : list value :=
  let '(iso_year, weeknumber, weekday) := isocalendar d in
  [ VStr (isoformat (date_of d));
    VInt iso_year;
    VInt (month d);
    VInt (day d);
    VInt weekday;
    VStr (weekday_name_of weekday);
    VInt weeknumber;
    VBool (_is_weekend weekday);
    VBool (_is_business_day self weekday d);
    (if include_holidays self then VBool (fst (_is_holiday self d)) else VNaN);
    (if include_holidays self then snd (_is_holiday self d) else VNaN) ].

(** The column dictionary that holds the given rows. *)
Definition columns_of (rows : list (list value)) : list (list value) :=
  map (fun j => map (fun r => nth j r VNaN) rows) (seq 0 11).

Definition buffer_of (rows : list (list value)) : dict :=
  combine CALENDAR_KEYS (columns_of rows).

Definition full_rows (rows : list (list value)) : Prop :=
  Forall (fun r => length r = 11%nat) rows.

(** The days [_gen_dates] walks through. *)
Definition dates_of (self : Calendar) : list datetime :=
  map (plus_days (start_date self)) (py_range (num_days self)).

(** What a well-formed builder looks like: both dates are datetime
    objects, the day count is the one [__init__] computed, and the column
    dictionary holds whole rows. *)
Definition wf_dates (self : Calendar) : Prop :=
  valid_datetime (start_date self) = true
  /\ valid_datetime (end_date self) = true
  /\ num_days self
     = (instant (end_date self) - instant (start_date self)) / us_per_day.

Definition wf_calendar (self : Calendar) : Prop :=
  wf_dates self
  /\ exists rows, full_rows rows /\ CALENDAR_DATA self = buffer_of rows.

(** *** The merge policy, as the specification words it

    For a date with several entries, keep the public ones and index the
    first of them, if any, under its observed date; for a date with exactly
    one entry, index it under its observed date iff it is public. *)
Definition policy_step (index : gmap string string) (entries : list holiday)
  : gmap string string :=
  match entries with
  | [] => index
  | [only] => if public only then <[observed only := name only]> index else index
  | _ :: _ :: _ =>
      match List.filter public entries with
      | first :: _ => <[observed first := name first]> index
      | [] => index
      end
  end.

Definition policy_dict (index : gmap string string) (answer : holiday_dict)
  : gmap string string :=
  fold_left (fun h item => policy_step h (snd item)) answer index.

Definition policy_index (answers : list holiday_dict) : gmap string string :=
  fold_left policy_dict answers ∅.

(** Every date of every answer lists at least one entry. *)
Definition entries_nonempty (answers : list holiday_dict) : bool :=
  forallb (fun answer =>
             forallb (fun item => negb (Nat.eqb (length (snd item)) 0)) answer)
          answers.

(** The fetching loop of [_get_holidays_from_api] seen from outside: the
    world after it and the answers it collected, or the first exception. *)
Fixpoint fetch_all (service : request -> option response) (today_year : Z)
    (key : option string) (country : string) (years : list Z) (w : World)
  : World * result (list holiday_dict) :=
  match years with
  | [] => (w, Ok [])
  | year :: years' =>
      let w1 := if today_year <=? year
                then mkWorld (requests w) (warnings w ++ [year]) (files w)
                else w in
      match key with
      | None => (w1, Raise (Exception missing_key_message))
      | Some k =>
          let payload := mkrequest URL k country year in
          let w2 := mkWorld (requests w1 ++ [payload]) (warnings w1) (files w1) in
          match read_response (service payload) with
          | Raise e => (w2, Raise e)
          | Ok h =>
              match fetch_all service today_year key country years' w2 with
              | (w3, Ok hs) => (w3, Ok (h :: hs))
              | (w3, Raise e) => (w3, Raise e)
              end
          end
      end
  end.

Definition years_of (self : Calendar) : list Z :=
  py_range2 (year (start_date self)) (year (end_date self) + 1).

(** The first steps of [generate]: the optional reset, then the optional
    holiday resolution. *)
Definition reset_buffer (reset : bool) (self : Calendar) : Calendar :=
  if reset then set_CALENDAR_DATA _gen_calendar_data_template self else self.

Definition resolve (service : request -> option response) (today_year : Z)
    (self : Calendar) (w : World) : State * result unit :=
  when (include_holidays self) (_get_holidays_from_api service today_year)
       (self, w).

Definition write_file (path text : string) (w : World) : World :=
  mkWorld (requests w) (warnings w) (files w ++ [(path, text)]).

(** ** A sample service

    For 2021 it lists, on 1 January, the public holiday New Year's Day and
    a second entry that is not public; for any other year it answers with
    an error body. *)
Definition new_years_day : holiday :=
  mkholiday "New Year's Day" true "2021-01-01".

Definition local_observance : holiday :=
  mkholiday "Founders Day" false "2021-01-01".

Definition sample_service (r : request) : option response :=
  if q_year r =? 2021
  then Some (mkresponse 200
               (Some (mkbody None None
                        (Some [("2021-01-01", [new_years_day; local_observance])]))))
  else Some (mkresponse 402
               (Some (mkbody (Some "paid plan required") (Some "402") None))).

(** A service that answers 2021 with a date that has no entry at all. *)
Definition hollow_service (r : request) : option response :=
  Some (mkresponse 200
          (Some (mkbody None None (Some [("2021-01-01", [])])))).

(** The caller's [Calendar(...).generate(...)]: construct, then generate;
    what comes back and what the world looks like afterwards. *)
Definition Calendar_generate (strptime : string -> string -> option datetime)
    (service : request -> option response) (today_year : Z)
    (start_date_string end_date_string : string) (include_holidays : bool)
    (holiday_api_key : option string) (country format : string)
    (dest : option string) (sep : ascii) (reset : bool) (w : World)
  : World * result (option DataFrame) :=
  match Calendar_init strptime start_date_string end_date_string
          include_holidays holiday_api_key country format with
  | Raise err => (w, Raise err)
  | Ok b =>
      let '((_, w'), r) := generate service today_year dest sep reset (b, w) in
      (w', r)
  end.

(** Two builder states of the same construction: they may differ in the
    column dictionary and the holiday index only. *)
Definition same_config (a b : Calendar) : Prop :=
  start_date a = start_date b /\ end_date a = end_date b
  /\ num_days a = num_days b /\ include_holidays a = include_holidays b
  /\ holiday_api_key a = holiday_api_key b /\ country a = country b.

(** ** Checks run over whole ranges

    Boolean checks that the lemmas below evaluate over every day of a
    year, every four-digit year and every month and day. *)

(** [month_day] gives a month and a day that exist and add up to [n]. *)
Definition month_day_ok (leapyear : bool) (n : Z) : bool :=
  let '(m, d) := month_day leapyear n in
  (1 <=? m) && (m <=? 12) && (1 <=? d)
  && (d <=? (if (m =? 2) && leapyear then 29 else tbl _DAYS_IN_MONTH m))
  && (tbl _DAYS_BEFORE_MONTH m + (if (2 <? m) && leapyear then 1 else 0) + d
      =? n + 1).

(** The four characters of a padded year read back as that year. *)
Definition year_text_ok (y : Z) : bool :=
  match fmt0 4 y with
  | String a (String b (String c (String d EmptyString))) =>
      match digit_val a, digit_val b, digit_val c, digit_val d with
      | Some x, Some x0, Some x1, Some x2 =>
          x * 1000 + x0 * 100 + x1 * 10 + x2 =? y
      | _, _, _, _ => false
      end
  | _ => false
  end.

(** A padded month and day, with the dash between, read back as they are. *)
Definition month_day_text_ok (m d : Z) : bool :=
  match parse_month (fmt0 2 m +:+ "-" +:+ fmt0 2 d) with
  | Some (m', String c s4) =>
      Ascii.eqb c "-" && (m' =? m)
      && match parse_day s4 with
         | Some (d', EmptyString) => d' =? d
         | _ => false
         end
  | _ => false
  end.


(** ** Further views *)

(** The characters that the cells of a table without holidays are made
    of: digits, letters, the dash and the underscore. *)
Definition plain_char (c : ascii) : bool :=
  let n := Z.of_nat (nat_of_ascii c) in
  ((48 <=? n) && (n <=? 57)) || ((65 <=? n) && (n <=? 90))
  || ((97 <=? n) && (n <=? 122)) || (n =? 45) || (n =? 95).

Fixpoint plain (s : string) : bool :=
  match s with
  | EmptyString => true
  | String a s' => plain_char a && plain s'
  end.

(** A separator that no plain field contains and that is none of the
    writer's special characters. *)
Definition safe_sep (sep : ascii) : bool :=
  negb (plain_char sep) && negb (Ascii.eqb sep quotechar)
  && negb (Ascii.eqb sep LF) && negb (Ascii.eqb sep CR).

(** The assignments [self.holidays[observed] = name] that
    [_get_holidays_from_api] performs for one date's entry list, in order:
    the first public entry when there are several entries, then element 0
    when it is public. *)
Definition writes_of (holiday_data : list holiday) : list holiday :=
  (if 1 <? Z.of_nat (length holiday_data)
   then match List.filter public holiday_data with
        | first_public_holiday :: _ => [first_public_holiday]
        | [] => []
        end
   else [])
  ++ match holiday_data with
     | holiday_data0 :: _ => if public holiday_data0 then [holiday_data0] else []
     | [] => []
     end.

(** All assignments for the answers of all years, in order. *)
Definition all_writes (answers : list holiday_dict) : list holiday :=
  concat (map (fun answer => concat (map (fun item => writes_of (snd item)) answer))
              answers).

Definition assign (index : gmap string string) (h : holiday)
  : gmap string string :=
  <[observed h := name h]> index.

(** The request [_get_holidays] sends for a year. *)
Definition request_for (k ctry : string) (year : Z) : request :=
  mkrequest URL k ctry year.

(** The ISO weekday of a datetime, as [isocalendar] gives it. *)
Definition iso_weekday (d : datetime) : Z := snd (isocalendar d).

(** The time of day of a datetime. *)
Definition time_of_day (d : datetime) : Z * Z * Z * Z :=
  (hour d, minute d, second d, microsecond d).

(** From the year 1000 on the padded and the plain year are the same text;
    before, the plain one is shorter. *)
Definition year_unpadded_ok (y : Z) : bool :=
  if 1000 <=? y
  then String.eqb (fmt0 4 y) (pretty y)
  else Nat.ltb (String.length (pretty y)) 4
       && Nat.eqb (String.length (fmt0 4 y)) 4.

(** * Properties

    From here on, lemmas about the embedding. *)

(** *** Calendar arithmetic *)

Lemma month_day_table (leapyear : bool) :
  forallb (fun i => month_day_ok leapyear (Z.of_nat i)) (seq 0 365) = true.
Proof. destruct leapyear; vm_compute; reflexivity. Qed.

Lemma month_day_spec (leapyear : bool) (n : Z) :
  0 <= n < 365 -> month_day_ok leapyear n = true.
Proof.
  intros Hn.
  pose proof (month_day_table leapyear) as H.
  rewrite forallb_forall in H.
  specialize (H (Z.to_nat n)).
  rewrite Z2Nat.id in H by lia.
  apply H, in_seq. lia.
Qed.

Lemma is_leap_decomposed (a b c d : Z) :
  0 <= a -> 0 <= b <= 3 -> 0 <= c <= 24 -> 0 <= d <= 3 ->
  _is_leap (a * 400 + 1 + (b * 100 + c * 4 + d))
  = (d =? 3) && (negb (c =? 24) || (b =? 3)).
Proof.
  intros Ha Hb Hc Hd. unfold _is_leap.
  set (y := a * 400 + 1 + (b * 100 + c * 4 + d)).
  destruct (Z.eqb_spec d 3), (Z.eqb_spec c 24), (Z.eqb_spec b 3),
    (Z.eqb_spec (y mod 4) 0), (Z.eqb_spec (y mod 100) 0),
    (Z.eqb_spec (y mod 400) 0); simpl; try reflexivity; exfalso; subst y; Z.div_mod_to_equations; lia.
Qed.

Lemma days_before_year_decomposed (a b c d : Z) :
  0 <= a -> 0 <= b <= 3 -> 0 <= c <= 24 -> 0 <= d <= 3 ->
  _days_before_year (a * 400 + 1 + (b * 100 + c * 4 + d))
  = a * 146097 + b * 36524 + c * 1461 + d * 365.
Proof.
  intros Ha Hb Hc Hd. unfold _days_before_year. cbv zeta. Z.div_mod_to_equations. lia.
Qed.

Lemma is_leap_true (y : Z) :
  y mod 4 = 0 -> (y mod 100 <> 0 \/ y mod 400 = 0) -> _is_leap y = true.
Proof.
  intros H4 H. unfold _is_leap.
  destruct (Z.eqb_spec (y mod 4) 0), (Z.eqb_spec (y mod 100) 0),
    (Z.eqb_spec (y mod 400) 0); simpl; try reflexivity; lia.
Qed.

Lemma december_31 (y n : Z) :
  1 <= y <= 9999 -> _is_leap y = true -> _days_before_year y + 366 = n ->
  valid_date (mkdate y 12 31) = true /\ _ymd2ord y 12 31 = n.
Proof.
  intros Hy Hl Hn. unfold valid_date, _ymd2ord, _days_in_month,
    _days_before_month, MINYEAR, MAXYEAR. simpl. rewrite Hl. simpl.
  change (tbl _DAYS_BEFORE_MONTH 12) with 334.
  change (tbl _DAYS_IN_MONTH 12) with 31.
  split; [| lia].
  repeat (apply andb_true_intro; split); lia.
Qed.

Lemma ord2ymd_spec (n : Z) :
  1 <= n <= _MAXORDINAL ->
  let '(y, m, d) := _ord2ymd n in
  valid_date (mkdate y m d) = true /\ _ymd2ord y m d = n.
Proof.
  intros Hn. unfold _MAXORDINAL in Hn. unfold _ord2ymd.
  unfold _DI400Y, _DI100Y, _DI4Y. cbv zeta.
  set (a := (n - 1) / 146097).
  set (r1 := (n - 1) mod 146097).
  set (b := r1 / 36524).
  set (r2 := r1 mod 36524).
  set (c := r2 / 1461).
  set (r3 := r2 mod 1461).
  set (d := r3 / 365).
  set (r := r3 mod 365).
  assert (Ha : n - 1 = 146097 * a + r1 /\ 0 <= r1 < 146097)
    by (subst a r1; split; [apply Z.div_mod; lia | apply Z.mod_pos_bound; lia]).
  assert (Hb : r1 = 36524 * b + r2 /\ 0 <= r2 < 36524)
    by (subst b r2; split; [apply Z.div_mod; lia | apply Z.mod_pos_bound; lia]).
  assert (Hc : r2 = 1461 * c + r3 /\ 0 <= r3 < 1461)
    by (subst c r3; split; [apply Z.div_mod; lia | apply Z.mod_pos_bound; lia]).
  assert (Hd : r3 = 365 * d + r /\ 0 <= r < 365)
    by (subst d r; split; [apply Z.div_mod; lia | apply Z.mod_pos_bound; lia]).
  clearbody a r1 b r2 c r3 d r.
  assert (0 <= a <= 24) by lia.
  assert (0 <= b <= 4) by lia.
  assert (0 <= c <= 24) by lia.
  assert (0 <= d <= 4) by lia.
  destruct (Z.eqb_spec d 4) as [Hd4|Hd4];
    [| destruct (Z.eqb_spec b 4) as [Hb4|Hb4]]; simpl orb; cbv iota.
  - (* the last day of a leap year that does not end a century *)
    apply december_31.
    + lia.
    + apply is_leap_true; [| left]; Z.div_mod_to_equations; lia.
    + unfold _days_before_year; cbv zeta. Z.div_mod_to_equations. lia.
  - (* the last day of a 400-year cycle *)
    apply december_31.
    + lia.
    + apply is_leap_true; [| right]; Z.div_mod_to_equations; lia.
    + unfold _days_before_year; cbv zeta. Z.div_mod_to_equations. lia.
  - (* the common case *)
    set (leapyear := (d =? 3) && (negb (c =? 24) || (b =? 3))).
    pose proof (month_day_spec leapyear r ltac:(lia)) as Hmd.
    unfold month_day_ok in Hmd.
    destruct (month_day leapyear r) as [m dd].
    repeat (apply andb_prop in Hmd; destruct Hmd as [Hmd ?]).
    unfold valid_date, _ymd2ord, _days_in_month, _days_before_month,
      MINYEAR, MAXYEAR. simpl d_year; simpl d_month; simpl d_day.
    rewrite is_leap_decomposed by lia. fold leapyear.
    rewrite days_before_year_decomposed by lia.
    split.
    + repeat (apply andb_true_intro; split); try lia; assumption.
    + lia.
Qed.

Ltac month_cases m :=
  let H := fresh in
  assert (H : m = 1 \/ m = 2 \/ m = 3 \/ m = 4 \/ m = 5 \/ m = 6 \/ m = 7
              \/ m = 8 \/ m = 9 \/ m = 10 \/ m = 11 \/ m = 12) by lia;
  repeat (destruct H as [H|H]; [subst m |]); [.. | subst m].

Lemma valid_date_unfold (y m d : Z) :
  valid_date (mkdate y m d) = true <->
  1 <= y <= 9999 /\ 1 <= m <= 12 /\ 1 <= d <= _days_in_month y m.
Proof.
  unfold valid_date, MINYEAR, MAXYEAR; simpl.
  rewrite !andb_true_iff, !Z.leb_le. lia.
Qed.

Lemma days_before_year_succ (y : Z) :
  _days_before_year (y + 1)
  = _days_before_year y + 365 + (if _is_leap y then 1 else 0).
Proof.
  unfold _days_before_year, _is_leap; cbv zeta.
  destruct (Z.eqb_spec (y mod 4) 0), (Z.eqb_spec (y mod 100) 0),
    (Z.eqb_spec (y mod 400) 0); simpl; Z.div_mod_to_equations; lia.
Qed.

Lemma days_before_year_mono (y1 y2 : Z) :
  y1 <= y2 -> _days_before_year y1 <= _days_before_year y2.
Proof.
  intros H. unfold _days_before_year; cbv zeta. Z.div_mod_to_equations. lia.
Qed.

Lemma day_of_year_bounds (y m d : Z) :
  1 <= m <= 12 -> 1 <= d <= _days_in_month y m ->
  1 <= _days_before_month y m + d <= 365 + (if _is_leap y then 1 else 0).
Proof.
  intros Hm. unfold _days_in_month, _days_before_month.
  destruct (_is_leap y); month_cases m; vm_compute tbl; simpl; lia.
Qed.

Lemma days_before_month_next (y m1 m2 d : Z) :
  1 <= m1 -> m1 < m2 -> m2 <= 12 -> d <= _days_in_month y m1 ->
  _days_before_month y m1 + d <= _days_before_month y m2.
Proof.
  intros H1 H12 H2. unfold _days_in_month, _days_before_month.
  destruct (_is_leap y); month_cases m1; month_cases m2;
    try lia; vm_compute tbl; simpl; lia.
Qed.

Lemma ymd2ord_lex (y1 m1 d1 y2 m2 d2 : Z) :
  valid_date (mkdate y1 m1 d1) = true ->
  valid_date (mkdate y2 m2 d2) = true ->
  y1 < y2 \/ (y1 = y2 /\ (m1 < m2 \/ (m1 = m2 /\ d1 < d2))) ->
  _ymd2ord y1 m1 d1 < _ymd2ord y2 m2 d2.
Proof.
  rewrite !valid_date_unfold. intros (Hy1 & Hm1 & Hd1) (Hy2 & Hm2 & Hd2) Hlt.
  unfold _ymd2ord.
  pose proof (day_of_year_bounds y1 m1 d1 Hm1 Hd1).
  pose proof (day_of_year_bounds y2 m2 d2 Hm2 Hd2).
  destruct Hlt as [Hy | [-> [Hm | [-> Hd]]]].
  - pose proof (days_before_year_succ y1).
    pose proof (days_before_year_mono (y1 + 1) y2 ltac:(lia)). lia.
  - pose proof (days_before_month_next y2 m1 m2 d1 ltac:(lia) Hm ltac:(lia)
                  ltac:(lia)). lia.
  - lia.
Qed.

Lemma valid_datetime_unfold (a : datetime) :
  valid_datetime a = true <->
  valid_date (date_of a) = true /\ 0 <= hour a < 24 /\ 0 <= minute a < 60
  /\ 0 <= second a < 60 /\ 0 <= microsecond a < 1000000.
Proof.
  unfold valid_datetime, valid_date, date_of; simpl.
  rewrite !andb_true_iff, !Z.leb_le, !Z.ltb_lt. tauto.
Qed.

Lemma datetime_le_instant (a b : datetime) :
  valid_datetime a = true -> valid_datetime b = true ->
  datetime_le a b = true <-> instant a <= instant b.
Proof.
  rewrite !valid_datetime_unfold. unfold date_of.
  intros (Va & Ha) (Vb & Hb).
  pose proof (ymd2ord_lex _ _ _ _ _ _ Va Vb) as Hab.
  pose proof (ymd2ord_lex _ _ _ _ _ _ Vb Va) as Hba.
  unfold datetime_le, datetime_tuple, instant, toordinal in *. simpl lex_leb.
  rewrite !orb_true_iff, !andb_true_iff, !Z.ltb_lt, !Z.eqb_eq.
  destruct (Z.lt_total (year a) (year b)) as [Hy | [Hy | Hy]];
    [specialize (Hab ltac:(lia)); lia | | specialize (Hba ltac:(lia)); lia].
  destruct (Z.lt_total (month a) (month b)) as [Hm | [Hm | Hm]];
    [specialize (Hab ltac:(lia)); lia | | specialize (Hba ltac:(lia)); lia].
  destruct (Z.lt_total (day a) (day b)) as [Hd | [Hd | Hd]];
    [specialize (Hab ltac:(lia)); lia | | specialize (Hba ltac:(lia)); lia].
  rewrite Hy, Hm, Hd. clear Hab Hba. lia.
Qed.

Lemma ymd2ord_bounds (y m d : Z) :
  valid_date (mkdate y m d) = true -> 1 <= _ymd2ord y m d <= _MAXORDINAL.
Proof.
  rewrite valid_date_unfold. intros (Hy & Hm & Hd). unfold _ymd2ord.
  pose proof (day_of_year_bounds y m d Hm Hd).
  pose proof (days_before_year_succ y).
  pose proof (days_before_year_mono (y + 1) 10000 ltac:(lia)).
  pose proof (days_before_year_mono 1 y ltac:(lia)).
  change (_days_before_year 10000) with 3652059 in *.
  change (_days_before_year 1) with 0 in *.
  unfold _MAXORDINAL. lia.
Qed.

Lemma ord2ymd_ymd2ord (y m d : Z) :
  valid_date (mkdate y m d) = true -> _ord2ymd (_ymd2ord y m d) = (y, m, d).
Proof.
  intros V. pose proof (ymd2ord_bounds _ _ _ V) as Hb.
  pose proof (ord2ymd_spec _ Hb) as Hs.
  destruct (_ord2ymd (_ymd2ord y m d)) as [[y' m'] d'].
  destruct Hs as [V' E].
  pose proof (ymd2ord_lex _ _ _ _ _ _ V V') as H1.
  pose proof (ymd2ord_lex _ _ _ _ _ _ V' V) as H2.
  destruct (Z.lt_total y y') as [? | [? | ?]];
    [specialize (H1 ltac:(lia)); lia | | specialize (H2 ltac:(lia)); lia].
  destruct (Z.lt_total m m') as [? | [? | ?]];
    [specialize (H1 ltac:(lia)); lia | | specialize (H2 ltac:(lia)); lia].
  destruct (Z.lt_total d d') as [? | [? | ?]];
    [specialize (H1 ltac:(lia)); lia | | specialize (H2 ltac:(lia)); lia].
  congruence.
Qed.

Lemma toordinal_bounds (a : datetime) :
  valid_datetime a = true -> 1 <= toordinal a <= _MAXORDINAL.
Proof.
  rewrite valid_datetime_unfold. intros [V _]. apply (ymd2ord_bounds _ _ _ V).
Qed.

Lemma timedelta_new_days (k : Z) :
  Z.abs k <= 999999999 -> timedelta_new k 0 0 = Ok (mktimedelta k 0 0).
Proof.
  intros Hk. unfold timedelta_new, us_per_day. cbv zeta.
  replace ((k * 86400 + 0) * 1000000 + 0) with (k * (86400 * 1000000)) by lia.
  rewrite Z.div_mul, Z.mod_mul by lia.
  destruct (Z.leb_spec (Z.abs k) 999999999); [reflexivity | lia].
Qed.

Lemma plus_days_spec (a : datetime) (k : Z) :
  valid_datetime a = true -> 1 <= toordinal a + k <= _MAXORDINAL ->
  valid_datetime (plus_days a k) = true
  /\ toordinal (plus_days a k) = toordinal a + k
  /\ instant (plus_days a k) = instant a + k * us_per_day.
Proof.
  intros Va Hk. pose proof (ord2ymd_spec _ Hk) as Hs.
  unfold plus_days.
  destruct (_ord2ymd (toordinal a + k)) as [[y m] d].
  destruct Hs as [V E]. rewrite valid_datetime_unfold in *.
  set (b := mkdatetime y m d _ _ _ _).
  assert (T : toordinal b = toordinal a + k) by exact E.
  unfold instant. rewrite T. unfold us_per_day. subst b; simpl.
  repeat split; try tauto; lia.
Qed.

Lemma datetime_add_days (a : datetime) (k : Z) :
  valid_datetime a = true -> 1 <= toordinal a + k <= _MAXORDINAL ->
  datetime_add a (mktimedelta k 0 0) = Ok (plus_days a k).
Proof.
  intros Va Hk. apply valid_datetime_unfold in Va as (_ & Hh & Hm & Hs & Hu).
  unfold datetime_add, timedelta_new, plus_days, us_per_day, _MAXORDINAL in *.
  simpl days; simpl seconds; simpl microseconds. cbv zeta.
  set (secs := hour a * 3600 + minute a * 60 + second a + 0).
  set (total := ((toordinal a + k) * 86400 + secs) * 1000000 + (microsecond a + 0)).
  assert (Hd : total / (86400 * 1000000) = toordinal a + k)
    by (subst total secs; Z.div_mod_to_equations; lia).
  assert (Hr : total mod (86400 * 1000000) = secs * 1000000 + microsecond a)
    by (subst total secs; Z.div_mod_to_equations; lia).
  rewrite Hd, Hr.
  destruct (Z.leb_spec (Z.abs (toordinal a + k)) 999999999); [| lia].
  simpl days; simpl seconds; simpl microseconds.
  assert (Hs1 : (secs * 1000000 + microsecond a) / 1000000 = secs)
    by (subst secs; Z.div_mod_to_equations; lia).
  assert (Hu1 : (secs * 1000000 + microsecond a) mod 1000000 = microsecond a)
    by (subst secs; Z.div_mod_to_equations; lia).
  rewrite Hs1, Hu1.
  assert (Hh1 : secs / 3600 = hour a) by (subst secs; Z.div_mod_to_equations; lia).
  assert (Hrem : secs mod 3600 = minute a * 60 + second a)
    by (subst secs; Z.div_mod_to_equations; lia).
  rewrite Hh1, Hrem.
  assert (Hm1 : (minute a * 60 + second a) / 60 = minute a)
    by (Z.div_mod_to_equations; lia).
  assert (Hs2 : (minute a * 60 + second a) mod 60 = second a)
    by (Z.div_mod_to_equations; lia).
  rewrite Hm1, Hs2.
  destruct (Z.ltb_spec 0 (toordinal a + k)); [| lia].
  destruct (Z.leb_spec (toordinal a + k) 3652059); [| lia].
  simpl. destruct (_ord2ymd (toordinal a + k)) as [[y m] d]. reflexivity.
Qed.

Lemma datetime_sub_days (a b : datetime) :
  valid_datetime a = true -> valid_datetime b = true ->
  datetime_sub a b
  = Ok (mktimedelta ((instant a - instant b) / us_per_day)
          ((instant a - instant b) mod us_per_day / 1000000)
          ((instant a - instant b) mod us_per_day mod 1000000)).
Proof.
  intros Va Vb.
  pose proof (toordinal_bounds _ Va). pose proof (toordinal_bounds _ Vb).
  apply valid_datetime_unfold in Va as (_ & ? & ? & ? & ?).
  apply valid_datetime_unfold in Vb as (_ & ? & ? & ? & ?).
  unfold datetime_sub, timedelta_new, instant. cbv zeta.
  unfold _MAXORDINAL in *.
  match goal with |- context [Z.abs (?t / us_per_day)] =>
    replace t with
      ((toordinal a * 86400 + hour a * 3600 + minute a * 60 + second a) * 1000000
       + microsecond a
       - ((toordinal b * 86400 + hour b * 3600 + minute b * 60 + second b) * 1000000
          + microsecond b)) by lia;
    set (delta := _ - _) end.
  destruct (Z.leb_spec (Z.abs (delta / us_per_day)) 999999999) as [|Hbig];
    [reflexivity |].
  exfalso. subst delta. unfold us_per_day in Hbig.
  Z.div_mod_to_equations. lia.
Qed.

(** *** Running the methods *)

Lemma isocalendar_weekday (d : datetime) :
  1 <= snd (isocalendar d) <= 7.
Proof.
  unfold isocalendar. cbv zeta.
  repeat match goal with |- context [if ?b then _ else _] => destruct b end;
    simpl; Z.div_mod_to_equations; lia.
Qed.

Lemma WEEKDAY_MAP_get_ok (weekday : Z) :
  1 <= weekday <= 7 -> WEEKDAY_MAP_get weekday = Ok (weekday_name_of weekday).
Proof.
  intros H. unfold WEEKDAY_MAP_get, weekday_name_of.
  assert (C : weekday = 1 \/ weekday = 2 \/ weekday = 3 \/ weekday = 4
              \/ weekday = 5 \/ weekday = 6 \/ weekday = 7) by lia.
  repeat (destruct C as [-> | C]; [reflexivity |]). subst. reflexivity.
Qed.

Lemma columns_of_snoc (rows : list (list value)) (r : list value) :
  columns_of (rows ++ [r])
  = map (fun j => nth j (columns_of rows) [] ++ [nth j r VNaN]) (seq 0 11).
Proof.
  (unfold columns_of; simpl). rewrite !map_app. reflexivity.
Qed.

Lemma append_bind {B} (k : string) (v : value) (f : unit -> M B)
    (self : Calendar) (w : World) (d' : dict) :
  dict_append k v (CALENDAR_DATA self) = Ok d' ->
  (append k v ≫= f) (self, w) = f tt (set_CALENDAR_DATA d' self, w).
Proof.
  intros H. unfold append, get_self, lift, modify_self, mbind, M_bind, bind.
  cbn beta iota delta [fst snd]. rewrite H. reflexivity.
Qed.

Lemma append_run (k : string) (v : value)
    (self : Calendar) (w : World) (d' : dict) :
  dict_append k v (CALENDAR_DATA self) = Ok d' ->
  append k v (self, w) = ((set_CALENDAR_DATA d' self, w), Ok tt).
Proof.
  intros H. unfold append, get_self, lift, modify_self, mbind, M_bind, bind.
  cbn beta iota delta [fst snd]. rewrite H. reflexivity.
Qed.

Lemma lift_bind {A B} (a : A) (f : A -> M B) (s : State) :
  (lift (Ok a) ≫= f) s = f a s.
Proof. reflexivity. Qed.

Lemma get_self_bind {B} (f : Calendar -> M B) (s : State) :
  (get_self ≫= f) s = f (fst s) s.
Proof. reflexivity. Qed.

Lemma set_CALENDAR_DATA_twice (d d' : dict) (self : Calendar) :
  set_CALENDAR_DATA d' (set_CALENDAR_DATA d self) = set_CALENDAR_DATA d' self.
Proof. reflexivity. Qed.

Ltac step_append :=
  erewrite append_bind; [| simpl; reflexivity];
  unfold set_CALENDAR_DATA at 1;
  cbn [start_date end_date num_days include_holidays CALENDAR_DATA
       holiday_api_key country holidays].

Lemma buffer_of_snoc (rows : list (list value))
    (v0 v1 v2 v3 v4 v5 v6 v7 v8 v9 v10 : value) :
  exists c0 c1 c2 c3 c4 c5 c6 c7 c8 c9 c10 : list value,
    buffer_of rows
    = [("date", c0); ("year", c1); ("month", c2); ("day", c3); ("weekday", c4);
       ("weekday_name", c5); ("weeknumber", c6); ("is_weekend", c7);
       ("is_business_day", c8); ("is_holiday", c9); ("holiday_name", c10)]
    /\ buffer_of (rows ++ [[v0; v1; v2; v3; v4; v5; v6; v7; v8; v9; v10]])
       = [("date", c0 ++ [v0]); ("year", c1 ++ [v1]); ("month", c2 ++ [v2]);
          ("day", c3 ++ [v3]); ("weekday", c4 ++ [v4]);
          ("weekday_name", c5 ++ [v5]); ("weeknumber", c6 ++ [v6]);
          ("is_weekend", c7 ++ [v7]); ("is_business_day", c8 ++ [v8]);
          ("is_holiday", c9 ++ [v9]); ("holiday_name", c10 ++ [v10])].
Proof.
  do 11 eexists. split; [reflexivity |].
  unfold buffer_of, columns_of. simpl. rewrite !map_app. reflexivity.
Qed.

Lemma append_row_run (self : Calendar) (w : World) (rows : list (list value))
    (v0 v1 v2 v3 v4 v6 v7 v8 v9 v10 : value) (n : string) :
  CALENDAR_DATA self = buffer_of rows ->
  (append "date" v0;; append "year" v1;; append "month" v2;; append "day" v3;;
   append "weekday" v4;; weekday_name ← lift (Ok n);
   append "weekday_name" (VStr weekday_name);; append "weeknumber" v6;;
   append "is_weekend" v7;; append "is_holiday" v9;;
   append "holiday_name" v10;; append "is_business_day" v8) (self, w)
  = ((set_CALENDAR_DATA
        (buffer_of (rows ++ [[v0; v1; v2; v3; v4; VStr n; v6; v7; v8; v9; v10]]))
        self, w), Ok tt).
Proof.
  intros Hbuf.
  destruct (buffer_of_snoc rows v0 v1 v2 v3 v4 (VStr n) v6 v7 v8 v9 v10)
    as (c0 & c1 & c2 & c3 & c4 & c5 & c6 & c7 & c8 & c9 & c10 & E1 & E2).
  rewrite E2. rewrite E1 in Hbuf. clear E1 E2.
  destruct self as [sd ed nd incl data key ctry hs]. simpl in Hbuf. subst data.
  unfold set_CALENDAR_DATA at 1. cbn [start_date end_date num_days
    include_holidays CALENDAR_DATA holiday_api_key country holidays].
  do 5 step_append. rewrite lift_bind. do 5 step_append.
  erewrite append_run; [| simpl; reflexivity]. reflexivity.
Qed.

Lemma append_day_run (self : Calendar) (w : World) (rows : list (list value))
    (d : datetime) :
  CALENDAR_DATA self = buffer_of rows ->
  append_day d (self, w)
  = ((set_CALENDAR_DATA (buffer_of (rows ++ [row_cells self d])) self, w), Ok tt).
Proof.
  intros Hbuf. pose proof (isocalendar_weekday d) as Hwd.
  unfold append_day, row_cells. rewrite get_self_bind. cbn [fst].
  destruct (isocalendar d) as [[iso_year weeknumber] weekday]. simpl in Hwd.
  rewrite (WEEKDAY_MAP_get_ok _ Hwd).
  set (hol := if include_holidays self
              then let '(b, n) := _is_holiday self d in (VBool b, n)
              else (VNaN, VNaN)).
  replace (if include_holidays self then VBool (fst (_is_holiday self d)) else VNaN)
    with (fst hol) by (subst hol; destruct (include_holidays self);
                       [destruct (_is_holiday self d) |]; reflexivity).
  replace (if include_holidays self then snd (_is_holiday self d) else VNaN)
    with (snd hol) by (subst hol; destruct (include_holidays self);
                       [destruct (_is_holiday self d) |]; reflexivity).
  clearbody hol. destruct hol as [is_holiday holiday_name]. cbn [fst snd].
  generalize (VStr (isoformat (date_of d))) (VInt iso_year) (VInt (month d))
    (VInt (day d)) (VInt weekday) (weekday_name_of weekday) (VInt weeknumber)
    (VBool (_is_weekend weekday)) (VBool (_is_business_day self weekday d)).
  intros v0 v1 v2 v3 v4 n v6 v7 v8.
  apply append_row_run, Hbuf.
Qed.

Lemma set_CALENDAR_DATA_id (self : Calendar) :
  set_CALENDAR_DATA (CALENDAR_DATA self) self = self.
Proof. destruct self; reflexivity. Qed.

Lemma bind_run {A B} (m : M A) (f : A -> M B) (s : State) :
  (m ≫= f) s
  = match m s with
    | (s', Ok a) => f a s'
    | (s', Raise e) => (s', Raise e)
    end.
Proof. reflexivity. Qed.

Lemma for_dates_run (ds : list datetime) (self : Calendar) (w : World)
    (rows : list (list value)) :
  CALENDAR_DATA self = buffer_of rows ->
  for_ (map Ok ds) (fun yielded => d ← lift yielded; append_day d) (self, w)
  = ((set_CALENDAR_DATA (buffer_of (rows ++ map (row_cells self) ds)) self, w),
     Ok tt).
Proof.
  revert self rows. induction ds as [| d ds IH]; intros self rows Hbuf.
  - simpl. rewrite app_nil_r, <- Hbuf, set_CALENDAR_DATA_id. reflexivity.
  - cbn [map for_].
    rewrite bind_run, lift_bind, (append_day_run self w rows d Hbuf).
    rewrite (IH _ (rows ++ [row_cells self d])) by reflexivity.
    rewrite set_CALENDAR_DATA_twice, <- app_assoc. reflexivity.
Qed.

Lemma num_days_le (a b : datetime) :
  valid_datetime a = true -> valid_datetime b = true ->
  (instant b - instant a) / us_per_day <= toordinal b - toordinal a.
Proof.
  intros Va Vb.
  apply valid_datetime_unfold in Va as (_ & ? & ? & ? & ?).
  apply valid_datetime_unfold in Vb as (_ & ? & ? & ? & ?).
  unfold instant, us_per_day. Z.div_mod_to_equations. lia.
Qed.

Lemma gen_dates_ok (self : Calendar) :
  wf_dates self -> _gen_dates self = map Ok (dates_of self).
Proof.
  intros (Vs & Ve & Hn). unfold _gen_dates, dates_of.
  rewrite map_map. apply map_ext_in. intros k Hk.
  unfold py_range in Hk. apply in_map_iff in Hk as (i & <- & Hi).
  apply in_seq in Hi.
  pose proof (num_days_le _ _ Vs Ve).
  pose proof (toordinal_bounds _ Vs). pose proof (toordinal_bounds _ Ve).
  unfold _MAXORDINAL in *.
  rewrite timedelta_new_days by lia.
  apply datetime_add_days; [assumption | unfold _MAXORDINAL; lia].
Qed.

Lemma same_length_buffer (rows : list (list value)) :
  same_length (buffer_of rows) = true.
Proof.
  unfold buffer_of, columns_of. simpl. rewrite !length_map, Nat.eqb_refl.
  reflexivity.
Qed.

Lemma frame_of_buffer (rows : list (list value)) :
  pd_DataFrame (buffer_of rows) = Ok (buffer_of rows)
  /\ df_select CALENDAR_KEYS (buffer_of rows) = Ok (buffer_of rows).
Proof.
  unfold pd_DataFrame. rewrite same_length_buffer. split; reflexivity.
Qed.

Lemma row_eta (r : list value) :
  length r = 11%nat ->
  map (fun j => nth j r VNaN) (seq 0 11) = r.
Proof.
  intros H. do 12 (destruct r as [| ? r]; try discriminate H). reflexivity.
Qed.

Lemma df_nrows_buffer (rows : list (list value)) :
  df_nrows (buffer_of rows) = length rows.
Proof. unfold buffer_of, columns_of. simpl. apply length_map. Qed.

Lemma nth_map_col (j i : nat) (rows : list (list value)) :
  nth i (map (fun r => nth j r VNaN) rows) VNaN = nth j (nth i rows []) VNaN.
Proof.
  revert i. induction rows as [| r rows IH]; intros [| i]; simpl;
    try (destruct j; reflexivity); auto.
Qed.

Lemma df_rows_buffer (rows : list (list value)) :
  full_rows rows -> df_rows (buffer_of rows) = rows.
Proof.
  intros Hfull. unfold df_rows. rewrite df_nrows_buffer.
  apply (nth_ext _ _ [] []); [rewrite length_map, length_seq; reflexivity |].
  intros i Hi. rewrite length_map, length_seq in Hi.
  rewrite (nth_indep _ [] (df_row (buffer_of rows) 0%nat))
    by (rewrite length_map, length_seq; exact Hi).
  rewrite (map_nth (df_row (buffer_of rows))), seq_nth by exact Hi.
  simpl "+"%nat.
  assert (Hr : length (nth i rows []) = 11%nat).
  { unfold full_rows in Hfull. rewrite List.Forall_forall in Hfull.
    apply Hfull, nth_In, Hi. }
  etransitivity; [| apply (row_eta _ Hr)].
  unfold df_row, buffer_of, columns_of. cbn [seq map combine CALENDAR_KEYS snd].
  rewrite !nth_map_col.
  reflexivity.
Qed.

(** *** Holiday resolution *)

Section Resolution.

Variable service : request -> option response.
Variable today_year : Z.

Lemma fetch_run (self : Calendar) (years : list Z) (w : World) :
  for_collect years (fun year =>
      when (today_year <=? year)
        (modify_world (fun w =>
           mkWorld (requests w) (warnings w ++ [year])%list (files w)));;
      api ← lift (HolidayAPI_init (holiday_api_key self));
      get_holidays service api year (country self)) (self, w)
  = let '(w', r) := fetch_all service today_year (holiday_api_key self)
                      (country self) years w in
    ((self, w'), r).
Proof.
  revert w. induction years as [| y years IH]; intros w; [reflexivity |].
  cbn [for_collect fetch_all]. rewrite bind_run, bind_run.
  set (w1 := if today_year <=? y then _ else w).
  assert (Hwhen : when (today_year <=? y)
            (modify_world (fun w0 =>
               mkWorld (requests w0) (warnings w0 ++ [y]) (files w0))) (self, w)
          = ((self, w1), Ok tt))
    by (subst w1; destruct (today_year <=? y); reflexivity).
  rewrite Hwhen. clearbody w1.
  destruct (holiday_api_key self) as [k |]; [| reflexivity].
  cbn [HolidayAPI_init]. rewrite lift_bind.
  unfold get_holidays, _get_holidays. rewrite bind_run.
  cbn [modify_world fst snd api_key].
  unfold lift at 1.
  destruct (read_response _) as [h | e]; [| reflexivity].
  rewrite bind_run, IH.
  destruct (fetch_all _ _ _ _ _ _) as [w3 [hs | e]]; reflexivity.
Qed.

Lemma index_date_run (data : list holiday) (self : Calendar) (w : World) :
  index_date data (self, w)
  = ((set_holidays (policy_step (holidays self) data) self, w),
     match data with [] => Raise IndexError | _ :: _ => Ok tt end).
Proof.
  destruct self as [sd ed nd incl buf key ctry hs].
  destruct data as [| h0 [| h1 rest]].
  - reflexivity.
  - unfold index_date, policy_step. simpl. destruct (public h0); reflexivity.
  - unfold index_date, policy_step.
    replace (1 <? Z.of_nat (length (h0 :: h1 :: rest))) with true
      by (symmetry; apply Z.ltb_lt; simpl length; lia).
    rewrite bind_run. cbn [when].
    change (List.filter public (h0 :: h1 :: rest))
      with (if public h0 then h0 :: List.filter public (h1 :: rest)
            else List.filter public (h1 :: rest)).
    destruct (public h0) eqn:P0.
    + unfold modify_self, set_holidays, when. cbn [fst snd holidays].
      rewrite insert_insert_eq. reflexivity.
    + destruct (List.filter public (h1 :: rest)); reflexivity.
Qed.

Lemma set_holidays_twice (h h' : gmap string string) (self : Calendar) :
  set_holidays h' (set_holidays h self) = set_holidays h' self.
Proof. reflexivity. Qed.

Lemma set_holidays_id (self : Calendar) :
  set_holidays (holidays self) self = self.
Proof. destruct self; reflexivity. Qed.

Lemma index_dict_ok (answer : holiday_dict) (self : Calendar) (w : World) :
  forallb (fun item => negb (Nat.eqb (length (snd item)) 0)) answer = true ->
  for_ answer (fun item => index_date (snd item)) (self, w)
  = ((set_holidays (policy_dict (holidays self) answer) self, w), Ok tt).
Proof.
  revert self. induction answer as [| [k data] answer IH]; intros self H.
  - simpl. rewrite set_holidays_id. reflexivity.
  - cbn [forallb snd] in H. apply andb_prop in H as [Hne Hrest].
    cbn [for_ snd]. rewrite bind_run, index_date_run.
    destruct data as [| h0 data]; [discriminate Hne |].
    rewrite IH by exact Hrest. reflexivity.
Qed.

Lemma index_dict_fail (answer : holiday_dict) (self : Calendar) (w : World) :
  forallb (fun item => negb (Nat.eqb (length (snd item)) 0)) answer = false ->
  exists h,
    for_ answer (fun item => index_date (snd item)) (self, w)
    = ((set_holidays h self, w), Raise IndexError).
Proof.
  revert self. induction answer as [| [k data] answer IH]; intros self H.
  - discriminate H.
  - cbn [forallb snd] in H. cbn [for_ snd]. rewrite bind_run, index_date_run.
    destruct data as [| h0 data].
    + eexists. reflexivity.
    + cbn [length Nat.eqb negb andb] in H.
      destruct (IH (set_holidays (policy_step (holidays self) (h0 :: data)) self) H)
        as [h Hh].
      exists h. rewrite Hh. reflexivity.
Qed.

Lemma index_all_ok (answers : list holiday_dict) (self : Calendar) (w : World) :
  entries_nonempty answers = true ->
  for_ answers (fun holiday_data_dict =>
      for_ holiday_data_dict (fun item => index_date (snd item))) (self, w)
  = ((set_holidays (fold_left policy_dict answers (holidays self)) self, w),
     Ok tt).
Proof.
  revert self. induction answers as [| a answers IH]; intros self H.
  - simpl. rewrite set_holidays_id. reflexivity.
  - unfold entries_nonempty in H. cbn [forallb] in H.
    apply andb_prop in H as [Ha Hrest].
    cbn [for_]. rewrite bind_run, (index_dict_ok _ _ _ Ha).
    rewrite IH by exact Hrest. reflexivity.
Qed.

Lemma index_all_fail (answers : list holiday_dict) (self : Calendar) (w : World) :
  entries_nonempty answers = false ->
  exists h,
    for_ answers (fun holiday_data_dict =>
        for_ holiday_data_dict (fun item => index_date (snd item))) (self, w)
    = ((set_holidays h self, w), Raise IndexError).
Proof.
  revert self. induction answers as [| a answers IH]; intros self H.
  - discriminate H.
  - unfold entries_nonempty in H. cbn [forallb] in H. cbn [for_].
    rewrite bind_run.
    destruct (forallb (fun item => negb (Nat.eqb (length (snd item)) 0)) a)
      eqn:Ha.
    + rewrite (index_dict_ok _ _ _ Ha).
      destruct (IH (set_holidays (policy_dict (holidays self) a) self) H)
        as [h Hh].
      exists h. rewrite Hh. reflexivity.
    + destruct (index_dict_fail a self w Ha) as [h Hh].
      exists h. rewrite Hh. reflexivity.
Qed.

Lemma get_holidays_from_api_run (self : Calendar) (w : World) :
  _get_holidays_from_api service today_year (self, w)
  = match fetch_all service today_year (holiday_api_key self) (country self)
            (years_of self) w with
    | (w', Raise e) => ((self, w'), Raise e)
    | (w', Ok answers) =>
        for_ answers (fun holiday_data_dict =>
          for_ holiday_data_dict (fun item => index_date (snd item)))
          (set_holidays ∅ self, w')
    end.
Proof.
  unfold _get_holidays_from_api. rewrite get_self_bind. cbn [fst].
  rewrite bind_run, fetch_run. fold (years_of self).
  destruct (fetch_all _ _ _ _ _ _) as [w' [answers | e]]; reflexivity.
Qed.

End Resolution.

(** *** [generate] *)

Section Generate.

Variable service : request -> option response.
Variable today_year : Z.

Lemma resolve_shape (self : Calendar) (w : World) :
  exists h w' r, resolve service today_year self w = ((set_holidays h self, w'), r).
Proof.
  unfold resolve. destruct (include_holidays self).
  - cbn [when]. rewrite get_holidays_from_api_run.
    destruct (fetch_all _ _ _ _ _ _) as [w' [answers | e]].
    + destruct (entries_nonempty answers) eqn:E.
      * rewrite (index_all_ok _ _ _ E). rewrite set_holidays_twice. eauto.
      * destruct (index_all_fail _ (set_holidays ∅ self) w' E) as [h Hh].
        rewrite Hh, set_holidays_twice. eauto.
    + exists (holidays self), w', (Raise e). rewrite set_holidays_id. reflexivity.
  - exists (holidays self), w, (Ok tt). rewrite set_holidays_id. reflexivity.
Qed.

Lemma generate_run (dest : option string) (sep : ascii) (reset : bool)
    (self : Calendar) (w : World) (rows : list (list value)) :
  wf_dates self ->
  CALENDAR_DATA (reset_buffer reset self) = buffer_of rows ->
  generate service today_year dest sep reset (self, w)
  = match resolve service today_year (reset_buffer reset self) w with
    | (s2, Raise e) => (s2, Raise e)
    | ((self2, w2), Ok _) =>
        let t := buffer_of (rows ++ map (row_cells self2) (dates_of self)) in
        match dest with
        | None => ((set_CALENDAR_DATA t self2, w2), Ok (Some t))
        | Some path =>
            ((set_CALENDAR_DATA t self2, write_file path (to_csv sep t) w2),
             Ok None)
        end
    end.
Proof.
  intros Hwf Hbuf. unfold generate. rewrite bind_run.
  assert (Hreset : when reset
            (modify_self (set_CALENDAR_DATA _gen_calendar_data_template)) (self, w)
          = ((reset_buffer reset self, w), Ok tt))
    by (destruct reset; reflexivity).
  rewrite Hreset, get_self_bind. cbn [fst]. rewrite bind_run.
  fold (resolve service today_year (reset_buffer reset self) w).
  destruct (resolve_shape (reset_buffer reset self) w) as (h & w2 & r & Hr).
  rewrite Hr. destruct r as [[] | e]; [| reflexivity].
  rewrite get_self_bind. cbn [fst]. rewrite bind_run.
  assert (Hdates : _gen_dates (set_holidays h (reset_buffer reset self))
                   = map Ok (dates_of self)).
  { rewrite gen_dates_ok; [destruct reset; reflexivity |].
    destruct reset; exact Hwf. }
  rewrite Hdates, (for_dates_run _ _ _ rows) by exact Hbuf.
  rewrite get_self_bind. cbn [fst].
  change (CALENDAR_DATA (set_CALENDAR_DATA ?d _)) with d.
  destruct (frame_of_buffer
              (rows ++ map (row_cells (set_holidays h (reset_buffer reset self)))
                         (dates_of self))) as [F1 F2].
  rewrite F1, lift_bind, F2, lift_bind.
  destruct dest; reflexivity.
Qed.

End Generate.

(** *** Date strings *)

Lemma year_text_table :
  forallb (fun i => year_text_ok (Z.of_nat i)) (seq 0 (Z.to_nat 10000)) = true.
Proof. vm_compute. reflexivity. Qed.

Lemma parse_year_fmt (y : Z) (rest : string) :
  0 <= y <= 9999 -> parse_year (fmt0 4 y +:+ rest) = Some (y, rest).
Proof.
  intros Hy. pose proof year_text_table as T.
  rewrite forallb_forall in T. specialize (T (Z.to_nat y)).
  rewrite Z2Nat.id in T by lia.
  assert (Hok : year_text_ok y = true) by (apply T, in_seq; lia).
  unfold year_text_ok in Hok.
  destruct (fmt0 4 y) as [| a [| b [| c [| d [| ? ?]]]]]; try discriminate Hok.
  change (String a (String b (String c (String d ""))) +:+ rest)
    with (String a (String b (String c (String d rest)))).
  unfold parse_year.
  destruct (digit_val a), (digit_val b), (digit_val c), (digit_val d);
    try discriminate Hok.
  apply Z.eqb_eq in Hok. rewrite Hok. reflexivity.
Qed.

Lemma month_day_text_table :
  forallb (fun i => forallb (fun j => month_day_text_ok (Z.of_nat i) (Z.of_nat j))
                      (seq 1 31)) (seq 1 12) = true.
Proof. vm_compute. reflexivity. Qed.

Lemma days_in_month_le_31 (y m : Z) : 1 <= m <= 12 -> _days_in_month y m <= 31.
Proof.
  intros Hm. unfold _days_in_month.
  destruct (_is_leap y); month_cases m; vm_compute; discriminate.
Qed.

Lemma parse_Ymd_isoformat (y m d : Z) :
  valid_date (mkdate y m d) = true ->
  parse_Ymd (isoformat (mkdate y m d)) = Some (mkdatetime y m d 0 0 0 0).
Proof.
  intros V. pose proof V as V'. apply valid_date_unfold in V' as (Hy & Hm & Hd).
  pose proof (days_in_month_le_31 y m Hm).
  unfold parse_Ymd, isoformat. cbn [d_year d_month d_day].
  rewrite parse_year_fmt by lia.
  change ("-" +:+ ?s) with (String "-" s).
  cbn [expect]. change (Ascii.eqb "-" "-") with true. cbv iota.
  pose proof month_day_text_table as T.
  rewrite forallb_forall in T. specialize (T (Z.to_nat m)).
  rewrite forallb_forall in T by idtac.
  assert (Hok : month_day_text_ok m d = true).
  { specialize (T ltac:(apply in_seq; lia) (Z.to_nat d) ltac:(apply in_seq; lia)).
    rewrite !Z2Nat.id in T by lia. exact T. }
  unfold month_day_text_ok in Hok.
  change ("-" +:+ ?s) with (String "-" s) in Hok.
  destruct (parse_month _) as [[m' [| c s4]] |]; try discriminate Hok.
  apply andb_prop in Hok as [Hok Hd'].
  apply andb_prop in Hok as [Hc Hm'].
  cbn [expect]. rewrite Hc.
  destruct (parse_day s4) as [[d' [| ? ?]] |]; try discriminate Hd'.
  apply Z.eqb_eq in Hm', Hd'. subst m' d'.
  assert (Hv : valid_datetime (mkdatetime y m d 0 0 0 0) = true).
  { apply valid_datetime_unfold. unfold date_of. simpl. repeat split; try lia.
    exact V. }
  rewrite Hv. reflexivity.
Qed.

Lemma isoformat_inj (a b : date) :
  valid_date a = true -> valid_date b = true ->
  isoformat a = isoformat b -> a = b.
Proof.
  destruct a as [y m d], b as [y' m' d']. intros Va Vb E.
  pose proof (parse_Ymd_isoformat _ _ _ Va) as Pa.
  pose proof (parse_Ymd_isoformat _ _ _ Vb) as Pb.
  rewrite E in Pa. rewrite Pa in Pb. congruence.
Qed.

(** *** Delimited text *)

Lemma string_app_cons (x : ascii) (a b : string) :
  String x a +:+ b = String x (a +:+ b).
Proof. reflexivity. Qed.

Lemma string_app_nil (b : string) : EmptyString +:+ b = b.
Proof. reflexivity. Qed.

Lemma string_app_assoc (a b c : string) : (a +:+ b) +:+ c = a +:+ (b +:+ c).
Proof.
  induction a as [| x a IH]; [reflexivity |].
  rewrite !string_app_cons, IH. reflexivity.
Qed.

Lemma contains_app (c : ascii) (a b : string) :
  contains c (a +:+ b) = contains c a || contains c b.
Proof.
  induction a as [| x a IH]; [reflexivity |].
  rewrite string_app_cons. cbn [contains]. rewrite IH, orb_assoc. reflexivity.
Qed.

Lemma split_on_field (c : ascii) (f rest : string) :
  contains c f = false ->
  split_on c (f +:+ String c rest) = f :: split_on c rest.
Proof.
  induction f as [| x f IH]; intros H.
  - rewrite string_app_nil. cbn [split_on]. rewrite Ascii.eqb_refl. reflexivity.
  - cbn [contains] in H. apply orb_false_elim in H as [Hx Hf].
    rewrite string_app_cons. cbn [split_on]. rewrite Hx, (IH Hf). reflexivity.
Qed.

Lemma split_on_last (c : ascii) (f : string) :
  contains c f = false -> split_on c f = [f].
Proof.
  induction f as [| x f IH]; intros H; [reflexivity |].
  cbn [contains] in H. apply orb_false_elim in H as [Hx Hf].
  cbn [split_on]. rewrite Hx, (IH Hf). reflexivity.
Qed.

Lemma split_on_join (c : ascii) (fields : list string) :
  fields <> [] ->
  Forall (fun f => contains c f = false) fields ->
  split_on c (join c fields) = fields.
Proof.
  induction fields as [| f fields IH]; intros Hne Hall; [congruence |].
  inversion Hall as [| ? ? Hf Hrest]; subst.
  destruct fields as [| g fields].
  - simpl. apply split_on_last, Hf.
  - change (join c (f :: g :: fields)) with (f +:+ String c (join c (g :: fields))).
    rewrite (split_on_field _ _ _ Hf), IH; [reflexivity | discriminate | exact Hrest].
Qed.

Lemma contains_join (c sep : ascii) (fields : list string) :
  Ascii.eqb sep c = false ->
  Forall (fun f => contains c f = false) fields ->
  contains c (join sep fields) = false.
Proof.
  intros Hsep. induction fields as [| f fields IH]; intros Hall; [reflexivity |].
  inversion Hall as [| ? ? Hf Hrest]; subst.
  destruct fields as [| g fields]; [exact Hf |].
  change (join sep (f :: g :: fields))
    with (f +:+ String sep (join sep (g :: fields))).
  rewrite contains_app, Hf. cbn [contains orb]. rewrite Hsep. apply IH, Hrest.
Qed.

Lemma splitlines_line (l rest : string) :
  contains LF l = false ->
  splitlines (l +:+ String LF rest) = l :: splitlines rest.
Proof.
  induction l as [| x l IH]; intros H.
  - rewrite string_app_nil. cbn [splitlines]. rewrite Ascii.eqb_refl. reflexivity.
  - cbn [contains] in H. apply orb_false_elim in H as [Hx Hl].
    rewrite string_app_cons. cbn [splitlines]. rewrite Hx, (IH Hl). reflexivity.
Qed.

Lemma splitlines_concat (ls : list string) :
  Forall (fun l => contains LF l = false) ls ->
  splitlines (concat_lines (map (fun l => l +:+ String LF EmptyString) ls)) = ls.
Proof.
  induction ls as [| l ls IH]; intros Hall; [reflexivity |].
  inversion Hall as [| ? ? Hl Hrest]; subst.
  cbn [map concat_lines]. rewrite string_app_assoc.
  change (String LF EmptyString +:+ ?r) with (String LF r).
  rewrite (splitlines_line _ _ Hl), (IH Hrest). reflexivity.
Qed.

Lemma quote_field_plain (sep : ascii) (f : string) :
  needs_quote sep f = false -> quote_field sep f = f.
Proof. intros H. unfold quote_field. rewrite H. reflexivity. Qed.

Lemma map_quote_plain (sep : ascii) (fields : list string) :
  Forall (fun f => needs_quote sep f = false) fields ->
  map (quote_field sep) fields = fields.
Proof.
  induction 1 as [| f fields Hf _ IH]; [reflexivity |].
  cbn [map]. rewrite (quote_field_plain _ _ Hf), IH. reflexivity.
Qed.

Lemma needs_quote_false (sep : ascii) (f : string) :
  needs_quote sep f = false ->
  contains sep f = false /\ contains LF f = false.
Proof.
  unfold needs_quote. intros H.
  repeat (apply orb_false_elim in H as [H ?]). split; assumption.
Qed.

(** Reading back what [to_csv] wrote gives the text of the table, as long
    as no field had to be quoted and the separator is not the line feed. *)
Lemma reparse_lines (sep : ascii) (ls : list (list string)) :
  Ascii.eqb sep LF = false ->
  Forall (fun fields => fields <> []
            /\ Forall (fun f => needs_quote sep f = false) fields) ls ->
  reparse sep (concat_lines (map (csv_line sep) ls)) = ls.
Proof.
  intros Hsep Hall. unfold reparse.
  assert (E : map (csv_line sep) ls
              = map (fun l => l +:+ String LF EmptyString) (map (join sep) ls)).
  { rewrite map_map. apply map_ext_in. intros fields Hin.
    rewrite List.Forall_forall in Hall. destruct (Hall _ Hin) as [_ Hq].
    unfold csv_line. rewrite (map_quote_plain _ _ Hq). reflexivity. }
  rewrite E, splitlines_concat.
  - rewrite map_map. rewrite <- (map_id ls) at 2. apply map_ext_in.
    intros fields Hin. rewrite List.Forall_forall in Hall.
    destruct (Hall _ Hin) as [Hne Hq]. apply split_on_join; [exact Hne |].
    eapply List.Forall_impl; [| exact Hq]. intros f Hf. cbv beta in Hf.
    apply (needs_quote_false _ _ Hf).
  - rewrite List.Forall_forall. intros l Hin.
    apply in_map_iff in Hin as (fields & <- & Hin).
    rewrite List.Forall_forall in Hall. destruct (Hall _ Hin) as [_ Hq].
    apply contains_join; [exact Hsep |].
    eapply List.Forall_impl; [| exact Hq]. intros f Hf. cbv beta in Hf.
    apply (needs_quote_false _ _ Hf).
Qed.

Lemma to_csv_lines (sep : ascii) (t : DataFrame) :
  to_csv sep t = concat_lines (map (csv_line sep) (table_text t)).
Proof.
  unfold to_csv, table_text. cbn [map concat_lines]. rewrite map_map.
  reflexivity.
Qed.

(** *** Construction and the days of the range *)

Lemma Calendar_init_ok (strptime : string -> string -> option datetime)
    (s e : string) (incl : bool) (key : option string) (ctry fmt : string)
    (sd ed : datetime) :
  strptime s fmt = Some sd -> strptime e fmt = Some ed ->
  valid_datetime sd = true -> valid_datetime ed = true ->
  Calendar_init strptime s e incl key ctry fmt
  = Ok (mkCalendar sd ed ((instant ed - instant sd) / us_per_day) incl
          _gen_calendar_data_template key ctry ∅).
Proof.
  intros Hs He Vs Ve. unfold Calendar_init.
  rewrite Hs, He, (datetime_sub_days _ _ Ve Vs). reflexivity.
Qed.

Lemma row_cells_length (self : Calendar) (d : datetime) :
  length (row_cells self d) = 11%nat.
Proof.
  unfold row_cells. destruct (isocalendar d) as [[? ?] ?]. reflexivity.
Qed.

Lemma full_rows_cells (self : Calendar) (ds : list datetime) :
  full_rows (map (row_cells self) ds).
Proof.
  unfold full_rows. rewrite List.Forall_forall. intros r Hin.
  apply in_map_iff in Hin as (d & <- & _). apply row_cells_length.
Qed.

Lemma length_py_range (n : Z) : length (py_range n) = Z.to_nat n.
Proof. unfold py_range. rewrite length_map, length_seq. reflexivity. Qed.

Lemma nth_py_range (n : Z) (i : nat) (d : Z) :
  (i < Z.to_nat n)%nat -> nth i (py_range n) d = Z.of_nat i.
Proof.
  intros Hi. unfold py_range.
  rewrite (nth_indep _ d (Z.of_nat 0)) by (rewrite length_map, length_seq; exact Hi).
  rewrite (map_nth Z.of_nat), seq_nth by exact Hi. reflexivity.
Qed.

Lemma plus_days_in_range (sd ed : datetime) (k : Z) :
  valid_datetime sd = true -> valid_datetime ed = true ->
  0 <= k < (instant ed - instant sd) / us_per_day ->
  valid_datetime (plus_days sd k) = true
  /\ toordinal (plus_days sd k) = toordinal sd + k
  /\ datetime_le sd (plus_days sd k) = true
  /\ datetime_lt (plus_days sd k) ed = true.
Proof.
  intros Vs Ve Hk.
  pose proof (num_days_le _ _ Vs Ve).
  pose proof (toordinal_bounds _ Vs). pose proof (toordinal_bounds _ Ve).
  destruct (plus_days_spec sd k Vs ltac:(lia)) as (Vd & Hord & Hinst).
  repeat split; try assumption.
  - apply (datetime_le_instant _ _ Vs Vd). rewrite Hinst. unfold us_per_day. lia.
  - unfold datetime_lt. apply negb_true_iff.
    destruct (datetime_le ed (plus_days sd k)) eqn:E; [| reflexivity].
    apply (datetime_le_instant _ _ Ve Vd) in E. rewrite Hinst in E.
    exfalso. unfold us_per_day in *. Z.div_mod_to_equations. lia.
Qed.

Lemma dates_of_nth (self : Calendar) (i : nat) (d0 : datetime) :
  (i < Z.to_nat (num_days self))%nat ->
  nth i (dates_of self) d0 = plus_days (start_date self) (Z.of_nat i).
Proof.
  intros Hi. unfold dates_of.
  rewrite (nth_indep _ d0 (plus_days (start_date self) 0))
    by (rewrite length_map, length_py_range; exact Hi).
  rewrite (map_nth (plus_days (start_date self))), (nth_py_range _ _ _ Hi).
  reflexivity.
Qed.

Lemma dates_of_length (self : Calendar) :
  length (dates_of self) = Z.to_nat (num_days self).
Proof. unfold dates_of. rewrite length_map. apply length_py_range. Qed.

Lemma date_strings_NoDup (self : Calendar) :
  wf_dates self ->
  NoDup (map (fun d => isoformat (date_of d)) (dates_of self)).
Proof.
  intros (Vs & Ve & Hn). unfold dates_of, py_range.
  rewrite !map_map. apply NoDup_fmap_2_strong; [| apply NoDup_seq].
  intros i j Hi Hj E.
  apply list_elem_of_In, in_seq in Hi. apply list_elem_of_In, in_seq in Hj.
  destruct (plus_days_in_range _ _ (Z.of_nat i) Vs Ve ltac:(lia))
    as (Vi & Oi & _).
  destruct (plus_days_in_range _ _ (Z.of_nat j) Vs Ve ltac:(lia))
    as (Vj & Oj & _).
  apply valid_datetime_unfold in Vi as [Vi _].
  apply valid_datetime_unfold in Vj as [Vj _].
  apply (isoformat_inj _ _ Vi Vj) in E.
  assert (toordinal (plus_days (start_date self) (Z.of_nat i))
          = toordinal (plus_days (start_date self) (Z.of_nat j)))
    by (unfold toordinal, date_of in *; congruence).
  lia.
Qed.

(** *** Outcomes of the holiday resolution *)

Lemma reset_buffer_fresh (reset : bool) (self : Calendar) :
  CALENDAR_DATA self = buffer_of [] ->
  CALENDAR_DATA (reset_buffer reset self) = buffer_of [].
Proof. intros H. destruct reset; [reflexivity | exact H]. Qed.

Lemma fetch_all_ok (service : request -> option response) (today_year : Z)
    (k ctry : string) (answer : Z -> holiday_dict) (years : list Z) (w : World) :
  (forall y, In y years ->
     read_response (service (mkrequest URL k ctry y)) = Ok (answer y)) ->
  exists w',
    fetch_all service today_year (Some k) ctry years w
    = (w', Ok (map answer years)).
Proof.
  revert w. induction years as [| y years IH]; intros w H.
  - exists w. reflexivity.
  - cbn [fetch_all map]. rewrite (H y (or_introl eq_refl)).
    edestruct IH as [w' Hw']; [intros y' Hy'; apply H; right; exact Hy' |].
    rewrite Hw'. eexists. reflexivity.
Qed.

Lemma fetch_all_result (service : request -> option response) (today_year : Z)
    (key : option string) (ctry : string) (years : list Z) (w w0 : World) :
  snd (fetch_all service today_year key ctry years w)
  = snd (fetch_all service today_year key ctry years w0).
Proof.
  revert w w0. induction years as [| y years IH]; intros w w0; [reflexivity |].
  cbn [fetch_all]. destruct key as [k |]; [| reflexivity].
  destruct (read_response _); [| reflexivity].
  match goal with |- snd (match fetch_all _ _ _ _ _ ?a with _ => _ end)
                     = snd (match fetch_all _ _ _ _ _ ?b with _ => _ end) =>
    specialize (IH a b);
    destruct (fetch_all service today_year (Some k) ctry years a) as [? [? | ?]];
    destruct (fetch_all service today_year (Some k) ctry years b) as [? [? | ?]]
  end; cbn [snd] in *; congruence.
Qed.

(** What the holiday resolution amounts to when it is run: nothing with
    holidays disabled; otherwise the index the policy gives for the answers
    fetched, or the exception that stopped it. *)
Lemma resolve_cases (service : request -> option response) (today_year : Z)
    (self : Calendar) (w : World) :
  (include_holidays self = false
   /\ resolve service today_year self w = ((self, w), Ok tt))
  \/ (include_holidays self = true
      /\ exists w' answers,
           fetch_all service today_year (holiday_api_key self) (country self)
             (years_of self) w = (w', Ok answers)
           /\ entries_nonempty answers = true
           /\ resolve service today_year self w
              = ((set_holidays (policy_index answers) self, w'), Ok tt))
  \/ (include_holidays self = true
      /\ exists w' answers h,
           fetch_all service today_year (holiday_api_key self) (country self)
             (years_of self) w = (w', Ok answers)
           /\ entries_nonempty answers = false
           /\ resolve service today_year self w
              = ((set_holidays h self, w'), Raise IndexError))
  \/ (include_holidays self = true
      /\ exists w' err,
           fetch_all service today_year (holiday_api_key self) (country self)
             (years_of self) w = (w', Raise err)
           /\ resolve service today_year self w = ((self, w'), Raise err)).
Proof.
  unfold resolve. destruct (include_holidays self); [| left; split; reflexivity].
  right. cbn [when]. rewrite get_holidays_from_api_run.
  destruct (fetch_all _ _ _ _ _ _) as [w' [answers | err]].
  - destruct (entries_nonempty answers) eqn:E.
    + left. split; [reflexivity |]. exists w', answers.
      rewrite (index_all_ok _ _ _ E), set_holidays_twice. auto.
    + right. left. split; [reflexivity |].
      destruct (index_all_fail _ (set_holidays ∅ self) w' E) as [h Hh].
      exists w', answers, h. rewrite Hh, set_holidays_twice. auto.
  - right. right. split; [reflexivity |]. exists w', err. auto.
Qed.

(** *** Shared facts about builders and tables *)

Lemma wf_dates_init (sd ed : datetime) (incl : bool) (key : option string)
    (ctry : string) :
  valid_datetime sd = true -> valid_datetime ed = true ->
  wf_dates (mkCalendar sd ed ((instant ed - instant sd) / us_per_day) incl
              _gen_calendar_data_template key ctry ∅).
Proof. intros Vs Ve. repeat split; assumption. Qed.

Lemma df_column_date (rows : list (list value)) :
  df_column "date" (buffer_of rows) = Some (map (fun r => nth 0 r VNaN) rows).
Proof. reflexivity. Qed.

Lemma df_columns_buffer (rows : list (list value)) :
  df_columns (buffer_of rows) = CALENDAR_KEYS.
Proof. reflexivity. Qed.

Lemma row_cells_date (self : Calendar) (d : datetime) :
  nth 0 (row_cells self d) VNaN = VStr (isoformat (date_of d)).
Proof.
  unfold row_cells. destruct (isocalendar d) as [[? ?] ?]. reflexivity.
Qed.

Lemma resolve_disabled (service : request -> option response) (today_year : Z)
    (self : Calendar) (w : World) :
  include_holidays self = false ->
  resolve service today_year self w = ((self, w), Ok tt).
Proof. intros H. unfold resolve. rewrite H. reflexivity. Qed.

(** An exception of the holiday resolution is the outcome of [generate]. *)
Lemma generate_resolve_raise (service : request -> option response)
    (today_year : Z) (dest : option string) (sep : ascii) (reset : bool)
    (self : Calendar) (w : World) (s2 : State) (err : error) :
  resolve service today_year (reset_buffer reset self) w = (s2, Raise err) ->
  generate service today_year dest sep reset (self, w) = (s2, Raise err).
Proof.
  intros Hr. unfold generate. rewrite bind_run.
  assert (Hreset : when reset
            (modify_self (set_CALENDAR_DATA _gen_calendar_data_template)) (self, w)
          = ((reset_buffer reset self, w), Ok tt))
    by (destruct reset; reflexivity).
  rewrite Hreset, get_self_bind. cbn [fst]. rewrite bind_run.
  fold (resolve service today_year (reset_buffer reset self) w).
  rewrite Hr. reflexivity.
Qed.

Lemma full_rows_app (rows rows' : list (list value)) :
  full_rows rows -> full_rows rows' -> full_rows (rows ++ rows').
Proof. unfold full_rows. intros H H'. apply Forall_app. split; assumption. Qed.

Lemma reset_buffer_rows (reset : bool) (self : Calendar)
    (rows : list (list value)) :
  CALENDAR_DATA self = buffer_of rows ->
  CALENDAR_DATA (reset_buffer reset self)
  = buffer_of (if reset then [] else rows).
Proof. intros H. destruct reset; [reflexivity | exact H]. Qed.

Lemma wf_calendar_init (sd ed : datetime) (incl : bool) (key : option string)
    (ctry : string) :
  valid_datetime sd = true -> valid_datetime ed = true ->
  wf_calendar (mkCalendar sd ed ((instant ed - instant sd) / us_per_day) incl
                 _gen_calendar_data_template key ctry ∅).
Proof.
  intros Vs Ve. split; [apply wf_dates_init; assumption |].
  exists []. split; [constructor | reflexivity].
Qed.


(** * The properties of the specification *)

(** C1. For start and end strings that parse, with start <= end, the
    builder is constructed with the day count of [end - start] (the
    difference of the two ordinals when both have the same time of day, as
    with the default format), and [generate] on it returns a table with
    exactly that many rows, one for each of the consecutive days
    [start + 0], [start + 1], ... (each a datetime of [start, end)); the
    date column lists their ISO strings in that order and holds no string
    twice.  The only way [generate] can fail is an exception of the holiday
    resolution, which needs holidays enabled. *)
Theorem C1_one_row_per_day
    (strptime : string -> string -> option datetime)
    (service : request -> option response) (today_year : Z)
    (s e fmt ctry : string) (incl : bool) (key : option string)
    (sd ed : datetime) (w : World) (sep : ascii) :
  strptime s fmt = Some sd -> strptime e fmt = Some ed ->
  valid_datetime sd = true -> valid_datetime ed = true ->
  datetime_le sd ed = true ->
  exists b delta,
    Calendar_init strptime s e incl key ctry fmt = Ok b
    /\ datetime_sub ed sd = Ok delta /\ num_days b = days delta
    /\ 0 <= days delta
    /\ (hour sd = hour ed -> minute sd = minute ed -> second sd = second ed ->
        microsecond sd = microsecond ed ->
        days delta = toordinal ed - toordinal sd)
    /\ let n := Z.to_nat (days delta) in
       let ds := dates_of b in
       length ds = n
       /\ (forall i, (i < n)%nat ->
             let d := nth i ds sd in
             valid_datetime d = true
             /\ toordinal d = toordinal sd + Z.of_nat i
             /\ datetime_le sd d = true /\ datetime_lt d ed = true)
       /\ NoDup (map (fun d => isoformat (date_of d)) ds)
       /\ match generate service today_year None sep false (b, w) with
          | (_, Ok (Some t)) =>
              df_columns t = CALENDAR_KEYS
              /\ df_nrows t = n /\ length (df_rows t) = n
              /\ df_column "date" t
                 = Some (map (fun d => VStr (isoformat (date_of d))) ds)
          | (_, Ok None) => False
          | (_, Raise err) =>
              incl = true /\ snd (resolve service today_year b w) = Raise err
          end.
Proof.
  intros Hs He Vs Ve Hle.
  eexists. eexists. split; [apply (Calendar_init_ok _ _ _ _ _ _ _ _ _ Hs He Vs Ve) |].
  split; [apply (datetime_sub_days _ _ Ve Vs) |].
  cbn [days num_days]. split; [reflexivity |].
  set (b := mkCalendar _ _ _ _ _ _ _ _).
  apply (datetime_le_instant _ _ Vs Ve) in Hle.
  assert (Hn : 0 <= (instant ed - instant sd) / us_per_day)
    by (apply Z.div_pos; unfold us_per_day; lia).
  split; [exact Hn |].
  split.
  { intros Hh Hm Hsec Hus. unfold instant, us_per_day.
    rewrite Hh, Hm, Hsec, Hus. Z.div_mod_to_equations. lia. }
  cbv zeta.
  pose proof (wf_dates_init sd ed incl key ctry Vs Ve) as Hwf. fold b in Hwf.
  split; [exact (dates_of_length b) |].
  split.
  { intros i Hi. rewrite (dates_of_nth b i sd Hi).
    apply plus_days_in_range; [assumption .. |]. change (start_date b) with sd. lia. }
  split; [apply (date_strings_NoDup b Hwf) |].
  rewrite (generate_run service today_year None sep false b w []
             Hwf eq_refl).
  cbn [reset_buffer].
  destruct (resolve service today_year b w) as [[self2 w2] [[] | err]] eqn:R.
  - cbv zeta. rewrite app_nil_l.
    rewrite df_columns_buffer, df_nrows_buffer, df_column_date.
    rewrite df_rows_buffer by apply full_rows_cells.
    rewrite !length_map, map_map, (dates_of_length b).
    repeat split; try reflexivity.
    f_equal. apply map_ext. intros d. apply row_cells_date.
  - split; [| reflexivity].
    destruct incl; [reflexivity |].
    rewrite (resolve_disabled service today_year b w eq_refl) in R.
    discriminate R.
Qed.

Lemma C1_one_row_per_day_witness :
  strptime_iso "2021-01-01" default_format = Some (mkdatetime 2021 1 1 0 0 0 0)
  /\ strptime_iso "2021-01-08" default_format = Some (mkdatetime 2021 1 8 0 0 0 0)
  /\ datetime_le (mkdatetime 2021 1 1 0 0 0 0) (mkdatetime 2021 1 8 0 0 0 0) = true
  /\ exists b delta,
       Calendar_init strptime_iso "2021-01-01" "2021-01-08" false None
         default_country default_format = Ok b
       /\ datetime_sub (mkdatetime 2021 1 8 0 0 0 0) (mkdatetime 2021 1 1 0 0 0 0)
          = Ok delta
       /\ days delta = 7
       /\ length (dates_of b) = 7%nat.
Proof.
  split; [reflexivity |]. split; [reflexivity |]. split; [reflexivity |].
  destruct (C1_one_row_per_day strptime_iso no_service 2021
              "2021-01-01" "2021-01-08" default_format default_country false None
              (mkdatetime 2021 1 1 0 0 0 0) (mkdatetime 2021 1 8 0 0 0 0)
              World0 default_sep eq_refl eq_refl eq_refl eq_refl eq_refl)
    as (b & delta & Hb & Hsub & _ & _ & _ & Hlen & _).
  exists b, delta. split; [exact Hb |]. split; [exact Hsub |].
  assert (Hd : days delta = 7).
  { vm_compute in Hsub. injection Hsub as <-. reflexivity. }
  split; [exact Hd |]. rewrite Hlen, Hd. reflexivity.
Defined.

Lemma row_cells_holiday (self : Calendar) (d : datetime) (n : string) :
  include_holidays self = true ->
  holidays self !! strftime_Ymd d = Some n ->
  exists c0 c1 c2 c3 c4 c5 c6 c7,
    row_cells self d
    = [c0; c1; c2; c3; c4; c5; c6; c7; VBool false; VBool true; VStr n].
Proof.
  intros Hincl Hn. unfold row_cells, _is_business_day, _is_holiday.
  destruct (isocalendar d) as [[? ?] wd]. rewrite Hincl, Hn. cbn [fst snd negb].
  rewrite andb_false_r. do 8 eexists. reflexivity.
Qed.

(** C2. The merge of [_get_holidays_from_api] is the policy of the
    specification.  For one date's entry list the loop body does this:
    (1) with several entries of which some are public, it indexes the first
    public one, in the order returned, under its observed date; (2) with
    several entries none of which is public, it indexes nothing; (3) with
    exactly one entry, it indexes it under its observed date iff it is
    public; (4) in all cases it leaves the index [policy_step] gives, and
    succeeds unless the list is empty.  (5) Run over all answers the
    service gave, the method leaves the policy's index.  (6) In the
    scenario, whatever the non-public entry is and wherever it stands, the
    index maps 2021-01-01 to New Year's Day.  (7) A row whose date is in
    the index has is_holiday true, the indexed name, and is_business_day
    false.  (8) The sample run has exactly this row for 2021-01-01. *)
Theorem C2_merge_policy :
  (forall (e1 e2 first : holiday) (rest others : list holiday)
          (self : Calendar) (w : World),
      List.filter public (e1 :: e2 :: rest) = first :: others ->
      index_date (e1 :: e2 :: rest) (self, w)
      = ((set_holidays (<[observed first := name first]> (holidays self)) self,
          w), Ok tt))
  /\ (forall (e1 e2 : holiday) (rest : list holiday)
             (self : Calendar) (w : World),
        List.filter public (e1 :: e2 :: rest) = [] ->
        index_date (e1 :: e2 :: rest) (self, w) = ((self, w), Ok tt))
  /\ (forall (only : holiday) (self : Calendar) (w : World),
        index_date [only] (self, w)
        = ((if public only
            then set_holidays (<[observed only := name only]> (holidays self))
                   self
            else self, w), Ok tt))
  /\ (forall (entries : list holiday) (self : Calendar) (w : World),
      index_date entries (self, w)
      = ((set_holidays (policy_step (holidays self) entries) self, w),
         match entries with [] => Raise IndexError | _ :: _ => Ok tt end))
  /\ (forall (service : request -> option response) (today_year : Z)
        (self : Calendar) (w w' : World) (answers : list holiday_dict),
        fetch_all service today_year (holiday_api_key self) (country self)
          (years_of self) w = (w', Ok answers) ->
        entries_nonempty answers = true ->
        _get_holidays_from_api service today_year (self, w)
        = ((set_holidays (policy_index answers) self, w'), Ok tt))
  /\ (forall other : holiday,
        public other = false ->
        policy_index [[("2021-01-01", [new_years_day; other])]]
        = {["2021-01-01" := "New Year's Day"]}
        /\ policy_index [[("2021-01-01", [other; new_years_day])]]
           = {["2021-01-01" := "New Year's Day"]})
  /\ (forall (self : Calendar) (d : datetime) (n : string),
        include_holidays self = true ->
        holidays self !! strftime_Ymd d = Some n ->
        exists c0 c1 c2 c3 c4 c5 c6 c7,
          row_cells self d
          = [c0; c1; c2; c3; c4; c5; c6; c7; VBool false; VBool true; VStr n])
  /\ (exists b b' w' t,
        Calendar_init strptime_iso "2021-01-01" "2021-01-02" true (Some "k")
          default_country default_format = Ok b
        /\ generate sample_service 2022 None default_sep false (b, World0)
           = ((b', w'), Ok (Some t))
        /\ holidays b' = {["2021-01-01" := "New Year's Day"]}
        /\ df_columns t = CALENDAR_KEYS
        /\ df_rows t
           = [[VStr "2021-01-01"; VInt 2020; VInt 1; VInt 1; VInt 5;
               VStr "Friday"; VInt 53; VBool false; VBool false; VBool true;
               VStr "New Year's Day"]]).
Proof.
  split.
  { intros e1 e2 first rest others self w Hf. rewrite index_date_run.
    unfold policy_step. rewrite Hf. reflexivity. }
  split.
  { intros e1 e2 rest self w Hf. rewrite index_date_run.
    unfold policy_step. rewrite Hf, set_holidays_id. reflexivity. }
  split.
  { intros only self w. rewrite index_date_run. unfold policy_step.
    destruct (public only); [| rewrite set_holidays_id]; reflexivity. }
  split; [intros; apply index_date_run |].
  split.
  { intros service today_year self w w' answers Hf Hne.
    rewrite get_holidays_from_api_run, Hf, (index_all_ok _ _ _ Hne).
    rewrite set_holidays_twice. reflexivity. }
  split.
  { intros [n p o] Hp. cbn [public] in Hp. subst p.
    unfold policy_index, policy_dict, policy_step, new_years_day.
    cbn [fold_left snd List.filter public observed name]. split; reflexivity. }
  split; [exact row_cells_holiday |].
  do 4 eexists. split; [reflexivity |]. split; [vm_compute; reflexivity |].
  repeat split; vm_compute; reflexivity.
Qed.

(** The table a first [generate] returns, and the builder it leaves. *)
Lemma generate_fresh_table (service : request -> option response)
    (today_year : Z) (sep : ascii) (reset : bool) (self b' : Calendar)
    (w w' : World) (t : DataFrame) :
  wf_dates self -> CALENDAR_DATA self = buffer_of [] ->
  generate service today_year None sep reset (self, w) = ((b', w'), Ok (Some t)) ->
  include_holidays b' = include_holidays self
  /\ t = buffer_of (map (row_cells b') (dates_of self))
  /\ df_rows t = map (row_cells b') (dates_of self)
  /\ resolve service today_year (reset_buffer reset self) w
     = ((set_holidays (holidays b') (reset_buffer reset self), w'), Ok tt).
Proof.
  intros Hwf Hbuf Hgen.
  rewrite (generate_run service today_year None sep reset self w [] Hwf
             (reset_buffer_fresh reset self Hbuf)) in Hgen.
  destruct (resolve_shape service today_year (reset_buffer reset self) w)
    as (h & w2 & r & Hr).
  rewrite Hr in *. destruct r as [[] | err]; [| discriminate Hgen].
  cbv zeta in Hgen. rewrite app_nil_l in Hgen.
  injection Hgen as <- <- <-.
  cbn [fst]. split; [destruct reset; reflexivity |].
  split; [reflexivity |].
  split; [apply df_rows_buffer, full_rows_cells |].
  reflexivity.
Qed.

(** C3. In every row of a generated table the weekday cell is the ISO
    weekday of the row's day, a number from 1 to 7, and the is_weekend cell
    is true exactly when that weekday is 6 or 7.  The is_business_day cell
    is true exactly when the day is not a weekend day and, moreover,
    holidays are disabled or the day's key is not in the holiday index; so
    it is false in every row whose is_weekend cell is true. *)
Theorem C3_business_day
    (strptime : string -> string -> option datetime)
    (service : request -> option response) (today_year : Z)
    (s e fmt ctry : string) (incl : bool) (key : option string)
    (sd ed : datetime) (sep : ascii) (reset : bool)
    (b b' : Calendar) (w w' : World) (t : DataFrame) :
  strptime s fmt = Some sd -> strptime e fmt = Some ed ->
  valid_datetime sd = true -> valid_datetime ed = true ->
  Calendar_init strptime s e incl key ctry fmt = Ok b ->
  generate service today_year None sep reset (b, w) = ((b', w'), Ok (Some t)) ->
  df_columns t = CALENDAR_KEYS
  /\ Forall (fun r =>
       exists (d : datetime) (weekday : Z) (is_weekend is_business_day : bool)
              (c1 c2 c3 c5 c6 c9 c10 : value),
         r = [VStr (isoformat (date_of d)); c1; c2; c3; VInt weekday; c5; c6;
              VBool is_weekend; VBool is_business_day; c9; c10]
         /\ In d (dates_of b)
         /\ weekday = snd (isocalendar d)
         /\ 1 <= weekday <= 7
         /\ is_weekend = _is_weekend weekday
         /\ (is_weekend = true <-> weekday = 6 \/ weekday = 7)
         /\ (is_business_day = true <->
             is_weekend = false
             /\ (incl = false \/ holidays b' !! strftime_Ymd d = None))
         /\ (is_weekend = true -> is_business_day = false))
      (df_rows t).
Proof.
  intros Hs He Vs Ve Hb Hgen.
  rewrite (Calendar_init_ok _ _ _ _ _ _ _ _ _ Hs He Vs Ve) in Hb.
  injection Hb as <-.
  destruct (generate_fresh_table _ _ _ _ _ _ _ _ _
              (wf_dates_init sd ed incl key ctry Vs Ve) eq_refl Hgen)
    as (Hincl & Ht & Hrows & _).
  cbn [include_holidays] in Hincl.
  split; [rewrite Ht; reflexivity |].
  rewrite Hrows, List.Forall_forall. intros r Hin.
  apply in_map_iff in Hin as (d & <- & Hd).
  unfold row_cells, _is_business_day, _is_holiday. rewrite Hincl.
  destruct (isocalendar d) as [[iso_year weeknumber] weekday] eqn:Hiso.
  exists d, weekday. do 9 eexists.
  split; [reflexivity |]. split; [exact Hd |].
  split; [rewrite Hiso; reflexivity |].
  split; [pose proof (isocalendar_weekday d) as Hrange;
          rewrite Hiso in Hrange; exact Hrange |].
  split; [reflexivity |].
  split; [unfold _is_weekend; rewrite orb_true_iff, !Z.eqb_eq; reflexivity |].
  generalize (strftime_Ymd d). intros date_key.
  clear Hgen Ht Hrows Hd Hiso Hs He Vs Ve.
  destruct (_is_weekend weekday), incl,
    (holidays b' !! date_key) as [n |]; cbn [fst negb andb];
    intuition congruence.
Qed.

Lemma C3_business_day_witness :
  exists b b' w' t,
    Calendar_init strptime_iso "2021-01-01" "2021-01-05" true (Some "k")
      default_country default_format = Ok b
    /\ generate sample_service 2022 None default_sep false (b, World0)
       = ((b', w'), Ok (Some t))
    /\ df_columns t = CALENDAR_KEYS
    /\ map (fun r => (nth 0 r VNaN, nth 4 r VNaN, nth 7 r VNaN, nth 8 r VNaN))
          (df_rows t)
       = [(VStr "2021-01-01", VInt 5, VBool false, VBool false);
          (VStr "2021-01-02", VInt 6, VBool true, VBool false);
          (VStr "2021-01-03", VInt 7, VBool true, VBool false);
          (VStr "2021-01-04", VInt 1, VBool false, VBool true)]
    /\ Forall (fun r =>
         exists (d : datetime) (weekday : Z) (is_weekend is_business_day : bool)
                (c1 c2 c3 c5 c6 c9 c10 : value),
           r = [VStr (isoformat (date_of d)); c1; c2; c3; VInt weekday; c5; c6;
                VBool is_weekend; VBool is_business_day; c9; c10]
           /\ In d (dates_of b)
           /\ weekday = snd (isocalendar d)
           /\ 1 <= weekday <= 7
           /\ is_weekend = _is_weekend weekday
           /\ (is_weekend = true <-> weekday = 6 \/ weekday = 7)
           /\ (is_business_day = true <->
               is_weekend = false
               /\ (true = false \/ holidays b' !! strftime_Ymd d = None))
           /\ (is_weekend = true -> is_business_day = false))
        (df_rows t).
Proof.
  do 4 eexists.
  split; [reflexivity |]. split; [vm_compute; reflexivity |].
  split; [reflexivity |]. split; [vm_compute; reflexivity |].
  refine (proj2 (C3_business_day strptime_iso sample_service 2022
            "2021-01-01" "2021-01-05" default_format default_country true
            (Some "k") (mkdatetime 2021 1 1 0 0 0 0) (mkdatetime 2021 1 5 0 0 0 0)
            default_sep false _ _ World0 _ _
            eq_refl eq_refl eq_refl eq_refl eq_refl _)).
  vm_compute. reflexivity.
Defined.

(** C4. A builder constructed with holidays disabled generates its table
    without touching the world (no request, no warning) or its holiday
    index, whatever the service would have answered; every row has [nan]
    in is_holiday and holiday_name, and its is_business_day cell is the
    negation of its is_weekend cell. *)
Theorem C4_holidays_disabled
    (strptime : string -> string -> option datetime)
    (service : request -> option response) (today_year : Z)
    (s e fmt ctry : string) (key : option string)
    (sd ed : datetime) (sep : ascii) (reset : bool) (w : World) :
  strptime s fmt = Some sd -> strptime e fmt = Some ed ->
  valid_datetime sd = true -> valid_datetime ed = true ->
  exists b b' t,
    Calendar_init strptime s e false key ctry fmt = Ok b
    /\ generate service today_year None sep reset (b, w) = ((b', w), Ok (Some t))
    /\ generate service today_year None sep reset (b, w)
       = generate no_service 0 None sep reset (b, w)
    /\ holidays b' = holidays b
    /\ df_columns t = CALENDAR_KEYS
    /\ length (df_rows t) = Z.to_nat (num_days b)
    /\ Forall (fun r =>
         exists (c0 c1 c2 c3 c4 c5 c6 : value) (is_weekend : bool),
           r = [c0; c1; c2; c3; c4; c5; c6; VBool is_weekend;
                VBool (negb is_weekend); VNaN; VNaN])
        (df_rows t).
Proof.
  intros Hs He Vs Ve. eexists. eexists. eexists.
  split; [apply (Calendar_init_ok _ _ _ _ _ _ _ _ _ Hs He Vs Ve) |].
  set (b := mkCalendar _ _ _ _ _ _ _ _).
  pose proof (wf_dates_init sd ed false key ctry Vs Ve) as Hwf. fold b in Hwf.
  assert (Hgen : forall svc ty,
            generate svc ty None sep reset (b, w)
            = ((set_CALENDAR_DATA
                  (buffer_of (map (row_cells b) (dates_of b))) b, w),
               Ok (Some (buffer_of (map (row_cells b) (dates_of b)))))).
  { intros svc ty.
    rewrite (generate_run svc ty None sep reset b w [] Hwf
               (reset_buffer_fresh reset b eq_refl)).
    rewrite (resolve_disabled svc ty (reset_buffer reset b) w)
      by (destruct reset; reflexivity).
    cbv zeta. rewrite app_nil_l. destruct reset; reflexivity. }
  split; [apply Hgen |].
  split; [rewrite !Hgen; reflexivity |].
  split; [reflexivity |]. split; [reflexivity |].
  rewrite df_rows_buffer by apply full_rows_cells.
  split; [rewrite length_map; apply dates_of_length |].
  rewrite List.Forall_forall. intros r Hin.
  apply in_map_iff in Hin as (d & <- & _).
  unfold row_cells, _is_business_day.
  destruct (isocalendar d) as [[? ?] ?]. cbn [include_holidays b].
  do 8 eexists. reflexivity.
Qed.

Lemma C4_holidays_disabled_witness :
  strptime_iso "2021-01-01" default_format = Some (mkdatetime 2021 1 1 0 0 0 0)
  /\ strptime_iso "2021-01-08" default_format = Some (mkdatetime 2021 1 8 0 0 0 0)
  /\ exists b b' t,
       Calendar_init strptime_iso "2021-01-01" "2021-01-08" false None
         default_country default_format = Ok b
       /\ generate sample_service 2021 None default_sep false (b, World0)
          = ((b', World0), Ok (Some t))
       /\ length (df_rows t) = Z.to_nat (num_days b).
Proof.
  split; [reflexivity |]. split; [reflexivity |].
  destruct (C4_holidays_disabled strptime_iso sample_service 2021
              "2021-01-01" "2021-01-08" default_format default_country None
              (mkdatetime 2021 1 1 0 0 0 0) (mkdatetime 2021 1 8 0 0 0 0)
              default_sep false World0 eq_refl eq_refl eq_refl eq_refl)
    as (b & b' & t & Hb & Hgen & _ & _ & _ & Hlen & _).
  exists b, b', t. auto.
Defined.

Lemma years_of_cons (self : Calendar) :
  year (start_date self) <= year (end_date self) ->
  exists years, years_of self = year (start_date self) :: years.
Proof.
  intros H. unfold years_of, py_range2.
  replace (Z.to_nat (year (end_date self) + 1 - year (start_date self)))
    with (S (Z.to_nat (year (end_date self) - year (start_date self)))) by lia.
  cbn [seq map]. rewrite Z.add_0_r. eexists. reflexivity.
Qed.

(** C5, amended.  [HolidayAPI] cannot be constructed without a key (and
    can with any key).  A builder with holidays enabled, no key and a start
    year that is not after the end year fails in [generate] with that same
    exception, having sent no request and written no file; nothing of its
    buffer or index has changed beyond the optional reset. *)
Theorem C5_missing_credential
    (service : request -> option response) (today_year : Z)
    (self : Calendar) (w : World) (dest : option string) (sep : ascii)
    (reset : bool) :
  include_holidays self = true ->
  holiday_api_key self = None ->
  year (start_date self) <= year (end_date self) ->
  HolidayAPI_init None = Raise (Exception missing_key_message)
  /\ (forall k, HolidayAPI_init (Some k) = Ok (mkHolidayAPI k))
  /\ exists w',
       generate service today_year dest sep reset (self, w)
       = ((reset_buffer reset self, w'), Raise (Exception missing_key_message))
       /\ requests w' = requests w /\ files w' = files w.
Proof.
  intros Hincl Hkey Hyears.
  split; [reflexivity |]. split; [reflexivity |].
  destruct (years_of_cons self Hyears) as [years Hy].
  assert (Hincl' : include_holidays (reset_buffer reset self) = true)
    by (destruct reset; exact Hincl).
  assert (Hy' : years_of (reset_buffer reset self) = year (start_date self) :: years)
    by (destruct reset; exact Hy).
  assert (Hkey' : holiday_api_key (reset_buffer reset self) = None)
    by (destruct reset; exact Hkey).
  set (w1 := if today_year <=? year (start_date self)
             then mkWorld (requests w) (warnings w ++ [year (start_date self)])
                    (files w)
             else w).
  exists w1. split.
  - apply generate_resolve_raise. unfold resolve. rewrite Hincl'. cbn [when].
    rewrite get_holidays_from_api_run, Hy', Hkey'. reflexivity.
  - subst w1. destruct (today_year <=? year (start_date self)); split; reflexivity.
Qed.

Lemma C5_missing_credential_witness :
  exists b w',
    Calendar_init strptime_iso "2021-01-01" "2021-01-08" true None
      default_country default_format = Ok b
    /\ include_holidays b = true /\ holiday_api_key b = None
    /\ year (start_date b) <= year (end_date b)
    /\ generate sample_service 2021 None default_sep false (b, World0)
       = ((b, w'), Raise (Exception missing_key_message))
    /\ requests w' = [].
Proof.
  pose (b := mkCalendar (mkdatetime 2021 1 1 0 0 0 0) (mkdatetime 2021 1 8 0 0 0 0)
               7 true _gen_calendar_data_template None default_country ∅).
  assert (Hy : year (start_date b) <= year (end_date b)) by (cbn; lia).
  destruct (C5_missing_credential sample_service 2021 b World0 None
              default_sep false eq_refl eq_refl Hy)
    as (_ & _ & w' & Hgen & Hreq & _).
  exists b, w'. split; [reflexivity |].
  split; [reflexivity |]. split; [reflexivity |]. split; [exact Hy |].
  split; [exact Hgen | exact Hreq].
Defined.

(** C5 as stated fails: with holidays enabled and no key, a range whose
    end year precedes its start year constructs no client at all, and
    [generate] returns the empty table. *)
Lemma C5_counterexample :
  exists b s',
    Calendar_init strptime_iso "2021-01-01" "2020-12-31" true None
      default_country default_format = Ok b
    /\ include_holidays b = true /\ holiday_api_key b = None
    /\ generate sample_service 2021 None default_sep false (b, World0)
       = (s', Ok (Some _gen_calendar_data_template)).
Proof.
  eexists. eexists. split; [reflexivity |].
  split; [reflexivity |]. split; [reflexivity |].
  vm_compute. reflexivity.
Qed.

(** C6. A builder that was constructed holds the two dates the parser
    gave for the two strings under the configured format.  If either string
    does not match the format, construction raises the parser's ValueError,
    and the caller's construct-then-generate gets that exception: no table,
    no file, the world untouched. *)
Theorem C6_parse_error
    (strptime : string -> string -> option datetime)
    (s e fmt ctry : string) (incl : bool) (key : option string) :
  (forall b,
      Calendar_init strptime s e incl key ctry fmt = Ok b ->
      strptime s fmt = Some (start_date b)
      /\ strptime e fmt = Some (end_date b))
  /\ (strptime s fmt = None \/ strptime e fmt = None ->
      Calendar_init strptime s e incl key ctry fmt = Raise ValueError
      /\ forall (service : request -> option response) (today_year : Z)
                (dest : option string) (sep : ascii) (reset : bool) (w : World),
           Calendar_generate strptime service today_year s e incl key ctry fmt
             dest sep reset w
           = (w, Raise ValueError)).
Proof.
  split.
  - intros b Hb. unfold Calendar_init in Hb.
    destruct (strptime s fmt) as [sd |]; [| discriminate Hb].
    destruct (strptime e fmt) as [ed |]; [| discriminate Hb].
    destruct (datetime_sub ed sd); [| discriminate Hb].
    injection Hb as <-. split; reflexivity.
  - intros Hnone.
    assert (Hinit : Calendar_init strptime s e incl key ctry fmt = Raise ValueError).
    { unfold Calendar_init. destruct Hnone as [H | H].
      - rewrite H. reflexivity.
      - rewrite H. destruct (strptime s fmt); reflexivity. }
    split; [exact Hinit |]. intros. unfold Calendar_generate.
    rewrite Hinit. reflexivity.
Qed.

Lemma C6_parse_error_witness :
  strptime_iso "01/02/2021" default_format = None
  /\ Calendar_init strptime_iso "01/02/2021" "2021-01-08" false None
       default_country default_format = Raise ValueError
  /\ Calendar_generate strptime_iso no_service 2021 "01/02/2021" "2021-01-08"
       false None default_country default_format None default_sep false World0
     = (World0, Raise ValueError).
Proof.
  split; [reflexivity |].
  destruct (proj2 (C6_parse_error strptime_iso "01/02/2021" "2021-01-08"
                     default_format default_country false None)
              (or_introl eq_refl)) as [Hinit Hgen].
  split; [exact Hinit | apply Hgen].
Defined.

(** A table generated from a well-formed builder, with or without a
    destination: the same table, in the one case returned, in the other
    written as text. *)
Lemma generate_table (service : request -> option response) (today_year : Z)
    (sep : ascii) (reset : bool) (self self1 : Calendar) (w w1 : World)
    (t : DataFrame) :
  wf_calendar self ->
  generate service today_year None sep reset (self, w)
  = ((self1, w1), Ok (Some t)) ->
  (exists rows, full_rows rows /\ t = buffer_of rows)
  /\ forall path,
       generate service today_year (Some path) sep reset (self, w)
       = ((self1, write_file path (to_csv sep t) w1), Ok None).
Proof.
  intros (Hwf & rows0 & Hfull & Hbuf) Hgen.
  pose proof (reset_buffer_rows reset self rows0 Hbuf) as Hbuf'.
  rewrite (generate_run service today_year None sep reset self w _ Hwf Hbuf')
    in Hgen.
  split.
  - destruct (resolve service today_year (reset_buffer reset self) w)
      as [[self2 w2] [[] | err]]; [| discriminate Hgen].
    cbv zeta in Hgen. injection Hgen as <- <- <-.
    eexists. split; [| reflexivity].
    apply full_rows_app; [| apply full_rows_cells].
    destruct reset; [constructor | exact Hfull].
  - intros path.
    rewrite (generate_run service today_year (Some path) sep reset self w _
               Hwf Hbuf').
    destruct (resolve service today_year (reset_buffer reset self) w)
      as [[self2 w2] [[] | err]]; [| discriminate Hgen].
    cbv zeta in Hgen |- *. injection Hgen as <- <- <-. reflexivity.
Qed.

Lemma table_text_fields (rows : list (list value)) :
  full_rows rows ->
  Forall (fun fields => fields <> []) (table_text (buffer_of rows)).
Proof.
  intros Hfull. unfold table_text. rewrite df_rows_buffer by exact Hfull.
  constructor; [discriminate |].
  rewrite List.Forall_forall. intros fields Hin.
  apply in_map_iff in Hin as (r & <- & Hr).
  unfold full_rows in Hfull. rewrite List.Forall_forall in Hfull.
  specialize (Hfull r Hr). destruct r; [discriminate Hfull | discriminate].
Qed.

(** C7, amended.  For a table generated from a well-formed builder, the
    same call with a destination writes [to_csv] of that table there.  If
    the separator is not the line feed and no field of the table (header
    names and cell texts) contains the separator, the quote character or a
    line feed, cutting that text at line feeds and separators gives back
    the header and the text of every cell, row by row, in order. *)
Theorem C7_reparse
    (service : request -> option response) (today_year : Z)
    (sep : ascii) (reset : bool) (self self1 : Calendar) (w w1 : World)
    (t : DataFrame) (path : string) :
  wf_calendar self ->
  generate service today_year None sep reset (self, w)
  = ((self1, w1), Ok (Some t)) ->
  Ascii.eqb sep LF = false ->
  Forall (Forall (fun f => needs_quote sep f = false)) (table_text t) ->
  generate service today_year (Some path) sep reset (self, w)
  = ((self1, write_file path (to_csv sep t) w1), Ok None)
  /\ reparse sep (to_csv sep t) = table_text t.
Proof.
  intros Hwf Hgen Hsep Hplain.
  destruct (generate_table _ _ _ _ _ _ _ _ _ Hwf Hgen)
    as [(rows & Hfull & ->) Hdest].
  split; [apply Hdest |].
  rewrite to_csv_lines. apply reparse_lines; [exact Hsep |].
  pose proof (table_text_fields rows Hfull) as Hne.
  rewrite List.Forall_forall in *. intros fields Hin.
  split; [apply Hne, Hin | apply Hplain, Hin].
Qed.

(** C7 as stated fails: with the separator [-], the date of the only row
    of this table contains the separator, so the written line is cut into
    thirteen pieces where the row has eleven cells. *)
Lemma C7_counterexample :
  exists b s' t,
    Calendar_init strptime_iso "2021-01-01" "2021-01-02" false None
      default_country default_format = Ok b
    /\ generate no_service 2021 None "-" false (b, World0) = (s', Ok (Some t))
    /\ nth 1 (table_text t) []
       = ["2021-01-01"; "2020"; "1"; "1"; "5"; "Friday"; "53"; "False"; "True";
          EmptyString; EmptyString]
    /\ length (nth 1 (reparse "-" (to_csv "-" t)) []) = 13%nat
    /\ bool_decide (reparse "-" (to_csv "-" t) = table_text t) = false.
Proof.
  do 3 eexists. split; [reflexivity |]. split; [vm_compute; reflexivity |].
  split; [vm_compute; reflexivity |]. split; vm_compute; reflexivity.
Qed.

Lemma C7_reparse_witness :
  exists b b' t,
    Calendar_init strptime_iso "2021-01-01" "2021-01-03" false None
      default_country default_format = Ok b
    /\ wf_calendar b
    /\ generate no_service 2021 None default_sep false (b, World0)
       = ((b', World0), Ok (Some t))
    /\ Forall (Forall (fun f => needs_quote default_sep f = false)) (table_text t)
    /\ generate no_service 2021 (Some "calendar.csv") default_sep false (b, World0)
       = ((b', write_file "calendar.csv" (to_csv default_sep t) World0), Ok None)
    /\ reparse default_sep (to_csv default_sep t) = table_text t.
Proof.
  pose (sd := mkdatetime 2021 1 1 0 0 0 0). pose (ed := mkdatetime 2021 1 3 0 0 0 0).
  pose (b := mkCalendar sd ed ((instant ed - instant sd) / us_per_day) false
               _gen_calendar_data_template None default_country ∅).
  assert (Hwf : wf_calendar b) by (apply wf_calendar_init; reflexivity).
  assert (Hgen : exists b' t,
             generate no_service 2021 None default_sep false (b, World0)
             = ((b', World0), Ok (Some t))
             /\ Forall (Forall (fun f => needs_quote default_sep f = false))
                  (table_text t)).
  { do 2 eexists. split; [vm_compute; reflexivity |].
    vm_compute. repeat (constructor; [repeat (constructor; try reflexivity) |]).
    constructor. }
  destruct Hgen as (b' & t & Hgen & Hplain).
  exists b, b', t. split; [reflexivity |]. split; [exact Hwf |].
  split; [exact Hgen |]. split; [exact Hplain |].
  exact (C7_reparse no_service 2021 default_sep false b b' World0 World0 t
           "calendar.csv" Hwf Hgen eq_refl Hplain).
Defined.

(** C8. For start and end strings that parse, with end < start, the
    builder is constructed with a negative day count, [_gen_dates] yields
    nothing, and [generate] returns the table of the eleven columns with
    no row.  The only way [generate] can fail is an exception of the
    holiday resolution, which needs holidays enabled. *)
Theorem C8_reversed_range
    (strptime : string -> string -> option datetime)
    (service : request -> option response) (today_year : Z)
    (s e fmt ctry : string) (incl : bool) (key : option string)
    (sd ed : datetime) (w : World) (sep : ascii) :
  strptime s fmt = Some sd -> strptime e fmt = Some ed ->
  valid_datetime sd = true -> valid_datetime ed = true ->
  datetime_lt ed sd = true ->
  exists b delta,
    Calendar_init strptime s e incl key ctry fmt = Ok b
    /\ datetime_sub ed sd = Ok delta /\ num_days b = days delta
    /\ days delta < 0
    /\ _gen_dates b = []
    /\ match generate service today_year None sep false (b, w) with
       | (_, Ok (Some t)) =>
           t = _gen_calendar_data_template
           /\ df_columns t = CALENDAR_KEYS
           /\ df_nrows t = 0%nat /\ df_rows t = []
       | (_, Ok None) => False
       | (_, Raise err) =>
           incl = true /\ snd (resolve service today_year b w) = Raise err
       end.
Proof.
  intros Hs He Vs Ve Hlt.
  eexists. eexists. split; [apply (Calendar_init_ok _ _ _ _ _ _ _ _ _ Hs He Vs Ve) |].
  split; [apply (datetime_sub_days _ _ Ve Vs) |].
  cbn [days num_days]. split; [reflexivity |].
  set (b := mkCalendar _ _ _ _ _ _ _ _).
  unfold datetime_lt in Hlt. apply negb_true_iff in Hlt.
  assert (Hinst : instant ed < instant sd).
  { destruct (Z.lt_ge_cases (instant ed) (instant sd)) as [|Hge]; [assumption |].
    apply (datetime_le_instant _ _ Vs Ve) in Hge. congruence. }
  assert (Hn : (instant ed - instant sd) / us_per_day < 0)
    by (apply Z.div_lt_upper_bound; unfold us_per_day; lia).
  split; [exact Hn |].
  assert (Hrange : py_range (num_days b) = []).
  { unfold py_range. change (num_days b) with ((instant ed - instant sd) / us_per_day).
    replace (Z.to_nat ((instant ed - instant sd) / us_per_day)) with 0%nat by lia.
    reflexivity. }
  split; [unfold _gen_dates; rewrite Hrange; reflexivity |].
  pose proof (wf_dates_init sd ed incl key ctry Vs Ve) as Hwf. fold b in Hwf.
  rewrite (generate_run service today_year None sep false b w []
             Hwf eq_refl).
  cbn [reset_buffer].
  destruct (resolve service today_year b w) as [[self2 w2] [[] | err]] eqn:R.
  - cbv zeta. unfold dates_of. rewrite Hrange. repeat split; reflexivity.
  - split; [| reflexivity].
    destruct incl; [reflexivity |].
    rewrite (resolve_disabled service today_year b w eq_refl) in R.
    discriminate R.
Qed.

Lemma C8_reversed_range_witness :
  strptime_iso "2021-06-01" default_format = Some (mkdatetime 2021 6 1 0 0 0 0)
  /\ strptime_iso "2021-01-01" default_format = Some (mkdatetime 2021 1 1 0 0 0 0)
  /\ datetime_lt (mkdatetime 2021 1 1 0 0 0 0) (mkdatetime 2021 6 1 0 0 0 0) = true
  /\ exists b,
       Calendar_init strptime_iso "2021-06-01" "2021-01-01" false None
         default_country default_format = Ok b
       /\ num_days b = -151
       /\ _gen_dates b = [].
Proof.
  split; [reflexivity |]. split; [reflexivity |]. split; [reflexivity |].
  destruct (C8_reversed_range strptime_iso no_service 2021
              "2021-06-01" "2021-01-01" default_format default_country false None
              (mkdatetime 2021 6 1 0 0 0 0) (mkdatetime 2021 1 1 0 0 0 0)
              World0 default_sep eq_refl eq_refl eq_refl eq_refl eq_refl)
    as (b & delta & Hb & Hsub & Hn & _ & Hdates & _).
  exists b. split; [exact Hb |]. split; [| exact Hdates].
  rewrite Hn. vm_compute in Hsub. injection Hsub as <-. reflexivity.
Defined.

Lemma fetch_all_files (service : request -> option response) (today_year : Z)
    (key : option string) (ctry : string) (years : list Z) (w : World) :
  files (fst (fetch_all service today_year key ctry years w)) = files w.
Proof.
  revert w. induction years as [| y years IH]; intros w; [reflexivity |].
  cbn [fetch_all].
  set (w1 := if today_year <=? y then _ else w).
  assert (H1 : files w1 = files w)
    by (subst w1; destruct (today_year <=? y); reflexivity).
  clearbody w1. destruct key as [k |]; [| exact H1].
  destruct (read_response _); [| exact H1].
  match goal with |- context [fetch_all _ _ _ _ _ ?a] =>
    specialize (IH a); destruct (fetch_all service today_year (Some k) ctry years a)
      as [w3 [hs | err]] end; cbn [fst files] in *; congruence.
Qed.

(** C9. After the branch for several entries, the loop body takes element
    0 of the entry list whatever its length, so it raises IndexError on an
    empty list.  For a builder with holidays enabled and a key, when the
    service answers every year of the range: if every date of every answer
    has at least one entry, [generate] returns a table; if some date has
    none, [generate] raises IndexError and neither appends a row nor writes
    a file. *)
Theorem C9_empty_entry_list
    (service : request -> option response) (today_year : Z)
    (self : Calendar) (w : World) (dest : option string) (sep : ascii)
    (reset : bool) (k : string) (answer : Z -> holiday_dict) :
  wf_calendar self ->
  include_holidays self = true ->
  holiday_api_key self = Some k ->
  (forall y, In y (years_of self) ->
     read_response (service (mkrequest URL k (country self) y)) = Ok (answer y)) ->
  (forall s : State, snd (index_date [] s) = Raise IndexError)
  /\ (entries_nonempty (map answer (years_of self)) = true ->
      exists s' t,
        generate service today_year None sep reset (self, w) = (s', Ok (Some t)))
  /\ (entries_nonempty (map answer (years_of self)) = false ->
      exists h w',
        generate service today_year dest sep reset (self, w)
        = ((set_holidays h (reset_buffer reset self), w'), Raise IndexError)
        /\ files w' = files w).
Proof.
  intros (Hwf & rows0 & Hfull & Hbuf) Hincl Hkey Hanswers.
  split; [intros [self0 w0]; rewrite index_date_run; reflexivity |].
  set (self1 := reset_buffer reset self).
  assert (Hincl1 : include_holidays self1 = true)
    by (subst self1; destruct reset; exact Hincl).
  assert (Hfetch : exists w',
             fetch_all service today_year (holiday_api_key self1) (country self1)
               (years_of self1) w = (w', Ok (map answer (years_of self)))).
  { replace (holiday_api_key self1) with (Some k)
      by (subst self1; destruct reset; symmetry; exact Hkey).
    replace (country self1) with (country self)
      by (subst self1; destruct reset; reflexivity).
    replace (years_of self1) with (years_of self)
      by (subst self1; destruct reset; reflexivity).
    apply fetch_all_ok, Hanswers. }
  destruct Hfetch as [w' Hfetch].
  pose proof (fetch_all_files service today_year (holiday_api_key self1)
                (country self1) (years_of self1) w) as Hfiles.
  rewrite Hfetch in Hfiles. cbn [fst] in Hfiles.
  destruct (resolve_cases service today_year self1 w)
    as [[Hoff _] | [(_ & w2 & answers & Hf & Hne & Hr)
       | [(_ & w2 & answers & h & Hf & Hne & Hr) | (_ & w2 & err & Hf & _)]]];
    try congruence;
    rewrite Hfetch in Hf; injection Hf as <- <-.
  - split; [| congruence]. intros _.
    rewrite (generate_run service today_year None sep reset self w _ Hwf
               (reset_buffer_rows reset self rows0 Hbuf)).
    fold self1. rewrite Hr. cbv zeta. eauto.
  - split; [congruence |]. intros _. exists h, w'.
    split; [| exact Hfiles].
    apply generate_resolve_raise. exact Hr.
Qed.

Lemma C9_empty_entry_list_witness :
  exists b h w',
    Calendar_init strptime_iso "2021-01-01" "2021-01-03" true (Some "k")
      default_country default_format = Ok b
    /\ entries_nonempty (map (fun _ => [("2021-01-01", [])]) (years_of b)) = false
    /\ generate hollow_service 2022 None default_sep false (b, World0)
       = ((set_holidays h b, w'), Raise IndexError).
Proof.
  pose (sd := mkdatetime 2021 1 1 0 0 0 0). pose (ed := mkdatetime 2021 1 3 0 0 0 0).
  pose (b := mkCalendar sd ed ((instant ed - instant sd) / us_per_day) true
               _gen_calendar_data_template (Some "k") default_country ∅).
  assert (Hwf : wf_calendar b) by (apply wf_calendar_init; reflexivity).
  destruct (C9_empty_entry_list hollow_service 2022 b World0 None default_sep
              false "k" (fun _ => [("2021-01-01", [])]) Hwf eq_refl eq_refl
              (fun y _ => eq_refl))
    as (_ & _ & Hfail).
  destruct (Hfail eq_refl) as (h & w' & Hgen & _).
  exists b, h, w'. split; [reflexivity |]. split; [reflexivity |]. exact Hgen.
Defined.

Lemma row_cells_ext (a b : Calendar) (d : datetime) :
  include_holidays a = include_holidays b -> holidays a = holidays b ->
  row_cells a d = row_cells b d.
Proof.
  intros Hi Hh. unfold row_cells, _is_business_day, _is_holiday.
  rewrite Hi, Hh. reflexivity.
Qed.

Lemma same_config_reset (reset : bool) (a b : Calendar) :
  same_config a b -> same_config (reset_buffer reset a) b.
Proof. intros H. destruct reset; exact H. Qed.

(** The service being a function of the request, a holiday resolution that
    succeeded once succeeds again from any later state of the builder and
    leaves the same index. *)
Lemma resolve_again (service : request -> option response) (today_year : Z)
    (self self' sA : Calendar) (w w' wA : World) :
  same_config self' self ->
  holidays self' = holidays sA ->
  resolve service today_year self w = ((sA, wA), Ok tt) ->
  exists wB, resolve service today_year self' w' = ((self', wB), Ok tt).
Proof.
  intros (Hsd & Hed & _ & Hincl & Hkey & Hctry) Hh Hr.
  assert (Hyears : years_of self' = years_of self)
    by (unfold years_of; rewrite Hsd, Hed; reflexivity).
  destruct (resolve_cases service today_year self w)
    as [[Hoff Hr1] | [(Hon & w2 & answers & Hf & Hne & Hr1)
       | [(_ & w2 & answers & h & _ & _ & Hr1) | (_ & w2 & err & _ & Hr1)]]];
    rewrite Hr1 in Hr; try discriminate Hr.
  - exists w'. apply resolve_disabled. congruence.
  - injection Hr as <- <-.
    pose proof (fetch_all_result service today_year (holiday_api_key self)
                  (country self) (years_of self) w w') as Hsame.
    rewrite Hf in Hsame. cbn [snd] in Hsame.
    destruct (resolve_cases service today_year self' w')
      as [[Hoff _] | [(_ & w3 & answers' & Hf' & _ & Hr')
         | [(_ & w3 & answers' & h & Hf' & Hne' & _) | (_ & w3 & err & Hf' & _)]]];
      try congruence;
      rewrite Hkey, Hctry, Hyears in Hf'; rewrite Hf' in Hsame;
      cbn [snd] in Hsame; try discriminate Hsame; injection Hsame as ->.
    + exists w3. rewrite Hr'. cbn [holidays set_holidays] in Hh.
      rewrite <- Hh, set_holidays_id. reflexivity.
    + congruence.
Qed.

(** What [generate] returns from a later state of a builder whose first
    holiday resolution left the index [holidays sA]. *)
Lemma generate_again (service : request -> option response) (today_year : Z)
    (sep : ascii) (reset : bool) (self self' sA : Calendar) (w w' wA : World)
    (rows : list (list value)) :
  wf_dates self -> same_config self' self ->
  holidays self' = holidays sA ->
  resolve service today_year self w = ((sA, wA), Ok tt) ->
  CALENDAR_DATA (reset_buffer reset self') = buffer_of rows ->
  exists b'' w'',
    generate service today_year None sep reset (self', w')
    = ((b'', w''),
       Ok (Some (buffer_of (rows ++ map (row_cells self') (dates_of self)))))
    /\ same_config b'' self /\ holidays b'' = holidays sA
    /\ CALENDAR_DATA b''
       = buffer_of (rows ++ map (row_cells self') (dates_of self)).
Proof.
  intros Hwf Hcfg Hh Hr Hbuf.
  pose proof Hcfg as (Hsd & Hed & Hnd & Hincl & Hkey & Hctry).
  assert (Hwf' : wf_dates self')
    by (unfold wf_dates in *; rewrite Hsd, Hed, Hnd; exact Hwf).
  assert (Hdates : dates_of self' = dates_of self)
    by (unfold dates_of; rewrite Hsd, Hnd; reflexivity).
  destruct (resolve_again service today_year self (reset_buffer reset self') sA
              w w' wA (same_config_reset reset _ _ Hcfg)
              ltac:(destruct reset; exact Hh) Hr) as [wB HrB].
  rewrite (generate_run service today_year None sep reset self' w' rows Hwf' Hbuf).
  rewrite HrB. cbv zeta. rewrite Hdates.
  assert (Hcells : map (row_cells (reset_buffer reset self')) (dates_of self)
                   = map (row_cells self') (dates_of self))
    by (apply map_ext; intros d; apply row_cells_ext; destruct reset; reflexivity).
  rewrite Hcells. do 2 eexists. split; [reflexivity |].
  split; [destruct reset; exact Hcfg |].
  split; [destruct reset; exact Hh | reflexivity].
Qed.

(** C10. The column dictionary outlives a call.  After a first [generate]
    on a new builder returned a table, a second call without reset returns
    a table with every row of the first twice, the whole sequence once and
    then once more (twice the day count of rows, the date column doubled);
    a call with reset, after the first or after the second call, returns
    the table of the first call again. *)
Theorem C10_buffer_persists
    (strptime : string -> string -> option datetime)
    (service : request -> option response) (today_year : Z)
    (s e fmt ctry : string) (incl : bool) (key : option string)
    (sd ed : datetime) (sep : ascii)
    (b b1 : Calendar) (w w1 : World) (t1 : DataFrame) :
  strptime s fmt = Some sd -> strptime e fmt = Some ed ->
  valid_datetime sd = true -> valid_datetime ed = true ->
  Calendar_init strptime s e incl key ctry fmt = Ok b ->
  generate service today_year None sep false (b, w) = ((b1, w1), Ok (Some t1)) ->
  CALENDAR_DATA b1 = t1
  /\ length (df_rows t1) = Z.to_nat (num_days b)
  /\ (exists b2 w2 t2,
        generate service today_year None sep false (b1, w1)
        = ((b2, w2), Ok (Some t2))
        /\ df_rows t2 = df_rows t1 ++ df_rows t1
        /\ length (df_rows t2) = (2 * Z.to_nat (num_days b))%nat
        /\ (exists col, df_column "date" t1 = Some col
                        /\ df_column "date" t2 = Some (col ++ col))
        /\ forall w', exists b3 w3,
             generate service today_year None sep true (b2, w')
             = ((b3, w3), Ok (Some t1)))
  /\ (forall w', exists b3 w3,
        generate service today_year None sep true (b1, w')
        = ((b3, w3), Ok (Some t1))).
Proof.
  intros Hs He Vs Ve Hb Hgen.
  rewrite (Calendar_init_ok _ _ _ _ _ _ _ _ _ Hs He Vs Ve) in Hb.
  injection Hb as Hb. pose proof (wf_dates_init sd ed incl key ctry Vs Ve) as Hwf.
  rewrite Hb in Hwf.
  assert (Hfresh : CALENDAR_DATA b = buffer_of []) by (rewrite <- Hb; reflexivity).
  clear Hb.
  rewrite (generate_run service today_year None sep false b w [] Hwf Hfresh)
    in Hgen.
  cbn [reset_buffer] in Hgen.
  destruct (resolve_shape service today_year b w) as (h & wA & r & Hr).
  rewrite Hr in Hgen. destruct r as [[] | err]; [| discriminate Hgen].
  cbv zeta in Hgen. rewrite app_nil_l in Hgen.
  set (sA := set_holidays h b) in *.
  set (R := map (row_cells sA) (dates_of b)) in *.
  injection Hgen as <- <- <-.
  assert (HfullR : full_rows R) by apply full_rows_cells.
  assert (Hcfg1 : same_config (set_CALENDAR_DATA (buffer_of R) sA) b)
    by (repeat split; reflexivity).
  assert (Hcells : forall self',
            same_config self' b -> holidays self' = holidays sA ->
            map (row_cells self') (dates_of b) = R).
  { intros self' (_ & _ & _ & Hi & _) Hh. subst R. apply map_ext. intros d.
    apply row_cells_ext; [rewrite Hi; reflexivity | exact Hh]. }
  split; [reflexivity |].
  split; [rewrite (df_rows_buffer R HfullR); subst R;
          rewrite length_map; apply dates_of_length |].
  split.
  - destruct (generate_again service today_year sep false b
                (set_CALENDAR_DATA (buffer_of R) sA) sA w wA wA R Hwf Hcfg1
                eq_refl Hr eq_refl)
      as (b2 & w2 & Hgen2 & Hcfg2 & Hh2 & Hbuf2).
    rewrite (Hcells _ Hcfg1 eq_refl) in Hgen2, Hbuf2.
    exists b2, w2, (buffer_of (R ++ R)). split; [exact Hgen2 |].
    rewrite (df_rows_buffer R HfullR),
            (df_rows_buffer (R ++ R) (full_rows_app _ _ HfullR HfullR)).
    split; [reflexivity |].
    split; [rewrite length_app; subst R; rewrite length_map, dates_of_length; lia |].
    split.
    + eexists. split; [apply df_column_date |].
      rewrite df_column_date, map_app. reflexivity.
    + intros w'.
      destruct (generate_again service today_year sep true b b2 sA w w' wA []
                  Hwf Hcfg2 Hh2 Hr eq_refl)
        as (b3 & w3 & Hgen3 & _).
      rewrite app_nil_l, (Hcells _ Hcfg2 Hh2) in Hgen3.
      exists b3, w3. exact Hgen3.
  - intros w'.
    destruct (generate_again service today_year sep true b
                (set_CALENDAR_DATA (buffer_of R) sA) sA w w' wA [] Hwf Hcfg1
                eq_refl Hr eq_refl)
      as (b3 & w3 & Hgen3 & _).
    rewrite app_nil_l, (Hcells _ Hcfg1 eq_refl) in Hgen3.
    exists b3, w3. exact Hgen3.
Qed.

Lemma C10_buffer_persists_witness :
  exists b b1 w1 t1 b2 w2 t2,
    Calendar_init strptime_iso "2021-01-01" "2021-01-03" true (Some "k")
      default_country default_format = Ok b
    /\ generate sample_service 2022 None default_sep false (b, World0)
       = ((b1, w1), Ok (Some t1))
    /\ generate sample_service 2022 None default_sep false (b1, w1)
       = ((b2, w2), Ok (Some t2))
    /\ df_rows t2 = df_rows t1 ++ df_rows t1
    /\ length (df_rows t2) = 4%nat.
Proof.
  assert (Hgen : exists b1 w1 t1,
            generate sample_service 2022 None default_sep false
              (mkCalendar (mkdatetime 2021 1 1 0 0 0 0)
                 (mkdatetime 2021 1 3 0 0 0 0) 2 true
                 _gen_calendar_data_template (Some "k") default_country ∅,
               World0)
            = ((b1, w1), Ok (Some t1)))
    by (do 3 eexists; vm_compute; reflexivity).
  destruct Hgen as (b1 & w1 & t1 & Hgen).
  destruct (C10_buffer_persists strptime_iso sample_service 2022
              "2021-01-01" "2021-01-03" default_format default_country true
              (Some "k") (mkdatetime 2021 1 1 0 0 0 0)
              (mkdatetime 2021 1 3 0 0 0 0) default_sep _ b1 World0 w1 t1
              eq_refl eq_refl eq_refl eq_refl eq_refl Hgen)
    as (_ & _ & (b2 & w2 & t2 & Hgen2 & Hrows & Hlen & _) & _).
  eexists. exists b1, w1, t1, b2, w2, t2.
  split; [reflexivity |]. split; [exact Hgen |]. split; [exact Hgen2 |].
  split; [exact Hrows | exact Hlen].
Defined.

(** * Further properties of the program *)

(** *** Plain text *)

Lemma plain_app (a b : string) : plain (a +:+ b) = plain a && plain b.
Proof.
  induction a as [| x a IH]; [reflexivity |].
  rewrite string_app_cons. cbn [plain]. rewrite IH, andb_assoc. reflexivity.
Qed.

Lemma contains_plain (c : ascii) (s : string) :
  plain s = true -> plain_char c = false -> contains c s = false.
Proof.
  intros Hs Hc. induction s as [| a s IH]; [reflexivity |].
  cbn [plain] in Hs. apply andb_prop in Hs as [Ha Hs].
  cbn [contains]. rewrite (IH Hs), orb_false_r.
  destruct (Ascii.eqb_spec a c) as [-> |]; [congruence | reflexivity].
Qed.

Lemma plain_pretty_N_char (x : N) : plain_char (pretty_N_char x) = true.
Proof.
  unfold pretty_N_char.
  repeat match goal with |- context [match ?p with _ => _ end] =>
    destruct p; try reflexivity end.
Qed.

Lemma plain_pretty_N_go (x : N) (s : string) :
  plain s = true -> plain (pretty_N_go x s) = true.
Proof.
  revert s. induction (N.lt_wf_0 x) as [x _ IH]. intros s Hs.
  assert (Hx : (x = 0 \/ 0 < x)%N) by lia. destruct Hx as [-> | Hx].
  - rewrite pretty_N_go_0. exact Hs.
  - rewrite pretty_N_go_step by exact Hx. apply IH.
    + apply N.div_lt; [exact Hx | reflexivity].
    + cbn [plain]. rewrite plain_pretty_N_char, Hs. reflexivity.
Qed.

Lemma plain_pretty_N (x : N) : plain (pretty x) = true.
Proof.
  unfold pretty, pretty_N. destruct (decide (x = 0%N)); [reflexivity |].
  apply plain_pretty_N_go. reflexivity.
Qed.

Lemma plain_pretty_Z (n : Z) : plain (pretty n) = true.
Proof.
  destruct n as [| p | p]; unfold pretty, pretty_Z.
  - reflexivity.
  - apply plain_pretty_N.
  - rewrite plain_app. unfold pretty, pretty_positive. rewrite plain_pretty_N.
    reflexivity.
Qed.

Lemma plain_zeros (n : nat) : plain (zeros n) = true.
Proof. induction n as [| n IH]; [reflexivity |]. cbn [zeros plain]. exact IH. Qed.

Lemma plain_fmt0 (w : nat) (n : Z) : plain (fmt0 w n) = true.
Proof. unfold fmt0. rewrite plain_app, plain_zeros, plain_pretty_Z. reflexivity. Qed.

Lemma plain_isoformat (d : date) : plain (isoformat d) = true.
Proof.
  unfold isoformat. rewrite !plain_app, !plain_fmt0. reflexivity.
Qed.

Lemma plain_weekday_name (weekday : Z) : plain (weekday_name_of weekday) = true.
Proof.
  unfold weekday_name_of, WEEKDAY_MAP. cbn [assoc].
  repeat match goal with |- context [if ?b then _ else _] =>
    destruct b; [reflexivity |] end.
  reflexivity.
Qed.

Lemma plain_row_cells (self : Calendar) (d : datetime) :
  include_holidays self = false ->
  Forall (fun v => plain (cell_text v) = true) (row_cells self d).
Proof.
  intros Hoff. unfold row_cells. rewrite Hoff.
  destruct (isocalendar d) as [[iso_year weeknumber] weekday].
  repeat constructor; cbn [cell_text];
    try apply plain_pretty_Z; try apply plain_isoformat;
    try apply plain_weekday_name;
    match goal with |- plain (match ?b with _ => _ end) = true =>
      destruct b; reflexivity end.
Qed.

Lemma plain_needs_no_quote (sep : ascii) (f : string) :
  safe_sep sep = true -> plain f = true -> needs_quote sep f = false.
Proof.
  unfold safe_sep, needs_quote. intros Hsep Hf.
  repeat (apply andb_prop in Hsep as [Hsep ?]).
  apply negb_true_iff in Hsep.
  rewrite !(contains_plain _ f Hf) by (assumption || reflexivity).
  reflexivity.
Qed.

(** X1. Without holidays every field of a generated table is made of
    digits, letters, dashes and underscores.  So for a separator that is
    none of these, nor the quote character nor a line break (a comma, a
    semicolon, a tab), the text [generate] writes to a destination is read
    back, by cutting at line feeds and separators, as the header and the
    text of every cell of the table the same call returns without a
    destination. *)
Theorem X1_export_reparse_without_holidays
    (strptime : string -> string -> option datetime)
    (service : request -> option response) (today_year : Z)
    (s e fmt ctry : string) (key : option string)
    (sd ed : datetime) (sep : ascii) (reset : bool) (w : World)
    (path : string) :
  strptime s fmt = Some sd -> strptime e fmt = Some ed ->
  valid_datetime sd = true -> valid_datetime ed = true ->
  safe_sep sep = true ->
  exists b b' t,
    Calendar_init strptime s e false key ctry fmt = Ok b
    /\ generate service today_year None sep reset (b, w) = ((b', w), Ok (Some t))
    /\ generate service today_year (Some path) sep reset (b, w)
       = ((b', write_file path (to_csv sep t) w), Ok None)
    /\ Forall (Forall (fun f => plain f = true)) (table_text t)
    /\ reparse sep (to_csv sep t) = table_text t.
Proof.
  intros Hs He Vs Ve Hsep. eexists. eexists. eexists.
  split; [apply (Calendar_init_ok _ _ _ _ _ _ _ _ _ Hs He Vs Ve) |].
  set (b := mkCalendar _ _ _ _ _ _ _ _).
  pose proof (wf_dates_init sd ed false key ctry Vs Ve) as Hwf. fold b in Hwf.
  set (rows := map (row_cells b) (dates_of b)).
  assert (Hres : resolve service today_year (reset_buffer reset b) w
                 = ((reset_buffer reset b, w), Ok tt))
    by (apply resolve_disabled; destruct reset; reflexivity).
  assert (Hcells : map (row_cells (reset_buffer reset b)) (dates_of b) = rows)
    by (destruct reset; reflexivity).
  split.
  { rewrite (generate_run service today_year None sep reset b w [] Hwf
               (reset_buffer_fresh reset b eq_refl)), Hres.
    cbv zeta. rewrite app_nil_l, Hcells. destruct reset; reflexivity. }
  split.
  { rewrite (generate_run service today_year (Some path) sep reset b w [] Hwf
               (reset_buffer_fresh reset b eq_refl)), Hres.
    cbv zeta. rewrite app_nil_l, Hcells. destruct reset; reflexivity. }
  assert (Hfull : full_rows rows) by apply full_rows_cells.
  assert (Hplain : Forall (Forall (fun f => plain f = true))
                     (table_text (buffer_of rows))).
  { unfold table_text. rewrite (df_rows_buffer rows Hfull).
    constructor; [repeat constructor |].
    rewrite List.Forall_forall. intros fields Hin.
    apply in_map_iff in Hin as (r & <- & Hr).
    subst rows. apply in_map_iff in Hr as (d & <- & _).
    rewrite List.Forall_forall. intros f Hf.
    apply in_map_iff in Hf as (v & <- & Hv).
    pose proof (plain_row_cells b d eq_refl) as Hrow.
    rewrite List.Forall_forall in Hrow. apply Hrow, Hv. }
  split; [exact Hplain |].
  rewrite to_csv_lines. apply reparse_lines.
  - unfold safe_sep in Hsep. repeat (apply andb_prop in Hsep as [Hsep ?]).
    apply negb_true_iff. assumption.
  - pose proof (table_text_fields rows Hfull) as Hne.
    rewrite List.Forall_forall in *. intros fields Hin.
    split; [apply Hne, Hin |].
    specialize (Hplain fields Hin). rewrite List.Forall_forall in *.
    intros f Hf. apply plain_needs_no_quote; [exact Hsep | apply Hplain, Hf].
Qed.

Lemma X1_export_reparse_without_holidays_witness :
  safe_sep ";" = true
  /\ exists b b' t,
       Calendar_init strptime_iso "2021-01-01" "2021-03-01" false None
         default_country default_format = Ok b
       /\ generate no_service 2021 None ";" false (b, World0)
          = ((b', World0), Ok (Some t))
       /\ reparse ";" (to_csv ";" t) = table_text t.
Proof.
  split; [reflexivity |].
  destruct (X1_export_reparse_without_holidays strptime_iso no_service 2021
              "2021-01-01" "2021-03-01" default_format default_country None
              (mkdatetime 2021 1 1 0 0 0 0) (mkdatetime 2021 3 1 0 0 0 0)
              ";" false World0 "calendar.csv"
              eq_refl eq_refl eq_refl eq_refl eq_refl)
    as (b & b' & t & Hb & Hgen & _ & _ & Hre).
  exists b, b', t. auto.
Defined.

(** *** Outcomes of [generate] from any state *)



Lemma resolve_files (service : request -> option response) (today_year : Z)
    (self : Calendar) (w : World) :
  files (snd (fst (resolve service today_year self w))) = files w.
Proof.
  pose proof (fetch_all_files service today_year (holiday_api_key self)
                (country self) (years_of self) w) as Hf.
  destruct (resolve_cases service today_year self w)
    as [[_ Hr] | [(_ & w2 & answers & Hfe & _ & Hr)
       | [(_ & w2 & answers & h & Hfe & _ & Hr) | (_ & w2 & err & Hfe & Hr)]]];
    rewrite Hr; try rewrite Hfe in Hf; cbn [fst snd] in *; congruence.
Qed.

(** X2. From any well-formed state, a [generate] that returns has kept
    the rows already in the buffer (none of them when reset is asked for)
    and appended one row per day of the range, in order; the buffer left in
    the builder and the table are that list of rows; the builder stays
    well-formed and keeps its construction.  Without a destination the
    table is returned and no file is written; with one, [None] is returned
    and exactly one file is written, the text of that table. *)
Theorem X2_generate_appends
    (service : request -> option response) (today_year : Z)
    (dest : option string) (sep : ascii) (reset : bool)
    (self self' : Calendar) (w w' : World) (r : option DataFrame)
    (rows : list (list value)) :
  wf_dates self -> full_rows rows -> CALENDAR_DATA self = buffer_of rows ->
  generate service today_year dest sep reset (self, w) = ((self', w'), Ok r) ->
  let kept := if reset then [] else rows in
  let new := map (row_cells self') (dates_of self) in
  length new = Z.to_nat (num_days self)
  /\ CALENDAR_DATA self' = buffer_of (kept ++ new)
  /\ df_rows (buffer_of (kept ++ new)) = kept ++ new
  /\ wf_calendar self' /\ same_config self' self
  /\ match dest with
     | None => r = Some (buffer_of (kept ++ new)) /\ files w' = files w
     | Some path =>
         r = None
         /\ files w' = files w ++ [(path, to_csv sep (buffer_of (kept ++ new)))]
     end.
Proof.
  intros Hwf Hfull Hbuf Hgen. cbv zeta.
  rewrite (generate_run service today_year dest sep reset self w _ Hwf
             (reset_buffer_rows reset self rows Hbuf)) in Hgen.
  pose proof (resolve_files service today_year (reset_buffer reset self) w) as Hfiles.
  destruct (resolve_shape service today_year (reset_buffer reset self) w)
    as (h & w2 & res & Hr).
  rewrite Hr in Hgen, Hfiles. cbn [fst snd] in Hfiles.
  destruct res as [[] | err]; [| discriminate Hgen]. cbv zeta in Hgen.
  set (self2 := set_holidays h (reset_buffer reset self)) in *.
  set (all := (if reset then [] else rows) ++ map (row_cells self2) (dates_of self))
    in *.
  assert (Hself' : self' = set_CALENDAR_DATA (buffer_of all) self2)
    by (destruct dest; injection Hgen as <- _ _; reflexivity).
  assert (Hcells : map (row_cells self') (dates_of self)
                   = map (row_cells self2) (dates_of self))
    by (rewrite Hself'; reflexivity).
  rewrite Hcells. fold all.
  assert (Hfull' : full_rows all).
  { apply full_rows_app; [destruct reset; [constructor | exact Hfull] |].
    apply full_rows_cells. }
  assert (Hcfg : same_config self' self)
    by (rewrite Hself'; subst self2; destruct reset; repeat split; reflexivity).
  split; [rewrite length_map; apply dates_of_length |].
  split; [rewrite Hself'; reflexivity |].
  split; [apply df_rows_buffer, Hfull' |].
  split.
  { split.
    - destruct Hcfg as (Hsd & Hed & Hnd & _). unfold wf_dates in *.
      rewrite Hsd, Hed, Hnd. exact Hwf.
    - exists all. split; [exact Hfull' | rewrite Hself'; reflexivity]. }
  split; [exact Hcfg |].
  destruct dest as [path |]; injection Hgen as _ <- <-.
  - split; [reflexivity |]. cbn [write_file files]. rewrite Hfiles. reflexivity.
  - split; [reflexivity | exact Hfiles].
Qed.


Lemma X2_generate_appends_witness :
  exists b self' w' r,
    Calendar_init strptime_iso "2021-01-01" "2021-01-03" true (Some "k")
      default_country default_format = Ok b
    /\ generate sample_service 2022 (Some "calendar.csv") default_sep false
         (b, World0) = ((self', w'), Ok r)
    /\ r = None
    /\ length (df_rows (CALENDAR_DATA self')) = 2%nat
    /\ files w' = [("calendar.csv", to_csv default_sep (CALENDAR_DATA self'))].
Proof.
  pose (sd := mkdatetime 2021 1 1 0 0 0 0). pose (ed := mkdatetime 2021 1 3 0 0 0 0).
  pose (b := mkCalendar sd ed ((instant ed - instant sd) / us_per_day) true
               _gen_calendar_data_template (Some "k") default_country ∅).
  assert (Hgen : exists self' w' r,
             generate sample_service 2022 (Some "calendar.csv") default_sep false
               (b, World0) = ((self', w'), Ok r))
    by (do 3 eexists; vm_compute; reflexivity).
  destruct Hgen as (self' & w' & r & Hgen).
  destruct (X2_generate_appends sample_service 2022 (Some "calendar.csv")
              default_sep false b self' World0 w' r []
              (wf_dates_init sd ed true (Some "k") default_country eq_refl eq_refl)
              (List.Forall_nil _) eq_refl Hgen)
    as (Hlen & Hbuf & Hrows & _ & _ & Hr & Hfiles).
  exists b, self', w', r. split; [reflexivity |]. split; [exact Hgen |].
  split; [exact Hr |]. rewrite Hbuf. split; [rewrite Hrows; exact Hlen |].
  exact Hfiles.
Defined.


(** *** What the holiday resolution sends and logs *)

Lemma fetch_all_log (service : request -> option response) (today_year : Z)
    (k ctry : string) (years : list Z) (w w' : World)
    (answers : list holiday_dict) :
  fetch_all service today_year (Some k) ctry years w = (w', Ok answers) ->
  requests w' = requests w ++ map (request_for k ctry) years
  /\ warnings w' = warnings w ++ List.filter (fun y => today_year <=? y) years
  /\ answers = map (fun y => match read_response (service (request_for k ctry y))
                             with Ok h => h | Raise _ => [] end) years.
Proof.
  revert w answers. induction years as [| y years IH]; intros w answers H.
  - injection H as <- <-. rewrite !app_nil_r. auto.
  - cbn [fetch_all] in H. fold (request_for k ctry y) in H.
    destruct (read_response (service (request_for k ctry y))) as [h | e] eqn:R;
      [| discriminate H].
    match type of H with context [fetch_all _ _ _ _ _ ?a] =>
      specialize (IH a);
      destruct (fetch_all service today_year (Some k) ctry years a)
        as [w3 [hs | e]] end; [| discriminate H].
    injection H as <- <-.
    destruct (IH hs eq_refl) as (Hreq & Hwarn & Hans).
    cbn [map List.filter]. rewrite R, Hreq, Hwarn, <- Hans.
    destruct (today_year <=? y); cbn [requests warnings];
      rewrite <- ?app_assoc; auto.
Qed.

Lemma years_of_spec (self : Calendar) (y : Z) :
  In y (years_of self) <->
  year (start_date self) <= y <= year (end_date self).
Proof.
  unfold years_of, py_range2. rewrite in_map_iff. split.
  - intros (i & <- & Hi). apply in_seq in Hi. lia.
  - intros Hy. exists (Z.to_nat (y - year (start_date self))).
    split; [lia | apply in_seq; lia].
Qed.

(** X4. A [generate] that returns from a builder with holidays enabled and
    a key has sent exactly one request per year from the start year to the
    end year inclusive, in ascending order, each with the fixed URL, the
    key, the country and the year, and has logged a warning for exactly
    those of these years that are not before the current year.  Nothing is
    remembered between calls: every such call sends them all again. *)
Theorem X4_one_request_per_year
    (service : request -> option response) (today_year : Z)
    (dest : option string) (sep : ascii) (reset : bool)
    (self self' : Calendar) (w w' : World) (r : option DataFrame)
    (rows : list (list value)) (k : string) :
  wf_dates self -> CALENDAR_DATA self = buffer_of rows ->
  include_holidays self = true -> holiday_api_key self = Some k ->
  generate service today_year dest sep reset (self, w) = ((self', w'), Ok r) ->
  requests w'
  = requests w ++ map (request_for k (country self)) (years_of self)
  /\ warnings w'
     = warnings w ++ List.filter (fun y => today_year <=? y) (years_of self)
  /\ (forall y, In y (years_of self) <->
                year (start_date self) <= y <= year (end_date self))
  /\ length (years_of self)
     = Z.to_nat (year (end_date self) + 1 - year (start_date self)).
Proof.
  intros Hwf Hbuf Hincl Hkey Hgen.
  rewrite (generate_run service today_year dest sep reset self w _ Hwf
             (reset_buffer_rows reset self rows Hbuf)) in Hgen.
  set (self1 := reset_buffer reset self) in *.
  assert (Hincl1 : include_holidays self1 = true)
    by (subst self1; destruct reset; exact Hincl).
  assert (Hkey1 : holiday_api_key self1 = Some k)
    by (subst self1; destruct reset; exact Hkey).
  assert (Hc1 : country self1 = country self)
    by (subst self1; destruct reset; reflexivity).
  assert (Hy1 : years_of self1 = years_of self)
    by (subst self1; destruct reset; reflexivity).
  assert (Hlog : requests w'
                 = requests w ++ map (request_for k (country self)) (years_of self)
                 /\ warnings w'
                    = warnings w
                      ++ List.filter (fun y => today_year <=? y) (years_of self)).
  { destruct (resolve_cases service today_year self1 w)
      as [[Hoff _] | [(_ & w2 & answers & Hfe & _ & Hr)
         | [(_ & w2 & answers & h & _ & _ & Hr) | (_ & w2 & e & _ & Hr)]]];
      [congruence | | rewrite Hr in Hgen; discriminate Hgen
       | rewrite Hr in Hgen; discriminate Hgen].
    rewrite Hr in Hgen. cbv zeta in Hgen.
    rewrite Hkey1, Hc1, Hy1 in Hfe.
    destruct (fetch_all_log _ _ _ _ _ _ _ _ Hfe) as (Hreq & Hwarn & _).
    destruct dest; injection Hgen as _ <- _; cbn [write_file requests warnings];
      auto. }
  split; [apply Hlog |]. split; [apply Hlog |].
  split; [apply years_of_spec |].
  unfold years_of, py_range2. rewrite length_map, length_seq. reflexivity.
Qed.

Lemma X4_one_request_per_year_witness :
  exists b self' w' t,
    Calendar_init strptime_iso "2021-12-30" "2022-01-02" true (Some "k")
      default_country default_format = Ok b
    /\ generate (fun _ => Some (mkresponse 200 (Some (mkbody None None (Some [])))))
         2022 None default_sep false (b, World0)
       = ((self', w'), Ok (Some t))
    /\ requests w'
       = [request_for "k" default_country 2021;
          request_for "k" default_country 2022]
    /\ warnings w' = [2022].
Proof.
  pose (sd := mkdatetime 2021 12 30 0 0 0 0). pose (ed := mkdatetime 2022 1 2 0 0 0 0).
  pose (b := mkCalendar sd ed ((instant ed - instant sd) / us_per_day) true
               _gen_calendar_data_template (Some "k") default_country ∅).
  pose (svc := fun _ : request =>
                 Some (mkresponse 200 (Some (mkbody None None (Some []))))).
  assert (Hgen : exists self' w' t,
             generate svc 2022 None default_sep false (b, World0)
             = ((self', w'), Ok (Some t)))
    by (do 3 eexists; vm_compute; reflexivity).
  destruct Hgen as (self' & w' & t & Hgen).
  destruct (X4_one_request_per_year svc 2022 None default_sep false b self'
              World0 w' (Some t) [] "k"
              (wf_dates_init sd ed true (Some "k") default_country eq_refl eq_refl)
              eq_refl eq_refl eq_refl Hgen)
    as (Hreq & Hwarn & _).
  exists b, self', w', t. split; [reflexivity |]. split; [exact Hgen |].
  split; [exact Hreq | exact Hwarn].
Defined.

(** *** One call of the holiday client *)

(** X5. [_get_holidays] (and [get_holidays], which only forwards) sends
    exactly one request, with the fixed URL, the client's key, the country
    and the year, whatever comes back, and touches nothing else.  It returns
    the [holidays] member exactly when the service answered, the body
    decoded, the body has no [error] member, the status code is not in
    400..599 and the body has a [holidays] member.  An [error] member is
    reported before the status code is looked at; without one, a status
    code in 400..599 is raised as the HTTP error. *)
Theorem X5_get_holidays_outcome (service : request -> option response)
    (api : HolidayAPI) (year : Z) (country : string) (self : Calendar)
    (w : World) :
  exists res,
    _get_holidays service api year country (self, w)
    = ((self, mkWorld (requests w ++ [request_for (api_key api) country year])
                (warnings w) (files w)), res)
    /\ get_holidays service api year country (self, w)
       = _get_holidays service api year country (self, w)
    /\ (forall h, res = Ok h <->
          exists resp data,
            service (request_for (api_key api) country year) = Some resp
            /\ text resp = Some data /\ j_error data = None
            /\ j_holidays data = Some h
            /\ ~ (400 <= status_code resp < 600))
    /\ (forall resp data message,
          service (request_for (api_key api) country year) = Some resp ->
          text resp = Some data -> j_error data = Some message ->
          res = match j_status data with
                | Some status => Raise (Exception (status +:+ ": " +:+ message))
                | None => Raise (KeyError "status")
                end)
    /\ (forall resp data,
          service (request_for (api_key api) country year) = Some resp ->
          text resp = Some data -> j_error data = None ->
          400 <= status_code resp < 600 ->
          res = Raise (HTTPError (status_code resp))).
Proof.
  exists (read_response (service (request_for (api_key api) country year))).
  split; [reflexivity |]. split; [reflexivity |].
  set (payload := request_for (api_key api) country year).
  unfold read_response.
  split; [| split].
  - intros h. split.
    + destruct (service payload) as [resp |] eqn:Hs; [| discriminate].
      destruct (text resp) as [data |] eqn:Ht; [| discriminate].
      destruct (j_error data) as [msg |] eqn:He;
        [destruct (j_status data); discriminate |].
      destruct (negb (status_code resp =? 200) && (400 <=? status_code resp)
                && (status_code resp <? 600)) eqn:B; [discriminate |].
      destruct (j_holidays data) as [h' |] eqn:Hh; [| discriminate].
      intros [= <-]. exists resp, data.
      split; [reflexivity |]. split; [exact Ht |]. split; [exact He |].
      split; [exact Hh |]. intros [H1 H2].
      replace (status_code resp =? 200) with false in B
        by (symmetry; apply Z.eqb_neq; lia).
      replace (400 <=? status_code resp) with true in B
        by (symmetry; apply Z.leb_le; lia).
      replace (status_code resp <? 600) with true in B
        by (symmetry; apply Z.ltb_lt; lia).
      discriminate B.
    + intros (resp & data & -> & -> & -> & -> & Hst).
      destruct (negb (status_code resp =? 200) && (400 <=? status_code resp)
                && (status_code resp <? 600)) eqn:B; [| reflexivity].
      apply andb_prop in B as [B B3]. apply andb_prop in B as [_ B2].
      apply Z.leb_le in B2. apply Z.ltb_lt in B3. lia.
  - intros resp data message -> -> ->. reflexivity.
  - intros resp data -> -> -> [H1 H2].
    replace (status_code resp =? 200) with false by (symmetry; apply Z.eqb_neq; lia).
    replace (400 <=? status_code resp) with true by (symmetry; apply Z.leb_le; lia).
    replace (status_code resp <? 600) with true by (symmetry; apply Z.ltb_lt; lia).
    reflexivity.
Qed.

(** *** The holiday index as a sequence of assignments *)

Lemma policy_step_writes (index : gmap string string) (entries : list holiday) :
  policy_step index entries = fold_left assign (writes_of entries) index.
Proof.
  destruct entries as [| h0 [| h1 rest]].
  - reflexivity.
  - unfold policy_step, writes_of. cbn [length Z.of_nat].
    change (1 <? Z.of_nat 1) with false. cbn [app].
    destruct (public h0); reflexivity.
  - unfold policy_step, writes_of.
    replace (1 <? Z.of_nat (length (h0 :: h1 :: rest))) with true
      by (symmetry; apply Z.ltb_lt; cbn [length]; lia).
    change (List.filter public (h0 :: h1 :: rest))
      with (if public h0 then h0 :: List.filter public (h1 :: rest)
            else List.filter public (h1 :: rest)).
    destruct (public h0) eqn:P0.
    + cbn [app fold_left]. unfold assign.
      rewrite insert_insert_eq. reflexivity.
    + destruct (List.filter public (h1 :: rest)); reflexivity.
Qed.

Lemma policy_dict_writes (index : gmap string string) (answer : holiday_dict) :
  policy_dict index answer
  = fold_left assign (concat (map (fun item => writes_of (snd item)) answer))
      index.
Proof.
  unfold policy_dict. revert index.
  induction answer as [| item answer IH]; intros index; [reflexivity |].
  cbn [fold_left map concat]. rewrite fold_left_app, IH, policy_step_writes.
  reflexivity.
Qed.

Lemma policy_answers_writes (index : gmap string string)
    (answers : list holiday_dict) :
  fold_left policy_dict answers index
  = fold_left assign (all_writes answers) index.
Proof.
  unfold all_writes. revert index.
  induction answers as [| a answers IH]; intros index; [reflexivity |].
  cbn [fold_left map concat]. rewrite fold_left_app, IH, policy_dict_writes.
  reflexivity.
Qed.

Lemma fold_assign_lookup (l : list holiday) (index : gmap string string)
    (k : string) :
  fold_left assign l index !! k
  = match last (List.filter (fun h => String.eqb (observed h) k) l) with
    | Some h => Some (name h)
    | None => index !! k
    end.
Proof.
  revert index. induction l as [| h l IH]; intros index; [reflexivity |].
  cbn [fold_left List.filter]. rewrite IH. unfold assign.
  destruct (String.eqb (observed h) k) eqn:E.
  - apply String.eqb_eq in E.
    destruct (List.filter _ l) as [| x fl] eqn:F.
    + cbn [last]. rewrite E, lookup_insert_eq. reflexivity.
    + change (last (h :: x :: fl)) with (last (x :: fl)).
      destruct (last (x :: fl)) eqn:L; [reflexivity |].
      apply last_None in L. discriminate L.
  - apply String.eqb_neq in E.
    destruct (last _); [reflexivity |].
    rewrite lookup_insert_ne by exact E. reflexivity.
Qed.

Lemma writes_of_public (entries : list holiday) :
  Forall (fun h => public h = true /\ In h entries) (writes_of entries).
Proof.
  unfold writes_of. apply Forall_app. split.
  - destruct (1 <? _); [| constructor].
    destruct (List.filter public entries) as [| f fl] eqn:F; [constructor |].
    assert (Hin : In f (List.filter public entries)) by (rewrite F; left; auto).
    apply filter_In in Hin. constructor; [tauto | constructor].
  - destruct entries as [| h0 rest]; [constructor |].
    destruct (public h0) eqn:P; [| constructor].
    constructor; [split; [exact P | left; reflexivity] | constructor].
Qed.

Lemma all_writes_public (answers : list holiday_dict) :
  Forall (fun h => public h = true
                   /\ exists answer item, In answer answers /\ In item answer
                                          /\ In h (snd item))
         (all_writes answers).
Proof.
  apply List.Forall_forall. intros h Hin. unfold all_writes in Hin.
  apply in_concat in Hin as (l1 & Hl1 & Hin).
  apply in_map_iff in Hl1 as (answer & <- & Hans).
  apply in_concat in Hin as (l2 & Hl2 & Hin).
  apply in_map_iff in Hl2 as (item & <- & Hitem).
  pose proof (writes_of_public (snd item)) as W.
  rewrite List.Forall_forall in W. destruct (W h Hin) as [P I].
  split; [exact P |]. exists answer, item. auto.
Qed.

(** X6. When every year of the range was answered and every date of every
    answer lists an entry, the resolution leaves as holiday index the result
    of the assignments [all_writes] in order, starting from the empty
    index: no request or warning beyond those of the fetching, a date is a
    key exactly when some assignment names it as its observed date, its
    value is the name given by the last such assignment, and every
    assignment comes from a public entry of some answer.  The date under
    which the service lists the entries plays no part. *)
Theorem X6_index_last_assignment (service : request -> option response)
    (today_year : Z) (self : Calendar) (w w' : World)
    (answers : list holiday_dict) :
  fetch_all service today_year (holiday_api_key self) (country self)
    (years_of self) w = (w', Ok answers) ->
  entries_nonempty answers = true ->
  exists self',
    _get_holidays_from_api service today_year (self, w) = ((self', w'), Ok tt)
    /\ self' = set_holidays (fold_left assign (all_writes answers) ∅) self
    /\ (forall k, holidays self' !! k
                  = name <$> last (List.filter
                                     (fun h => String.eqb (observed h) k)
                                     (all_writes answers)))
    /\ (forall k, is_Some (holidays self' !! k) <->
                  exists h, In h (all_writes answers) /\ observed h = k)
    /\ Forall (fun h => public h = true
                        /\ exists answer item,
                             In answer answers /\ In item answer
                             /\ In h (snd item))
              (all_writes answers).
Proof.
  intros Hfetch Hne.
  exists (set_holidays (fold_left assign (all_writes answers) ∅) self).
  assert (Hlook : forall k,
            fold_left assign (all_writes answers) ∅ !! k
            = name <$> last (List.filter (fun h => String.eqb (observed h) k)
                               (all_writes answers))).
  { intros k. rewrite (fold_assign_lookup (all_writes answers) ∅ k).
    destruct (last _); [reflexivity | apply lookup_empty]. }
  split; [| split; [reflexivity | split; [exact Hlook | split]]].
  - rewrite get_holidays_from_api_run, Hfetch.
    rewrite (index_all_ok answers _ w' Hne).
    cbn [holidays set_holidays]. rewrite policy_answers_writes. reflexivity.
  - intros k. cbn [holidays set_holidays]. rewrite Hlook. split.
    + intros [v Hv].
      destruct (last _) as [h |] eqn:L; [| discriminate Hv].
      apply last_Some_elem_of in L. apply list_elem_of_In in L.
      apply filter_In in L as [Hin E]. apply String.eqb_eq in E.
      exists h. auto.
    + intros (h & Hin & Hk).
      assert (Hf : In h (List.filter (fun h => String.eqb (observed h) k)
                           (all_writes answers)))
        by (apply filter_In; split; [exact Hin | apply String.eqb_eq, Hk]).
      destruct (List.filter _ (all_writes answers)) as [| x fl] eqn:F;
        [destruct Hf |].
      destruct (last (x :: fl)) as [h' |] eqn:L; [eexists; reflexivity |].
      apply last_None in L. discriminate L.
  - apply all_writes_public.
Qed.

Lemma X6_index_last_assignment_witness :
  let independence := mkholiday "Independence Day" true "2021-07-05" in
  let bank := mkholiday "Bank Holiday" true "2021-07-05" in
  let service := fun _ : request =>
    Some (mkresponse 200
            (Some (mkbody None None
                     (Some [("2021-07-04", [independence]);
                            ("2021-07-05", [bank])])))) in
  let b := mkCalendar (mkdatetime 2021 7 1 0 0 0 0) (mkdatetime 2021 7 8 0 0 0 0)
             7 true _gen_calendar_data_template (Some "k") default_country ∅ in
  exists self' w',
    _get_holidays_from_api service 2022 (b, World0) = ((self', w'), Ok tt)
    /\ holidays self' !! "2021-07-05" = Some "Bank Holiday"
    /\ holidays self' !! "2021-07-04" = None.
Proof.
  intros independence bank service b.
  assert (Hfetch : exists w',
            fetch_all service 2022 (holiday_api_key b) (country b) (years_of b)
              World0
            = (w', Ok [[("2021-07-04", [independence]); ("2021-07-05", [bank])]]))
    by (eexists; vm_compute; reflexivity).
  destruct Hfetch as [w' Hfetch].
  destruct (X6_index_last_assignment service 2022 b World0 w' _ Hfetch eq_refl)
    as (self' & Hrun & _ & Hlook & _).
  exists self', w'. split; [exact Hrun |].
  split; rewrite Hlook; reflexivity.
Defined.

(** *** An end year before the start year *)

Lemma years_of_reversed (self : Calendar) :
  year (end_date self) < year (start_date self) -> years_of self = [].
Proof.
  intros H. unfold years_of, py_range2.
  replace (Z.to_nat _) with 0%nat by lia. reflexivity.
Qed.

Lemma num_days_reversed (self : Calendar) :
  wf_dates self -> year (end_date self) < year (start_date self) ->
  num_days self < 0.
Proof.
  intros (Hs & He & Hn) Hy. rewrite Hn.
  apply valid_datetime_unfold in Hs as (Hds & Hh & Hm & Hsec & Hus).
  apply valid_datetime_unfold in He as (Hde & Hh' & Hm' & Hsec' & Hus').
  pose proof (ymd2ord_lex _ _ _ _ _ _ Hde Hds (or_introl Hy)) as Hord.
  unfold instant, toordinal, us_per_day.
  set (oe := _ymd2ord (year (end_date self)) _ _) in *.
  set (os := _ymd2ord (year (start_date self)) _ _) in *.
  clearbody oe os. Z.div_mod_to_equations. lia.
Qed.

(** X7. When the end year is before the start year, [generate] on a builder
    with holidays enabled sends no request, logs no warning and raises
    nothing, whatever the key (also a missing one) and the service are: the
    year range is empty, so no client is constructed.  The holiday index is
    left empty, no day is appended, and the table returned or written holds
    the rows that were buffered (none after a reset). *)
Theorem X7_reversed_years (service : request -> option response)
    (today_year : Z) (dest : option string) (sep : ascii) (reset : bool)
    (self : Calendar) (w : World) (rows : list (list value)) :
  wf_dates self -> full_rows rows -> CALENDAR_DATA self = buffer_of rows ->
  include_holidays self = true ->
  year (end_date self) < year (start_date self) ->
  exists self' t,
    generate service today_year dest sep reset (self, w)
    = ((self', match dest with
               | None => w
               | Some path => write_file path (to_csv sep t) w
               end),
       Ok (match dest with None => Some t | Some _ => None end))
    /\ df_rows t = (if reset then [] else rows)
    /\ df_columns t = CALENDAR_KEYS
    /\ CALENDAR_DATA self' = t
    /\ holidays self' = ∅
    /\ same_config self' self.
Proof.
  intros Hwf Hfull Hbuf Hincl Hy.
  set (self1 := reset_buffer reset self).
  assert (Hres : resolve service today_year self1 w
                 = ((set_holidays ∅ self1, w), Ok tt)).
  { unfold resolve.
    replace (include_holidays self1) with true
      by (subst self1; destruct reset; symmetry; exact Hincl).
    cbn [when]. rewrite get_holidays_from_api_run.
    replace (years_of self1) with (@nil Z)
      by (subst self1; destruct reset; symmetry; apply years_of_reversed, Hy).
    reflexivity. }
  assert (Hdates : dates_of self = []).
  { unfold dates_of, py_range.
    pose proof (num_days_reversed self Hwf Hy).
    replace (Z.to_nat (num_days self)) with 0%nat by lia. reflexivity. }
  exists (set_CALENDAR_DATA (buffer_of (if reset then [] else rows))
            (set_holidays ∅ self1)),
         (buffer_of (if reset then [] else rows)).
  split.
  - rewrite (generate_run service today_year dest sep reset self w _ Hwf
               (reset_buffer_rows reset self rows Hbuf)).
    fold self1. rewrite Hres, Hdates. cbn [map]. rewrite app_nil_r.
    destruct dest; reflexivity.
  - split; [apply df_rows_buffer; destruct reset; [constructor | exact Hfull] |].
    split; [apply df_columns_buffer |].
    split; [reflexivity |]. split; [reflexivity |].
    subst self1. destruct reset; repeat split.
Qed.

Lemma X7_reversed_years_witness :
  exists b self' t,
    Calendar_init strptime_iso "2021-01-01" "2020-12-31" true None
      default_country default_format = Ok b
    /\ generate no_service 2022 None default_sep false (b, World0)
       = ((self', World0), Ok (Some t))
    /\ df_rows t = [] /\ holidays self' = ∅.
Proof.
  pose (sd := mkdatetime 2021 1 1 0 0 0 0). pose (ed := mkdatetime 2020 12 31 0 0 0 0).
  pose (b := mkCalendar sd ed ((instant ed - instant sd) / us_per_day) true
               _gen_calendar_data_template None default_country ∅).
  destruct (X7_reversed_years no_service 2022 None default_sep false b World0 []
              (wf_dates_init sd ed true None default_country eq_refl eq_refl)
              (List.Forall_nil _) eq_refl eq_refl)
    as (self' & t & Hgen & Hrows & _ & _ & Hhol & _).
  { vm_compute. reflexivity. }
  exists b, self', t. split; [reflexivity |].
  split; [exact Hgen |]. split; [exact Hrows | exact Hhol].
Defined.

(** *** The cells of a row *)

Lemma iso_weekday_ordinal (d : datetime) :
  iso_weekday d = (toordinal d + 6) mod 7 + 1.
Proof.
  unfold iso_weekday, isocalendar, toordinal, _isoweek1monday. cbv zeta.
  generalize (_ymd2ord (year d) (month d) (day d)).
  generalize (_ymd2ord (year d) 1 1).
  generalize (_ymd2ord (year d - 1) 1 1).
  generalize (_ymd2ord (year d + 1) 1 1).
  intros f2 f0 f1 n.
  repeat match goal with |- context [if ?b then _ else _] => destruct b end;
    cbn [snd]; Z.div_mod_to_equations; lia.
Qed.

Lemma isoweek1monday_spec (y : Z) :
  (_isoweek1monday y + 6) mod 7 = 0
  /\ _days_before_year y - 2 <= _isoweek1monday y <= _days_before_year y + 4.
Proof.
  unfold _isoweek1monday, _ymd2ord. cbv zeta.
  change (_days_before_month y 1) with 0.
  generalize (_days_before_year y). intros b.
  destruct (3 <? (b + 0 + 1 + 6) mod 7) eqn:E;
    [apply Z.ltb_lt in E | apply Z.ltb_ge in E];
    Z.div_mod_to_equations; lia.
Qed.

Lemma isocalendar_bounds (d : datetime) :
  valid_datetime d = true ->
  year d - 1 <= fst (fst (isocalendar d)) <= year d + 1
  /\ 1 <= snd (fst (isocalendar d)) <= 53.
Proof.
  intros V. apply valid_datetime_unfold in V as [V _].
  apply valid_date_unfold in V as (Hy & Hm & Hd). cbn [date_of d_year d_month d_day] in *.
  pose proof (day_of_year_bounds _ _ _ Hm Hd) as Hdoy.
  pose proof (days_before_year_succ (year d)) as Hnext.
  pose proof (days_before_year_succ (year d - 1)) as Hprev.
  replace (year d - 1 + 1) with (year d) in Hprev by lia.
  pose proof (isoweek1monday_spec (year d)) as M0.
  pose proof (isoweek1monday_spec (year d - 1)) as Mp.
  pose proof (isoweek1monday_spec (year d + 1)) as Mn.
  unfold isocalendar, _ymd2ord. cbv zeta.
  set (m0 := _isoweek1monday (year d)) in *.
  set (mp := _isoweek1monday (year d - 1)) in *.
  set (mn := _isoweek1monday (year d + 1)) in *.
  set (dm := _days_before_month (year d) (month d)) in *.
  set (b := _days_before_year (year d)) in *.
  set (bn := _days_before_year (year d + 1)) in *.
  set (bp := _days_before_year (year d - 1)) in *.
  set (l0 := _is_leap (year d)) in *.
  set (l1 := _is_leap (year d - 1)) in *.
  clearbody m0 mp mn dm b bn bp l0 l1.
  destruct l0, l1;
  repeat match goal with
         | |- context [if ?b then _ else _] =>
             let E := fresh "E" in destruct b eqn:E
         end;
    cbn [fst snd];
    repeat match goal with
           | E : (_ <? _) = true |- _ => apply Z.ltb_lt in E
           | E : (_ <? _) = false |- _ => apply Z.ltb_ge in E
           | E : (_ <=? _) = true |- _ => apply Z.leb_le in E
           | E : (_ <=? _) = false |- _ => apply Z.leb_gt in E
           end;
    Z.div_mod_to_equations; lia.
Qed.

Lemma isocalendar_spec (d : datetime) :
  valid_datetime d = true ->
  let '(iso_year, weeknumber, weekday) := isocalendar d in
  _isoweek1monday iso_year <= toordinal d < _isoweek1monday (iso_year + 1)
  /\ weeknumber = (toordinal d - _isoweek1monday iso_year) / 7 + 1
  /\ weekday = (toordinal d - _isoweek1monday iso_year) mod 7 + 1.
Proof.
  intros V. apply valid_datetime_unfold in V as [V _].
  apply valid_date_unfold in V as (Hy & Hm & Hd). cbn [date_of d_year d_month d_day] in *.
  pose proof (day_of_year_bounds _ _ _ Hm Hd) as Hdoy.
  pose proof (days_before_year_succ (year d)) as Hnext.
  pose proof (days_before_year_succ (year d - 1)) as Hprev.
  pose proof (days_before_year_succ (year d + 1)) as Hnext2.
  replace (year d - 1 + 1) with (year d) in Hprev by lia.
  pose proof (isoweek1monday_spec (year d)) as M0.
  pose proof (isoweek1monday_spec (year d - 1)) as Mp.
  pose proof (isoweek1monday_spec (year d + 1)) as Mn.
  pose proof (isoweek1monday_spec (year d + 1 + 1)) as Mn2.
  unfold isocalendar, toordinal, _ymd2ord. cbv zeta.
  repeat match goal with
         | |- context [if ?b then _ else _] =>
             let E := fresh "E" in destruct b eqn:E
         end;
    cbv beta iota;
    replace (year d - 1 + 1) with (year d) by lia;
    repeat match goal with
           | E : (_ <? _) = true |- _ => apply Z.ltb_lt in E
           | E : (_ <? _) = false |- _ => apply Z.ltb_ge in E
           | E : (_ <=? _) = true |- _ => apply Z.leb_le in E
           | E : (_ <=? _) = false |- _ => apply Z.leb_gt in E
           end;
    set (m0 := _isoweek1monday (year d)) in *;
    set (mp := _isoweek1monday (year d - 1)) in *;
    set (mn := _isoweek1monday (year d + 1)) in *;
    set (mn2 := _isoweek1monday (year d + 1 + 1)) in *;
    set (dm := _days_before_month (year d) (month d)) in *;
    set (b := _days_before_year (year d)) in *;
    set (bn := _days_before_year (year d + 1)) in *;
    set (bn2 := _days_before_year (year d + 1 + 1)) in *;
    set (bp := _days_before_year (year d - 1)) in *;
    set (l0 := _is_leap (year d)) in *;
    set (l1 := _is_leap (year d - 1)) in *;
    set (l2 := _is_leap (year d + 1)) in *;
    clearbody m0 mp mn mn2 dm b bn bn2 bp l0 l1 l2;
    destruct l0, l1, l2;
    Z.div_mod_to_equations; lia.
Qed.

Lemma year_unpadded_table :
  forallb (fun i => year_unpadded_ok (Z.of_nat i)) (seq 0 (Z.to_nat 10000)) = true.
Proof. vm_compute. reflexivity. Qed.

Lemma year_unpadded (y : Z) :
  0 <= y <= 9999 -> year_unpadded_ok y = true.
Proof.
  intros H. pose proof year_unpadded_table as T.
  rewrite forallb_forall in T. specialize (T (Z.to_nat y)).
  rewrite Z2Nat.id in T by lia. apply T. apply in_seq. lia.
Qed.

Lemma string_length_app (a b : string) :
  String.length (a +:+ b) = (String.length a + String.length b)%nat.
Proof.
  induction a as [| x a IH]; [reflexivity |].
  rewrite string_app_cons. cbn [String.length]. rewrite IH. reflexivity.
Qed.

(** The lookup key of [_is_holiday] against the date cell. *)
Lemma strftime_isoformat (d : datetime) :
  valid_datetime d = true ->
  (1000 <= year d -> strftime_Ymd d = isoformat (date_of d))
  /\ (year d < 1000 -> strftime_Ymd d <> isoformat (date_of d)).
Proof.
  intros V. apply valid_datetime_unfold in V as [V _].
  apply valid_date_unfold in V as (Hy & _). cbn [date_of d_year] in Hy.
  unfold MINYEAR, MAXYEAR in Hy.
  assert (Hy' : 0 <= year d <= 9999) by lia.
  pose proof (year_unpadded (year d) Hy') as T.
  unfold year_unpadded_ok in T.
  unfold strftime_Ymd, isoformat. cbn [date_of d_year d_month d_day].
  generalize ("-" +:+ fmt0 2 (month d) +:+ "-" +:+ fmt0 2 (day d)).
  intros rest. split; intros H.
  - replace (1000 <=? year d) with true in T by (symmetry; apply Z.leb_le; lia).
    apply String.eqb_eq in T. rewrite T. reflexivity.
  - replace (1000 <=? year d) with false in T by (symmetry; apply Z.leb_gt; lia).
    apply andb_prop in T as [T1 T2].
    apply Nat.ltb_lt in T1. apply Nat.eqb_eq in T2.
    intros E. apply (f_equal String.length) in E.
    rewrite !string_length_app in E. lia.
Qed.

Lemma generate_new_rows (service : request -> option response)
    (today_year : Z) (dest : option string) (sep : ascii) (reset : bool)
    (self self' : Calendar) (w w' : World) (r : option DataFrame)
    (rows : list (list value)) :
  wf_dates self -> CALENDAR_DATA self = buffer_of rows ->
  generate service today_year dest sep reset (self, w) = ((self', w'), Ok r) ->
  CALENDAR_DATA self'
  = buffer_of ((if reset then [] else rows)
               ++ map (row_cells self') (dates_of self))
  /\ include_holidays self' = include_holidays self.
Proof.
  intros Hwf Hbuf Hgen.
  rewrite (generate_run service today_year dest sep reset self w _ Hwf
             (reset_buffer_rows reset self rows Hbuf)) in Hgen.
  destruct (resolve_shape service today_year (reset_buffer reset self) w)
    as (h & w2 & res & Hr).
  rewrite Hr in Hgen. destruct res as [[] | err]; [| discriminate Hgen].
  cbv zeta in Hgen.
  assert (Hself' : self'
                   = set_CALENDAR_DATA
                       (buffer_of ((if reset then [] else rows)
                                   ++ map (row_cells
                                             (set_holidays h (reset_buffer reset self)))
                                          (dates_of self)))
                       (set_holidays h (reset_buffer reset self)))
    by (destruct dest; injection Hgen as <- _ _; reflexivity).
  rewrite Hself'. split; [reflexivity | destruct reset; reflexivity].
Qed.

Lemma dates_of_valid (self : Calendar) (d : datetime) :
  wf_dates self -> In d (dates_of self) -> valid_datetime d = true.
Proof.
  intros (Vs & Ve & Hn) Hin. unfold dates_of, py_range in Hin.
  apply in_map_iff in Hin as (k & <- & Hk).
  apply in_map_iff in Hk as (i & <- & Hi). apply in_seq in Hi.
  apply (plus_days_in_range _ (end_date self)); [exact Vs | exact Ve |].
  rewrite <- Hn. lia.
Qed.

Lemma Forall2_map_same {A B} (P : A -> B -> Prop) (f : A -> B) (l : list A) :
  (forall x, In x l -> P x (f x)) -> Forall2 P l (map f l).
Proof.
  induction l as [| x l IH]; intros H; [constructor |].
  constructor; [apply H; left; reflexivity |].
  apply IH. intros y Hy. apply H. right. exact Hy.
Qed.

(** X8. Fetching, merging and the row loop composed: when holidays are
    enabled, every year of the range is answered and every date of every
    answer lists an entry, [generate] succeeds, and in the row of each day
    is_holiday is a boolean that is true exactly when some assignment of
    the merge names that day's key as its observed date, and holiday_name
    is the name given by the last such assignment, or nan when there is
    none.  The key is the day as [strftime] writes it: from the year 1000
    on it is the text of the date cell; before, the year is not padded and
    the key differs from the date cell. *)
Theorem X8_holiday_cells (service : request -> option response)
    (today_year : Z) (dest : option string) (sep : ascii) (reset : bool)
    (self : Calendar) (w w2 : World) (rows : list (list value))
    (answers : list holiday_dict) :
  wf_dates self -> CALENDAR_DATA self = buffer_of rows ->
  include_holidays self = true ->
  fetch_all service today_year (holiday_api_key self) (country self)
    (years_of self) w = (w2, Ok answers) ->
  entries_nonempty answers = true ->
  exists self' new,
    generate service today_year dest sep reset (self, w)
    = ((self', match dest with
               | None => w2
               | Some path => write_file path (to_csv sep (CALENDAR_DATA self')) w2
               end),
       Ok (match dest with
           | None => Some (CALENDAR_DATA self')
           | Some _ => None
           end))
    /\ CALENDAR_DATA self' = buffer_of ((if reset then [] else rows) ++ new)
    /\ Forall2 (fun d row =>
         let observed_on_d :=
           List.filter (fun h => String.eqb (observed h) (strftime_Ymd d))
             (all_writes answers) in
         nth 0 row VNaN = VStr (isoformat (date_of d))
         /\ (1000 <= year d -> strftime_Ymd d = isoformat (date_of d))
         /\ (year d < 1000 -> strftime_Ymd d <> isoformat (date_of d))
         /\ nth 9 row VNaN = VBool (negb (Nat.eqb (length observed_on_d) 0))
         /\ nth 10 row VNaN
            = match last observed_on_d with
              | Some h => VStr (name h)
              | None => VNaN
              end
         /\ (observed_on_d <> [] -> nth 8 row VNaN = VBool false))
       (dates_of self) new.
Proof.
  intros Hwf Hbuf Hincl Hfetch Hne.
  set (index := fold_left assign (all_writes answers) ∅).
  set (self1 := reset_buffer reset self).
  assert (Hres : resolve service today_year self1 w
                 = ((set_holidays index self1, w2), Ok tt)).
  { unfold resolve.
    replace (include_holidays self1) with true
      by (subst self1; destruct reset; symmetry; exact Hincl).
    cbn [when]. rewrite get_holidays_from_api_run.
    replace (holiday_api_key self1) with (holiday_api_key self)
      by (subst self1; destruct reset; reflexivity).
    replace (country self1) with (country self)
      by (subst self1; destruct reset; reflexivity).
    replace (years_of self1) with (years_of self)
      by (subst self1; destruct reset; reflexivity).
    rewrite Hfetch, (index_all_ok answers _ w2 Hne).
    rewrite set_holidays_twice. cbn [holidays set_holidays].
    rewrite policy_answers_writes. reflexivity. }
  set (self2 := set_holidays index self1) in *.
  set (new := map (row_cells self2) (dates_of self)).
  exists (set_CALENDAR_DATA (buffer_of ((if reset then [] else rows) ++ new)) self2),
         new.
  split; [| split; [reflexivity |]].
  - rewrite (generate_run service today_year dest sep reset self w _ Hwf
               (reset_buffer_rows reset self rows Hbuf)).
    fold self1. rewrite Hres. cbv zeta. fold new. destruct dest; reflexivity.
  - apply Forall2_map_same. intros d Hd. cbv zeta.
    split; [apply row_cells_date |].
    split; [apply (strftime_isoformat d (dates_of_valid self d Hwf Hd)) |].
    split; [apply (strftime_isoformat d (dates_of_valid self d Hwf Hd)) |].
    clear Hd. unfold row_cells, _is_business_day, _is_holiday.
    destruct (isocalendar d) as [[iso_year weeknumber] weekday].
    replace (include_holidays self2) with true
      by (subst self2 self1; destruct reset; symmetry; exact Hincl).
    replace (holidays self2) with index by reflexivity.
    subst index. rewrite (fold_assign_lookup (all_writes answers) ∅).
    generalize (List.filter (fun h => String.eqb (observed h) (strftime_Ymd d))
                  (all_writes answers)).
    intros l. cbn [nth].
    destruct l as [| x l].
    { cbn [last]. rewrite lookup_empty. cbn [fst snd length Nat.eqb negb].
      split; [reflexivity |]. split; [reflexivity |].
      intros H. exfalso. apply H. reflexivity. }
    destruct (last (x :: l)) as [h |] eqn:L;
      [| apply last_None in L; discriminate L].
    cbn [fst snd length Nat.eqb negb]. rewrite andb_false_r. auto.
Qed.

Lemma X8_holiday_cells_witness :
  let b := mkCalendar (mkdatetime 2021 1 1 0 0 0 0) (mkdatetime 2021 1 3 0 0 0 0)
             ((instant (mkdatetime 2021 1 3 0 0 0 0)
               - instant (mkdatetime 2021 1 1 0 0 0 0)) / us_per_day)
             true _gen_calendar_data_template (Some "k") default_country ∅ in
  exists self' w2 new,
    generate sample_service 2022 None default_sep false (b, World0)
    = ((self', w2), Ok (Some (CALENDAR_DATA self')))
    /\ CALENDAR_DATA self' = buffer_of new
    /\ length new = 2%nat.
Proof.
  intros b.
  assert (Hfetch : exists w2,
            fetch_all sample_service 2022 (holiday_api_key b) (country b)
              (years_of b) World0
            = (w2, Ok [[("2021-01-01", [new_years_day; local_observance])]]))
    by (eexists; vm_compute; reflexivity).
  destruct Hfetch as [w2 Hfetch].
  destruct (X8_holiday_cells sample_service 2022 None default_sep false b World0
              w2 [] _
              (wf_dates_init (mkdatetime 2021 1 1 0 0 0 0)
                 (mkdatetime 2021 1 3 0 0 0 0) true (Some "k") default_country
                 eq_refl eq_refl)
              eq_refl eq_refl Hfetch eq_refl)
    as (self' & new & Hgen & Hbuf & Hrows).
  exists self', w2, new. split; [exact Hgen |]. split; [exact Hbuf |].
  apply Forall2_length in Hrows. rewrite <- Hrows. vm_compute. reflexivity.
Defined.

(** X9. The calendar cells of every row a [generate] appends, day by day
    of the range: the date text, then the ISO year, the month, the day, the
    ISO weekday, its name, the ISO week number and the weekend flag, where
    ISO year, week number and weekday are the three components of the
    day's [isocalendar].  The day lies in the ISO year whose week 1 starts
    on [_isoweek1monday], the week number counts the weeks from that
    Monday, so it lies in 1..53, and the ISO year is within one of the
    calendar year of the date text.  The weekday is the day's ordinal plus
    6 modulo 7, plus 1, so it lies in 1..7 and the lookup in [WEEKDAY_MAP]
    never raises; the weekend flag is true exactly for the names Saturday
    and Sunday, that is for the weekdays 6 and 7. *)
Theorem X9_calendar_cells (service : request -> option response)
    (today_year : Z) (dest : option string) (sep : ascii) (reset : bool)
    (self self' : Calendar) (w w' : World) (r : option DataFrame)
    (rows : list (list value)) :
  wf_dates self -> CALENDAR_DATA self = buffer_of rows ->
  generate service today_year dest sep reset (self, w) = ((self', w'), Ok r) ->
  exists new,
    CALENDAR_DATA self' = buffer_of ((if reset then [] else rows) ++ new)
    /\ Forall2 (fun d row =>
         exists (iso_year weeknumber weekday : Z) (weekday_name : string)
                (is_weekend : bool),
           length row = 11%nat
           /\ firstn 8 row
              = [VStr (isoformat (date_of d)); VInt iso_year; VInt (month d);
                 VInt (day d); VInt weekday; VStr weekday_name;
                 VInt weeknumber; VBool is_weekend]
           /\ valid_datetime d = true
           /\ isocalendar d = (iso_year, weeknumber, weekday)
           /\ _isoweek1monday iso_year <= toordinal d
              < _isoweek1monday (iso_year + 1)
           /\ weeknumber = (toordinal d - _isoweek1monday iso_year) / 7 + 1
           /\ weekday = (toordinal d + 6) mod 7 + 1
           /\ 1 <= weekday <= 7
           /\ WEEKDAY_MAP_get weekday = Ok weekday_name
           /\ (is_weekend = true <->
               weekday_name = "Saturday" \/ weekday_name = "Sunday")
           /\ (is_weekend = true <-> weekday = 6 \/ weekday = 7)
           /\ year d - 1 <= iso_year <= year d + 1
           /\ 1 <= weeknumber <= 53)
       (dates_of self) new.
Proof.
  intros Hwf Hbuf Hgen.
  destruct (generate_new_rows _ _ _ _ _ _ _ _ _ _ _ Hwf Hbuf Hgen) as [Hdata _].
  exists (map (row_cells self') (dates_of self)). split; [exact Hdata |].
  apply Forall2_map_same. intros d Hd.
  pose proof (dates_of_valid self d Hwf Hd) as Vd.
  pose proof (iso_weekday_ordinal d) as Hwd.
  pose proof (isocalendar_bounds d Vd) as Hiso.
  pose proof (isocalendar_weekday d) as Hrange.
  pose proof (row_cells_length self' d) as Hlen.
  pose proof (isocalendar_spec d Vd) as Hspec.
  unfold iso_weekday in Hwd. unfold row_cells in *.
  destruct (isocalendar d) as [[iso_year weeknumber] weekday].
  cbn [fst snd] in *.
  exists iso_year, weeknumber, weekday, (weekday_name_of weekday),
         (_is_weekend weekday).
  split; [exact Hlen |]. split; [reflexivity |]. split; [exact Vd |].
  split; [reflexivity |]. split; [apply Hspec |]. split; [apply Hspec |].
  split; [exact Hwd |]. split; [exact Hrange |].
  split; [apply WEEKDAY_MAP_get_ok, Hrange |].
  split; [| split; [| exact Hiso]].
  - clear - Hrange.
    assert (C : weekday = 1 \/ weekday = 2 \/ weekday = 3 \/ weekday = 4
                \/ weekday = 5 \/ weekday = 6 \/ weekday = 7) by lia.
    destruct C as [-> | [-> | [-> | [-> | [-> | [-> | ->]]]]]];
      vm_compute; split; try discriminate; auto;
      intros [H | H]; discriminate H.
  - unfold _is_weekend. rewrite orb_true_iff, !Z.eqb_eq. reflexivity.
Qed.

Lemma X9_calendar_cells_witness :
  let b := mkCalendar (mkdatetime 2021 1 1 0 0 0 0) (mkdatetime 2021 1 4 0 0 0 0)
             ((instant (mkdatetime 2021 1 4 0 0 0 0)
               - instant (mkdatetime 2021 1 1 0 0 0 0)) / us_per_day)
             false _gen_calendar_data_template None default_country ∅ in
  exists self' w' t new,
    generate no_service 2022 None default_sep false (b, World0)
    = ((self', w'), Ok (Some t))
    /\ CALENDAR_DATA self' = buffer_of new
    /\ length new = 3%nat.
Proof.
  intros b.
  assert (Hgen : exists self' w' t,
            generate no_service 2022 None default_sep false (b, World0)
            = ((self', w'), Ok (Some t)))
    by (do 3 eexists; vm_compute; reflexivity).
  destruct Hgen as (self' & w' & t & Hgen).
  destruct (X9_calendar_cells no_service 2022 None default_sep false b self'
              World0 w' (Some t) []
              (wf_dates_init (mkdatetime 2021 1 1 0 0 0 0)
                 (mkdatetime 2021 1 4 0 0 0 0) false None default_country
                 eq_refl eq_refl)
              eq_refl Hgen)
    as (new & Hbuf & Hrows).
  exists self', w', t, new. split; [exact Hgen |]. split; [exact Hbuf |].
  apply Forall2_length in Hrows. rewrite <- Hrows. vm_compute. reflexivity.
Defined.

(** X10. In the rows a [generate] appends, the weekday cells follow the
    week: the weekday of each row after the first is the successor, in the
    cycle 1..7, of the weekday of the row before it. *)
Theorem X10_weekday_cycle (service : request -> option response)
    (today_year : Z) (dest : option string) (sep : ascii) (reset : bool)
    (self self' : Calendar) (w w' : World) (r : option DataFrame)
    (rows : list (list value)) :
  wf_dates self -> CALENDAR_DATA self = buffer_of rows ->
  generate service today_year dest sep reset (self, w) = ((self', w'), Ok r) ->
  exists new,
    CALENDAR_DATA self' = buffer_of ((if reset then [] else rows) ++ new)
    /\ length new = Z.to_nat (num_days self)
    /\ forall i, (S i < length new)%nat ->
         exists weekday,
           1 <= weekday <= 7
           /\ nth 4 (nth i new []) VNaN = VInt weekday
           /\ nth 4 (nth (S i) new []) VNaN = VInt (weekday mod 7 + 1).
Proof.
  intros Hwf Hbuf Hgen.
  destruct (generate_new_rows _ _ _ _ _ _ _ _ _ _ _ Hwf Hbuf Hgen) as [Hdata _].
  exists (map (row_cells self') (dates_of self)). split; [exact Hdata |].
  rewrite length_map, dates_of_length. split; [reflexivity |].
  intros i Hi.
  assert (Hcell : forall d, nth 4 (row_cells self' d) VNaN = VInt (iso_weekday d)).
  { intros d. unfold row_cells, iso_weekday.
    destruct (isocalendar d) as [[? ?] ?]. reflexivity. }
  assert (Hnth : forall j, (j < Z.to_nat (num_days self))%nat ->
            nth 4 (nth j (map (row_cells self') (dates_of self)) []) VNaN
            = VInt ((toordinal (start_date self) + Z.of_nat j + 6) mod 7 + 1)).
  { intros j Hj.
    rewrite (nth_indep _ [] (row_cells self' (start_date self)))
      by (rewrite length_map, dates_of_length; exact Hj).
    rewrite map_nth, Hcell, (dates_of_nth self j _ Hj), iso_weekday_ordinal.
    destruct Hwf as (Vs & Ve & Hn).
    destruct (plus_days_in_range (start_date self) (end_date self) (Z.of_nat j)
                Vs Ve) as (_ & -> & _); [rewrite <- Hn; lia | reflexivity]. }
  exists ((toordinal (start_date self) + Z.of_nat i + 6) mod 7 + 1).
  split; [Z.div_mod_to_equations; lia |].
  split; [apply Hnth; lia |].
  rewrite (Hnth (S i) Hi). f_equal.
  replace (Z.of_nat (S i)) with (Z.of_nat i + 1) by lia.
  Z.div_mod_to_equations. lia.
Qed.

Lemma X10_weekday_cycle_witness :
  let b := mkCalendar (mkdatetime 2021 1 1 0 0 0 0) (mkdatetime 2021 1 11 0 0 0 0)
             ((instant (mkdatetime 2021 1 11 0 0 0 0)
               - instant (mkdatetime 2021 1 1 0 0 0 0)) / us_per_day)
             false _gen_calendar_data_template None default_country ∅ in
  exists self' w' t new,
    generate no_service 2022 None default_sep false (b, World0)
    = ((self', w'), Ok (Some t))
    /\ CALENDAR_DATA self' = buffer_of new
    /\ length new = 10%nat.
Proof.
  intros b.
  assert (Hgen : exists self' w' t,
            generate no_service 2022 None default_sep false (b, World0)
            = ((self', w'), Ok (Some t)))
    by (do 3 eexists; vm_compute; reflexivity).
  destruct Hgen as (self' & w' & t & Hgen).
  destruct (X10_weekday_cycle no_service 2022 None default_sep false b self'
              World0 w' (Some t) []
              (wf_dates_init (mkdatetime 2021 1 1 0 0 0 0)
                 (mkdatetime 2021 1 11 0 0 0 0) false None default_country
                 eq_refl eq_refl)
              eq_refl Hgen)
    as (new & Hbuf & Hlen & _).
  exists self', w', t, new. split; [exact Hgen |]. split; [exact Hbuf |].
  rewrite Hlen. vm_compute. reflexivity.
Defined.

(** *** Date cells as constructor arguments *)

(** X11. Every date cell that [generate] appends is a string the
    constructor accepts under its default format: parsed with that format
    it gives back the day of the row, at midnight. *)
Theorem X11_date_cells_parse (service : request -> option response)
    (today_year : Z) (dest : option string) (sep : ascii) (reset : bool)
    (self self' : Calendar) (w w' : World) (r : option DataFrame)
    (rows : list (list value)) :
  wf_dates self -> CALENDAR_DATA self = buffer_of rows ->
  generate service today_year dest sep reset (self, w) = ((self', w'), Ok r) ->
  exists new,
    CALENDAR_DATA self' = buffer_of ((if reset then [] else rows) ++ new)
    /\ Forall2 (fun d row =>
         exists s,
           nth 0 row VNaN = VStr s
           /\ strptime_iso s default_format
              = Some (mkdatetime (year d) (month d) (day d) 0 0 0 0))
       (dates_of self) new.
Proof.
  intros Hwf Hbuf Hgen.
  destruct (generate_new_rows _ _ _ _ _ _ _ _ _ _ _ Hwf Hbuf Hgen) as [Hdata _].
  exists (map (row_cells self') (dates_of self)). split; [exact Hdata |].
  apply Forall2_map_same. intros d Hd.
  pose proof (dates_of_valid self d Hwf Hd) as Vd.
  apply valid_datetime_unfold in Vd as [Vd _].
  exists (isoformat (date_of d)). split; [apply row_cells_date |].
  unfold strptime_iso. rewrite String.eqb_refl.
  apply (parse_Ymd_isoformat (year d) (month d) (day d)), Vd.
Qed.

Lemma X11_date_cells_parse_witness :
  let b := mkCalendar (mkdatetime 2021 2 27 0 0 0 0) (mkdatetime 2021 3 2 0 0 0 0)
             ((instant (mkdatetime 2021 3 2 0 0 0 0)
               - instant (mkdatetime 2021 2 27 0 0 0 0)) / us_per_day)
             false _gen_calendar_data_template None default_country ∅ in
  exists self' w' t new,
    generate no_service 2022 None default_sep false (b, World0)
    = ((self', w'), Ok (Some t))
    /\ CALENDAR_DATA self' = buffer_of new
    /\ length new = 3%nat.
Proof.
  intros b.
  assert (Hgen : exists self' w' t,
            generate no_service 2022 None default_sep false (b, World0)
            = ((self', w'), Ok (Some t)))
    by (do 3 eexists; vm_compute; reflexivity).
  destruct Hgen as (self' & w' & t & Hgen).
  destruct (X11_date_cells_parse no_service 2022 None default_sep false b self'
              World0 w' (Some t) []
              (wf_dates_init (mkdatetime 2021 2 27 0 0 0 0)
                 (mkdatetime 2021 3 2 0 0 0 0) false None default_country
                 eq_refl eq_refl)
              eq_refl Hgen)
    as (new & Hbuf & Hrows).
  exists self', w', t, new. split; [exact Hgen |]. split; [exact Hbuf |].
  apply Forall2_length in Hrows. rewrite <- Hrows. vm_compute. reflexivity.
Defined.

(** *** Adjacent ranges *)

Lemma num_days_same_time (a b : datetime) :
  time_of_day a = time_of_day b ->
  (instant b - instant a) / us_per_day = toordinal b - toordinal a.
Proof.
  unfold time_of_day. intros [= Hh Hm Hs Hus].
  unfold instant, us_per_day. rewrite Hh, Hm, Hs, Hus.
  Z.div_mod_to_equations. lia.
Qed.

Lemma plus_days_shift (a b : datetime) (k : Z) :
  time_of_day a = time_of_day b ->
  plus_days a (toordinal b - toordinal a + k) = plus_days b k.
Proof.
  unfold time_of_day. intros [= Hh Hm Hs Hus]. unfold plus_days.
  replace (toordinal a + (toordinal b - toordinal a + k))
    with (toordinal b + k) by lia.
  rewrite Hh, Hm, Hs, Hus. reflexivity.
Qed.

Lemma py_range_add (n m : Z) :
  0 <= n -> 0 <= m ->
  py_range (n + m) = py_range n ++ map (fun j => n + j) (py_range m).
Proof.
  intros Hn Hm. unfold py_range.
  replace (Z.to_nat (n + m)) with (Z.to_nat n + Z.to_nat m)%nat by lia.
  rewrite seq_app, map_app. f_equal. cbn [Nat.add].
  rewrite map_map.
  apply nth_ext with (d := 0) (d' := 0); [rewrite !length_map, !length_seq; reflexivity |].
  intros i Hi. rewrite length_map, length_seq in Hi.
  rewrite (nth_indep _ 0 (Z.of_nat 0)) by (rewrite length_map, length_seq; exact Hi).
  rewrite map_nth, seq_nth by exact Hi.
  rewrite (nth_indep _ 0 (n + Z.of_nat 0)) by (rewrite length_map, length_seq; exact Hi).
  rewrite (map_nth (fun x => n + Z.of_nat x)), seq_nth by exact Hi. lia.
Qed.

Lemma row_cells_disabled (s1 s2 : Calendar) (d : datetime) :
  include_holidays s1 = false -> include_holidays s2 = false ->
  row_cells s1 d = row_cells s2 d.
Proof.
  intros H1 H2. unfold row_cells, _is_business_day. rewrite H1, H2.
  reflexivity.
Qed.

Lemma generate_disabled (service : request -> option response)
    (today_year : Z) (sep : ascii) (sd ed : datetime) (key : option string)
    (ctry : string) (w : World) :
  valid_datetime sd = true -> valid_datetime ed = true ->
  let b := mkCalendar sd ed ((instant ed - instant sd) / us_per_day) false
             _gen_calendar_data_template key ctry ∅ in
  exists b' t,
    generate service today_year None sep false (b, w) = ((b', w), Ok (Some t))
    /\ df_rows t = map (row_cells b) (dates_of b).
Proof.
  intros Vs Ve b.
  pose proof (wf_dates_init sd ed false key ctry Vs Ve) as Hwf. fold b in Hwf.
  rewrite (generate_run service today_year None sep false b w [] Hwf eq_refl).
  rewrite (resolve_disabled service today_year (reset_buffer false b) w eq_refl).
  cbv zeta. rewrite app_nil_l. do 2 eexists. split; [reflexivity |].
  apply df_rows_buffer, full_rows_cells.
Qed.

(** X12. Calendars of adjacent ranges concatenate.  With holidays
    disabled, for three strings that parse to datetimes a <= b <= c with
    the same time of day (as all do under the default format), the table
    generated for the range from a to c has exactly the rows of the table
    for a to b followed by the rows of the table for b to c. *)
Theorem X12_adjacent_ranges
    (strptime : string -> string -> option datetime)
    (service : request -> option response) (today_year : Z)
    (s1 s2 s3 fmt ctry : string) (key : option string) (a b c : datetime)
    (sep : ascii) (w : World) :
  strptime s1 fmt = Some a -> strptime s2 fmt = Some b ->
  strptime s3 fmt = Some c ->
  valid_datetime a = true -> valid_datetime b = true ->
  valid_datetime c = true ->
  time_of_day a = time_of_day b -> time_of_day b = time_of_day c ->
  datetime_le a b = true -> datetime_le b c = true ->
  exists t_ab t_bc t_ac,
    Calendar_generate strptime service today_year s1 s2 false key ctry fmt
      None sep false w = (w, Ok (Some t_ab))
    /\ Calendar_generate strptime service today_year s2 s3 false key ctry fmt
         None sep false w = (w, Ok (Some t_bc))
    /\ Calendar_generate strptime service today_year s1 s3 false key ctry fmt
         None sep false w = (w, Ok (Some t_ac))
    /\ df_rows t_ac = df_rows t_ab ++ df_rows t_bc.
Proof.
  intros H1 H2 H3 Va Vb Vc Tab Tbc Lab Lbc.
  assert (Tac : time_of_day a = time_of_day c) by congruence.
  apply (datetime_le_instant a b Va Vb) in Lab.
  apply (datetime_le_instant b c Vb Vc) in Lbc.
  pose proof (num_days_same_time a b Tab) as Nab.
  pose proof (num_days_same_time b c Tbc) as Nbc.
  pose proof (num_days_same_time a c Tac) as Nac.
  assert (Oab : 0 <= toordinal b - toordinal a)
    by (rewrite <- Nab; apply Z.div_pos; [lia | reflexivity]).
  assert (Obc : 0 <= toordinal c - toordinal b)
    by (rewrite <- Nbc; apply Z.div_pos; [lia | reflexivity]).
  destruct (generate_disabled service today_year sep a b key ctry w Va Vb)
    as (b1 & t_ab & G1 & R1).
  destruct (generate_disabled service today_year sep b c key ctry w Vb Vc)
    as (b2 & t_bc & G2 & R2).
  destruct (generate_disabled service today_year sep a c key ctry w Va Vc)
    as (b3 & t_ac & G3 & R3).
  exists t_ab, t_bc, t_ac. unfold Calendar_generate.
  rewrite (Calendar_init_ok strptime s1 s2 false key ctry fmt a b H1 H2 Va Vb).
  rewrite (Calendar_init_ok strptime s2 s3 false key ctry fmt b c H2 H3 Vb Vc).
  rewrite (Calendar_init_ok strptime s1 s3 false key ctry fmt a c H1 H3 Va Vc).
  rewrite G1, G2, G3.
  split; [reflexivity |]. split; [reflexivity |]. split; [reflexivity |].
  rewrite R1, R2, R3. unfold dates_of. cbn [start_date num_days].
  rewrite Nab, Nbc, Nac.
  replace (toordinal c - toordinal a)
    with ((toordinal b - toordinal a) + (toordinal c - toordinal b)) by lia.
  rewrite (py_range_add _ _ Oab Obc), !map_app, !map_map.
  set (b_ab := mkCalendar a b _ _ _ _ _ _).
  set (b_bc := mkCalendar b c _ _ _ _ _ _).
  set (b_ac := mkCalendar a c _ _ _ _ _ _).
  assert (E1 : forall k, row_cells b_ac (plus_days a k)
                         = row_cells b_ab (plus_days a k))
    by (intros k; apply row_cells_disabled; reflexivity).
  assert (E2 : forall k,
            row_cells b_ac
              (plus_days a (toordinal b - toordinal a + k))
            = row_cells b_bc (plus_days b k))
    by (intros k; rewrite (plus_days_shift a b _ Tab);
        apply row_cells_disabled; reflexivity).
  clearbody b_ab b_bc b_ac.
  rewrite (map_ext _ _ E1), (map_ext _ _ E2). reflexivity.
Qed.

Lemma X12_adjacent_ranges_witness :
  exists t_ab t_bc t_ac,
    Calendar_generate strptime_iso no_service 2022 "2020-12-30" "2021-01-02"
      false None default_country default_format None default_sep false World0
    = (World0, Ok (Some t_ab))
    /\ Calendar_generate strptime_iso no_service 2022 "2021-01-02" "2021-01-05"
         false None default_country default_format None default_sep false World0
       = (World0, Ok (Some t_bc))
    /\ Calendar_generate strptime_iso no_service 2022 "2020-12-30" "2021-01-05"
         false None default_country default_format None default_sep false World0
       = (World0, Ok (Some t_ac))
    /\ df_rows t_ac = df_rows t_ab ++ df_rows t_bc.
Proof.
  exact (X12_adjacent_ranges strptime_iso no_service 2022
           "2020-12-30" "2021-01-02" "2021-01-05" default_format default_country
           None (mkdatetime 2020 12 30 0 0 0 0) (mkdatetime 2021 1 2 0 0 0 0)
           (mkdatetime 2021 1 5 0 0 0 0) default_sep World0
           eq_refl eq_refl eq_refl eq_refl eq_refl eq_refl eq_refl eq_refl
           eq_refl eq_refl).
Defined.

(** *** The first year that fails *)

Lemma fetch_all_stops (service : request -> option response) (today_year : Z)
    (k ctry : string) (done later : list Z) (y : Z) (err : error) (w : World) :
  (forall y', In y' done ->
     exists h, read_response (service (request_for k ctry y')) = Ok h) ->
  read_response (service (request_for k ctry y)) = Raise err ->
  exists w',
    fetch_all service today_year (Some k) ctry (done ++ y :: later) w
    = (w', Raise err)
    /\ requests w' = requests w ++ map (request_for k ctry) (done ++ [y])
    /\ warnings w'
       = warnings w ++ List.filter (fun y => today_year <=? y) (done ++ [y])
    /\ files w' = files w.
Proof.
  intros Hdone Hy. revert w.
  induction done as [| y0 done IH]; intros w.
  - cbn [app fetch_all]. fold (request_for k ctry y). rewrite Hy.
    eexists. split; [reflexivity |]. cbn [map List.filter].
    destruct (today_year <=? y); cbn [requests warnings files];
      rewrite ?app_nil_r; auto.
  - cbn [app fetch_all]. fold (request_for k ctry y0).
    destruct (Hdone y0 (or_introl eq_refl)) as [h ->].
    match goal with |- context [fetch_all _ _ _ _ _ ?a] =>
      destruct (IH (fun y' H => Hdone y' (or_intror H)) a)
        as (w' & -> & Hreq & Hwarn & Hfiles) end.
    exists w'. split; [reflexivity |]. cbn [map List.filter].
    rewrite Hreq, Hwarn, Hfiles.
    destruct (today_year <=? y0); cbn [requests warnings files];
      rewrite <- ?app_assoc; auto.
Qed.

(** X13. The fetching stops at the first year that fails.  With holidays
    enabled and a key, when the years before some year of the range are
    answered and that year's answer is an error, [generate] raises that
    error having sent the requests up to and including the failing year and
    none for a later year; the warning of the failing year, if due, is
    already logged.  The builder is left as it was (the buffer emptied when
    reset was asked for, the old holiday index kept) and no file is
    written. *)
Theorem X13_first_failing_year (service : request -> option response)
    (today_year : Z) (dest : option string) (sep : ascii) (reset : bool)
    (self : Calendar) (w : World) (rows : list (list value)) (k : string)
    (done later : list Z) (y : Z) (err : error) :
  wf_dates self -> CALENDAR_DATA self = buffer_of rows ->
  include_holidays self = true -> holiday_api_key self = Some k ->
  years_of self = done ++ y :: later ->
  (forall y', In y' done ->
     exists h, read_response (service (request_for k (country self) y')) = Ok h) ->
  read_response (service (request_for k (country self) y)) = Raise err ->
  exists w',
    generate service today_year dest sep reset (self, w)
    = ((reset_buffer reset self, w'), Raise err)
    /\ requests w'
       = requests w ++ map (request_for k (country self)) (done ++ [y])
    /\ warnings w'
       = warnings w ++ List.filter (fun y => today_year <=? y) (done ++ [y])
    /\ files w' = files w.
Proof.
  intros Hwf Hbuf Hincl Hkey Hyears Hdone Hy.
  destruct (fetch_all_stops service today_year k (country self) done later y
              err w Hdone Hy) as (w' & Hfetch & Hlog).
  exists w'. split; [| exact Hlog].
  apply generate_resolve_raise. unfold resolve.
  replace (include_holidays (reset_buffer reset self)) with true
    by (destruct reset; symmetry; exact Hincl).
  cbn [when]. rewrite get_holidays_from_api_run.
  replace (holiday_api_key (reset_buffer reset self)) with (Some k)
    by (destruct reset; symmetry; exact Hkey).
  replace (country (reset_buffer reset self)) with (country self)
    by (destruct reset; reflexivity).
  replace (years_of (reset_buffer reset self)) with (done ++ y :: later)
    by (destruct reset; symmetry; exact Hyears).
  rewrite Hfetch. reflexivity.
Qed.

Lemma X13_first_failing_year_witness :
  let b := mkCalendar (mkdatetime 2021 12 30 0 0 0 0)
             (mkdatetime 2023 1 2 0 0 0 0)
             ((instant (mkdatetime 2023 1 2 0 0 0 0)
               - instant (mkdatetime 2021 12 30 0 0 0 0)) / us_per_day)
             true _gen_calendar_data_template (Some "k") default_country ∅ in
  exists w',
    generate sample_service 2022 None default_sep false (b, World0)
    = ((b, w'), Raise (Exception "402: paid plan required"))
    /\ requests w' = [request_for "k" default_country 2021;
                      request_for "k" default_country 2022]
    /\ warnings w' = [2022]
    /\ files w' = [].
Proof.
  intros b.
  destruct (X13_first_failing_year sample_service 2022 None default_sep false b
              World0 [] "k" [2021] [2023] 2022
              (Exception "402: paid plan required")
              (wf_dates_init (mkdatetime 2021 12 30 0 0 0 0)
                 (mkdatetime 2023 1 2 0 0 0 0) true (Some "k") default_country
                 eq_refl eq_refl)
              eq_refl eq_refl eq_refl eq_refl)
    as (w' & Hgen & Hreq & Hwarn & Hfiles).
  - intros y' [<- | []]. eexists. reflexivity.
  - reflexivity.
  - exists w'. auto.
Defined.
